(** * Don Churro sales bot: scheduled jobs, HTTP functions and chat widget

    A shallow embedding of the decision logic of the Wix Velo sales bot:
    the scheduled jobs ([jobs.config.js]), the HTTP functions
    ([http-functions.js]) and the chat widget ([chatWidget.js]).

    Conventions of the embedding.
    - A [Date] is its number of milliseconds since the epoch, a [Z].
    - The data store ([wixData]) is a record of collections; a collection is
      the list of its items in the order in which an unsorted query returns
      them, so [.limit(n).find()] is [firstn n] of the matching items.
    - Code that can throw lives in the monad [Job]: a state transformer over
      the [World] (store and mail outbox) whose result is a [Completion],
      either [Returned v] or [Threw e].
    - What the external collaborators do in one invocation (a rejected store
      call, the outcome of the mail transport, the scoring engine, the random
      draw) is read from an [Env] record, so every function below stays
      executable.  Both reads of the clock inside one invocation are taken at
      the same instant [now].
    - [backend/salesBot.jsw] is not among the sources.  Its functions are
      parameters of the code that calls them, except for
      [sendCartRecoveryEmail], whose effect on a cart the statements about
      the recovery passes need, and for the validation of discount codes;
      these are modelled from the specification and marked as such. *)

From Stdlib Require Import ZArith QArith List String Ascii Bool Arith Lia.
From Stdlib Require Import DecimalString.
Import ListNotations.

Open Scope string_scope.
Open Scope nat_scope.
Open Scope list_scope.

Set Implicit Arguments.
Set Warnings "-register-all".

(** ** JavaScript values *)

(** The values [JSON.parse] produces, with [JUndefined] for an absent
    property.  A number is the rational value of the parsed double. *)
Inductive JsValue : Type :=
| JUndefined
| JNull
| JBool (b : bool)
| JNum (q : Q)
| JStr (s : string)
| JArr (items : list JsValue)
| JObj (fields : list (string * JsValue)).

(** ToBoolean: [undefined], [null], [false], [0] and [""] are falsy; every
    array and object is truthy, the empty ones too. *)
Definition truthy (v : JsValue) : bool :=
  match v with
  | JUndefined | JNull => false
  | JBool b => b
  | JNum q => negb (Qeq_bool q 0)
  | JStr s => negb (s =? "")%string
  | JArr _ | JObj _ => true
  end.

(** [a || b] *)
Definition js_or (a b : JsValue) : JsValue := if truthy a then a else b.

(** ** Completions and the [Job] monad *)

Inductive Completion (A : Type) : Type :=
| Returned (value : A)
| Threw (error : string).

Arguments Returned {A} value.
Arguments Threw {A} error.

(** ** Data model *)

Module AbandonedCart.
Record t : Type := mk {
    _id : string;
    customerId : string;
    cartItems : JsValue;
    cartTotal : Q;
    abandonedAt : Z;
    recovered : bool;
    emailSent : bool;
    reminderCount : nat;
    lastReminderAt : option Z
  }.
End AbandonedCart.

(** Of a customer the segmentation job reads [_id] and [segment] and writes
    the three fields after [_id]; whatever else an item holds it copies
    along with [...customer]. *)
Module Customer.
Record t : Type := mk {
    _id : string;
    segment : option string;
    valueScore : option Q;
    lastSegmentUpdate : option Z
  }.
End Customer.

(** An item of [BrowsingHistory] or [CustomerInteractions]; the cleanup job
    reads nothing but the two fields below. *)
Module Tracked.
Record t : Type := mk {
    _id : string;
    timestamp : Z
  }.
End Tracked.

Module Order.
Record t : Type := mk {
    _createdDate : Z;
    total : option Q
  }.
End Order.

(** The store of record and the outbox of the mail collaborator (the ids of
    the carts a recovery email went out for, oldest first). *)
Record World : Type := mkWorld {
  AbandonedCarts : list AbandonedCart.t;
  Customers : list Customer.t;
  BrowsingHistory : list Tracked.t;
  CustomerInteractions : list Tracked.t;
  Orders : list Order.t;
  DailyReports : list JsValue;
  outbox : list string
}.

(** What the mail transport does with one recovery email. *)
Inductive MailOutcome : Type :=
| MailAccepted
| MailRejected (message : string)
| MailThrows (error : string).

(** The result object of [getCustomerValueScore]. *)
Record ValueScore : Type := mkValueScore {
  vs_success : bool;
  vs_segment : option string;
  vs_score : option Q
}.

(** The behaviour of the collaborators during one invocation.
    [find_error n] is the error the [n]-th query of the invocation rejects
    with, if it rejects; likewise for the other store calls. *)
Record Env : Type := mkEnv {
  find_error : nat -> option string;
  update_error : string -> option string;
  remove_error : string -> string -> option string;
  insert_error : option string;
  mail : string -> MailOutcome;
  getCustomerValueScore : string -> Completion ValueScore;
  render_report : Z -> list Order.t * nat -> list Order.t * nat -> JsValue
}.

Definition Job (A : Type) : Type := World -> World * Completion A.

Definition ret {A} (a : A) : Job A := fun w => (w, Returned a).

Definition throw {A} (e : string) : Job A := fun w => (w, Threw e).

Definition bind {A B} (m : Job A) (k : A -> Job B) : Job B :=
  fun w =>
    match m w with
    | (w', Returned a) => k a w'
    | (w', Threw e) => (w', Threw e)
    end.

(** [try { body } catch (error) { handler }]: what [body] did to the world
    before it threw stays done. *)
Definition try_catch {A} (body : Job A) (handler : string -> Job A) : Job A :=
  fun w =>
    match body w with
    | (w', Returned a) => (w', Returned a)
    | (w', Threw e) => handler e w'
    end.

Notation "x <- m ;; k" := (bind m (fun x => k))
  (at level 61, m at next level, right associativity).
Notation "m ;;; k" := (bind m (fun _ => k))
  (at level 61, right associativity).

(** [for (const x of items) body], threading the local counters [s]. *)
Fixpoint for_of {A S} (items : list A) (body : A -> S -> Job S) (s : S)
  : Job S :=
  match items with
  | [] => ret s
  | x :: rest => s' <- body x s ;; for_of rest body s'
  end.

(** The result of a query: the page of items and the number of items that
    match. *)
Record QueryResult (A : Type) : Type := mkQueryResult {
  items : list A;
  totalCount : nat
}.

(** A query without [.limit(n)] returns a page of 50 items. *)
Definition default_limit : nat := 50.

(** [wixData.query(...)<filters>.limit(n).find()], the [k]-th query of the
    invocation, over the collection [collection]. *)
Definition find {A} (E : Env) (k : nat) (matches : A -> bool)
    (limit : nat) (collection : list A) : Job (QueryResult A) :=
  match find_error E k with
  | Some e => throw e
  | None =>
      ret (mkQueryResult (firstn limit (filter matches collection))
                         (List.length (filter matches collection)))
  end.

(** ** Cart recovery *)

Definition find_cart (cartId : string) (carts : list AbandonedCart.t)
  : option AbandonedCart.t :=
  List.find (fun c => (AbandonedCart._id c =? cartId)%string) carts.

(** The transition a successful send makes on the cart record. *)
Definition remind (now : Z) (c : AbandonedCart.t) : AbandonedCart.t :=
  AbandonedCart.mk
    (AbandonedCart._id c) (AbandonedCart.customerId c)
    (AbandonedCart.cartItems c) (AbandonedCart.cartTotal c)
    (AbandonedCart.abandonedAt c) (AbandonedCart.recovered c)
    true (S (AbandonedCart.reminderCount c)) (Some now).

Definition record_reminder (now : Z) (cartId : string) (w : World) : World :=
  mkWorld
    (map (fun c => if (AbandonedCart._id c =? cartId)%string then remind now c else c)
         (AbandonedCarts w))
    (Customers w) (BrowsingHistory w) (CustomerInteractions w) (Orders w)
    (DailyReports w) (outbox w ++ [cartId]).

Record SendResult : Type := mkSendResult {
  success : bool;
  message : string
}.

(** Modelled from the spec: [sendCartRecoveryEmail] is defined in
    [backend/salesBot.jsw], which is not among the sources; the jobs and HTTP
    functions only import it.  Following sections 3, 4.4 and 7 of the
    specification: a cart that does not exist is a [NotFound] failure; a send
    the mail collaborator accepts sets [emailSent=true], advances
    [reminderCount] by one step and sets [lastReminderAt=now]; a send that
    fails does not advance the state.  Minting the discount code has no
    effect on the cart record and is left out.  The function sends to
    whichever cart it is asked to: it does not look at [recovered],
    [emailSent] or the time windows, which are the callers' queries. *)
Definition sendCartRecoveryEmail (E : Env) (now : Z) (cartId : string)
  : Job SendResult :=
  fun w =>
    match find_cart cartId (AbandonedCarts w) with
    | None => (w, Returned (mkSendResult false "Cart not found"))
    | Some _ =>
        match mail E cartId with
        | MailThrows e => (w, Threw e)
        | MailRejected m => (w, Returned (mkSendResult false m))
        | MailAccepted =>
            (record_reminder now cartId w, Returned (mkSendResult true ""))
        end
    end.

(** *** [jobs.config.js]: processAbandonedCarts *)

Record CartJobSummary : Type := mkCartJobSummary {
  processed : nat;
  successful : nat;
  failed : nat
}.

Definition first_reminder_due (now : Z) (c : AbandonedCart.t) : bool :=
  let oneHourAgo := (now - 60 * 60 * 1000)%Z in
  let twentyFourHoursAgo := (now - 24 * 60 * 60 * 1000)%Z in
  (twentyFourHoursAgo <=? AbandonedCart.abandonedAt c)%Z
  && (AbandonedCart.abandonedAt c <=? oneHourAgo)%Z
  && Bool.eqb (AbandonedCart.emailSent c) false
  && Bool.eqb (AbandonedCart.recovered c) false.

(** The body of the loop over the selected carts. *)
Definition recover_one (E : Env) (now : Z) (cart : AbandonedCart.t)
    (counts : nat * nat) : Job (nat * nat) :=
  let '(successCount, failCount) := counts in
  try_catch
    (result <- sendCartRecoveryEmail E now (AbandonedCart._id cart) ;;
     if success result
     then ret (S successCount, failCount)
     else ret (successCount, S failCount))
    (fun _ => ret (successCount, S failCount)).

Definition processAbandonedCarts (E : Env) (now : Z) : Job CartJobSummary :=
  try_catch
    (fun w =>
       (abandonedCarts <-
          find E 0 (first_reminder_due now) 100 (AbandonedCarts w) ;;
        counts <- for_of (items abandonedCarts) (recover_one E now) (0, 0) ;;
        ret (mkCartJobSummary (List.length (items abandonedCarts))
                              (fst counts) (snd counts))) w)
    (fun error => throw error).

(** *** [jobs.config.js]: sendSecondReminder *)

Record SecondReminderSummary : Type := mkSecondReminderSummary {
  sent : nat
}.

Definition second_reminder_due (now : Z) (c : AbandonedCart.t) : bool :=
  let twentyFourHoursAgo := (now - 24 * 60 * 60 * 1000)%Z in
  let fortyEightHoursAgo := (now - 48 * 60 * 60 * 1000)%Z in
  match AbandonedCart.lastReminderAt c with
  | None => false
  | Some t => (fortyEightHoursAgo <=? t)%Z && (t <=? twentyFourHoursAgo)%Z
  end
  && Bool.eqb (AbandonedCart.recovered c) false
  && (AbandonedCart.reminderCount c =? 1).

Definition remind_one (E : Env) (now : Z) (cart : AbandonedCart.t)
    (successCount : nat) : Job nat :=
  try_catch
    (sendCartRecoveryEmail E now (AbandonedCart._id cart) ;;;
     ret (S successCount))
    (fun _ => ret successCount).

Definition sendSecondReminder (E : Env) (now : Z)
  : Job SecondReminderSummary :=
  try_catch
    (fun w =>
       (eligibleCarts <-
          find E 0 (second_reminder_due now) 50 (AbandonedCarts w) ;;
        successCount <- for_of (items eligibleCarts) (remind_one E now) 0 ;;
        ret (mkSecondReminderSummary successCount)) w)
    (fun error => throw error).

(** *** [jobs.config.js]: updateCustomerSegments *)

Record SegmentJobSummary : Type := mkSegmentJobSummary {
  customers_processed : nat;
  updated : nat
}.

Definition option_string_eqb (a b : option string) : bool :=
  match a, b with
  | Some x, Some y => (x =? y)%string
  | None, None => true
  | _, _ => false
  end.

(** [wixData.update("Customers", item)]: replaces the stored item that has
    the id of [item].  The job only updates items its own query returned. *)
Definition update_customer (E : Env) (item : Customer.t) : Job unit :=
  fun w =>
    match update_error E (Customer._id item) with
    | Some e => (w, Threw e)
    | None =>
        (mkWorld (AbandonedCarts w)
           (map (fun c =>
                   if (Customer._id c =? Customer._id item)%string
                   then item else c)
                (Customers w))
           (BrowsingHistory w) (CustomerInteractions w) (Orders w)
           (DailyReports w) (outbox w),
         Returned tt)
    end.

Definition resegment_one (E : Env) (now : Z) (customer : Customer.t)
    (updated : nat) : Job nat :=
  try_catch
    (valueScore <-
       (fun w => (w, getCustomerValueScore E (Customer._id customer))) ;;
     if vs_success valueScore
        && negb (option_string_eqb (Customer.segment customer)
                                   (vs_segment valueScore))
     then
       update_customer E
         (Customer.mk (Customer._id customer) (vs_segment valueScore)
                      (vs_score valueScore) (Some now)) ;;;
       ret (S updated)
     else ret updated)
    (fun _ => ret updated).

Definition updateCustomerSegments (E : Env) (now : Z)
  : Job SegmentJobSummary :=
  try_catch
    (fun w =>
       (customers <- find E 0 (fun _ => true) 1000 (Customers w) ;;
        updated <- for_of (items customers) (resegment_one E now) 0 ;;
        ret (mkSegmentJobSummary (List.length (items customers)) updated)) w)
    (fun error => throw error).

(** *** [jobs.config.js]: cleanOldData *)

Record CleanupSummary : Type := mkCleanupSummary {
  deletedBrowsingHistory : nat;
  deletedInteractions : nat;
  deletedCarts : nat
}.

Definition drop_tracked (id : string) (l : list Tracked.t) : list Tracked.t :=
  filter (fun r => negb (Tracked._id r =? id)%string) l.

(** [wixData.remove(collection, id)] for the three collections the job
    cleans. *)
Definition remove_browsing (E : Env) (id : string) : Job unit :=
  fun w =>
    match remove_error E "BrowsingHistory" id with
    | Some e => (w, Threw e)
    | None =>
        (mkWorld (AbandonedCarts w) (Customers w)
           (drop_tracked id (BrowsingHistory w)) (CustomerInteractions w)
           (Orders w) (DailyReports w) (outbox w),
         Returned tt)
    end.

Definition remove_interaction (E : Env) (id : string) : Job unit :=
  fun w =>
    match remove_error E "CustomerInteractions" id with
    | Some e => (w, Threw e)
    | None =>
        (mkWorld (AbandonedCarts w) (Customers w) (BrowsingHistory w)
           (drop_tracked id (CustomerInteractions w))
           (Orders w) (DailyReports w) (outbox w),
         Returned tt)
    end.

Definition remove_cart (E : Env) (id : string) : Job unit :=
  fun w =>
    match remove_error E "AbandonedCarts" id with
    | Some e => (w, Threw e)
    | None =>
        (mkWorld
           (filter (fun c => negb (AbandonedCart._id c =? id)%string)
                   (AbandonedCarts w))
           (Customers w) (BrowsingHistory w) (CustomerInteractions w)
           (Orders w) (DailyReports w) (outbox w),
         Returned tt)
    end.

Definition cleanOldData (E : Env) (now : Z) : Job CleanupSummary :=
  let ninetyDaysAgo := (now - 90 * 24 * 60 * 60 * 1000)%Z in
  try_catch
    (fun w0 =>
       (oldBrowsingHistory <-
          find E 0 (fun r => (Tracked.timestamp r <? ninetyDaysAgo)%Z) 1000
               (BrowsingHistory w0) ;;
        deletedBrowsing <-
          for_of (items oldBrowsingHistory)
                 (fun record n =>
                    remove_browsing E (Tracked._id record) ;;; ret (S n)) 0 ;;
        fun w1 =>
          (oldInteractions <-
             find E 1 (fun r => (Tracked.timestamp r <? ninetyDaysAgo)%Z) 1000
                  (CustomerInteractions w1) ;;
           deletedInteractions <-
             for_of (items oldInteractions)
                    (fun record n =>
                       remove_interaction E (Tracked._id record) ;;;
                       ret (S n)) 0 ;;
           fun w2 =>
             (oldCarts <-
                find E 2
                     (fun c =>
                        (AbandonedCart.abandonedAt c <? ninetyDaysAgo)%Z
                        && Bool.eqb (AbandonedCart.recovered c) true)
                     500 (AbandonedCarts w2) ;;
              deletedCarts <-
                for_of (items oldCarts)
                       (fun cart n =>
                          remove_cart E (AbandonedCart._id cart) ;;;
                          ret (S n)) 0 ;;
              ret (mkCleanupSummary deletedBrowsing deletedInteractions
                                    deletedCarts)) w2) w1) w0)
    (fun error => throw error).

(** *** [jobs.config.js]: generateDailySalesReport *)

Definition insert_report (E : Env) (report : JsValue) : Job unit :=
  fun w =>
    match insert_error E with
    | Some e => (w, Threw e)
    | None =>
        (mkWorld (AbandonedCarts w) (Customers w) (BrowsingHistory w)
           (CustomerInteractions w) (Orders w)
           (DailyReports w ++ [report]) (outbox w),
         Returned tt)
    end.

(** The figures of the report are sums and quotients of doubles printed
    with [toFixed(2)]; the embedding takes the finished report object from
    [render_report] and keeps the control flow. *)
Definition generateDailySalesReport (E : Env) (now : Z) : Job JsValue :=
  let yesterday := (now - 24 * 60 * 60 * 1000)%Z in
  let dayBefore := (now - 48 * 60 * 60 * 1000)%Z in
  try_catch
    (fun w =>
       (todayOrders <-
          find E 0
               (fun o => (yesterday <=? Order._createdDate o)%Z
                         && (Order._createdDate o <? now)%Z)
               default_limit (Orders w) ;;
        previousOrders <-
          find E 1
               (fun o => (dayBefore <=? Order._createdDate o)%Z
                         && (Order._createdDate o <? yesterday)%Z)
               default_limit (Orders w) ;;
        let report :=
          render_report E now
            (items todayOrders, totalCount todayOrders)
            (items previousOrders, totalCount previousOrders) in
        insert_report E report ;;;
        ret report) w)
    (fun error => throw error).

(** ** [http-functions.js] *)

Inductive HttpResponse (B : Type) : Type :=
| ok (body : B)
| badRequest (body : B)
| serverError (body : B).

Arguments ok {B} body.
Arguments badRequest {B} body.
Arguments serverError {B} body.

(** [v.key] for the property names the handlers read ([customerId],
    [cartItems], [cartTotal], [success]): reading a property of [null]
    throws, a primitive or an array has no such property, and of two equal
    keys of a parsed object the last one counts. *)
Definition member (v : JsValue) (key : string) : Completion JsValue :=
  match v with
  | JUndefined | JNull => Threw "Cannot read properties of null"
  | JObj fields =>
      match List.find (fun kv => (fst kv =? key)%string) (rev fields) with
      | Some kv => Returned (snd kv)
      | None => Returned JUndefined
      end
  | _ => Returned JUndefined
  end.

Definition lift {A} (c : Completion A) : Job A := fun w => (w, c).

Definition error_body (error message : string) : JsValue :=
  JObj [("error", JStr error); ("message", JStr message)].

Section CartAbandoned.

  (** [trackAbandonedCart] of [backend/salesBot.jsw], which is not among the
      sources: any function of the three arguments that acts on the store
      and returns a result object, or throws. *)
Variable trackAbandonedCart : JsValue -> JsValue -> JsValue -> Job JsValue.

  (** The body of the [try] block. [request] is what
      [await request.body.json()] completes with. *)
Definition cartAbandoned_try (request : Completion JsValue)
    : Job (HttpResponse JsValue) :=
    body <- lift request ;;
    customerId <- lift (member body "customerId") ;;
    cartItems <- lift (member body "cartItems") ;;
    if negb (truthy customerId) || negb (truthy cartItems)
    then
      ret (badRequest
             (JObj [("error",
                     JStr "Missing required fields: customerId, cartItems")]))
    else
      cartTotal <- lift (member body "cartTotal") ;;
      result <-
        trackAbandonedCart customerId cartItems (js_or cartTotal (JNum 0)) ;;
      success <- lift (member result "success") ;;
      if truthy success
      then ret (ok result)
      else ret (serverError result).

Definition post_cartAbandoned (request : Completion JsValue) (w : World)
    : World * HttpResponse JsValue :=
    match cartAbandoned_try request w with
    | (w', Returned response) => (w', response)
    | (w', Threw message) =>
        (w', serverError (error_body "Internal server error" message))
    end.

End CartAbandoned.

(** *** post_bulkRecovery *)

Record BulkResults : Type := mkBulkResults {
  results_processed : nat;
  results_successful : nat;
  results_failed : nat;
  errors : list (string * string)
}.

(** The request body of the bulk endpoint after parsing, an object:
    [hoursOld] is absent or a whole number of hours. *)
Record BulkRequest : Type := mkBulkRequest {
  hoursOld : option Z
}.

Definition bulk_due (cutoffTime : Z) (c : AbandonedCart.t) : bool :=
  (AbandonedCart.abandonedAt c <=? cutoffTime)%Z
  && Bool.eqb (AbandonedCart.emailSent c) false
  && Bool.eqb (AbandonedCart.recovered c) false.

(** [body.hoursOld || 1] *)
Definition hoursOld_or_default (body : BulkRequest) : Z :=
  match hoursOld body with
  | Some h => if (h =? 0)%Z then 1%Z else h
  | None => 1%Z
  end.

Definition bulk_one (E : Env) (now : Z) (cart : AbandonedCart.t)
    (results : BulkResults) : Job BulkResults :=
  let results :=
    mkBulkResults (S (results_processed results)) (results_successful results)
                  (results_failed results) (errors results) in
  try_catch
    (result <- sendCartRecoveryEmail E now (AbandonedCart._id cart) ;;
     if success result
     then ret (mkBulkResults (results_processed results)
                             (S (results_successful results))
                             (results_failed results) (errors results))
     else ret (mkBulkResults (results_processed results)
                             (results_successful results)
                             (S (results_failed results))
                             (errors results
                              ++ [(AbandonedCart._id cart, message result)])))
    (fun error =>
       ret (mkBulkResults (results_processed results)
                          (results_successful results)
                          (S (results_failed results))
                          (errors results
                           ++ [(AbandonedCart._id cart, error)]))).

Definition bulkRecovery_try (E : Env) (now : Z)
    (request : Completion BulkRequest) : Job BulkResults :=
  body <- lift request ;;
  let hoursOld := hoursOld_or_default body in
  let cutoffTime := (now - hoursOld * 60 * 60 * 1000)%Z in
  fun w =>
    (abandonedCarts <- find E 0 (bulk_due cutoffTime) 50 (AbandonedCarts w) ;;
     for_of (items abandonedCarts) (bulk_one E now)
            (mkBulkResults 0 0 0 [])) w.

Definition post_bulkRecovery (E : Env) (now : Z)
    (request : Completion BulkRequest) (w : World)
  : World * HttpResponse (BulkResults + JsValue) :=
  match bulkRecovery_try E now request w with
  | (w', Returned results) => (w', ok (inl results))
  | (w', Threw message) =>
      (w', serverError (inr (error_body "Bulk recovery failed" message)))
  end.

(** ** [chatWidget.js] *)

(** *** Text, lower case and the regular expressions of the widget

    A string is the sequence of the bytes of its UTF-8 form.  The patterns
    of the widget are ASCII, and a byte above 127 is not a word character.
    Of the characters outside ASCII, [toLowerCase] maps the two whose lower
    case has an ASCII letter: U+212A, the bytes E2 84 AA, to [k], and
    U+0130, the bytes C4 B0, to [i] followed by U+0307, the bytes CC 87.
    The lower case of every other character is outside ASCII as the
    character is, and is no line end; the patterns tell no two such
    characters apart, and the embedding leaves the character as it is. *)

Definition ascii_between (lo hi : nat) (c : ascii) : bool :=
  (lo <=? nat_of_ascii c) && (nat_of_ascii c <=? hi).

Definition lower_char (c : ascii) : ascii :=
  if ascii_between 65 90 c then ascii_of_nat (nat_of_ascii c + 32) else c.

Definition is_byte (n : nat) (c : ascii) : bool := nat_of_ascii c =? n.

Fixpoint toLowerCase (s : string) : string :=
  match s with
  | EmptyString => EmptyString
  | String c1 rest1 =>
      match rest1 with
      | String c2 rest2 =>
          if is_byte 196 c1 && is_byte 176 c2
          then String "i" (String (ascii_of_nat 204)
                             (String (ascii_of_nat 135) (toLowerCase rest2)))
          else
            match rest2 with
            | String c3 rest3 =>
                if is_byte 226 c1 && is_byte 132 c2 && is_byte 170 c3
                then String "k" (toLowerCase rest3)
                else String (lower_char c1) (toLowerCase rest1)
            | EmptyString => String (lower_char c1) (toLowerCase rest1)
            end
      | EmptyString => String (lower_char c1) EmptyString
      end
  end.

Module Regex.

  (** The fragment of regular expressions the widget uses: [^], [\b], a group
      of literal alternatives [(a|b|...)] and [.*]; a pattern is a sequence
      of these. *)
Inductive atom : Type :=
  | Bol
  | WordBoundary
  | OneOf (alternatives : list string)
  | AnyStar.

Definition t : Type := list atom.

  (** [\w] *)
Definition is_word_char (c : ascii) : bool :=
    ascii_between 48 57 c || ascii_between 65 90 c
    || ascii_between 97 122 c || (nat_of_ascii c =? 95).

Definition is_word (c : option ascii) : bool :=
    match c with
    | Some c => is_word_char c
    | None => false
    end.

Definition head (s : string) : option ascii :=
    match s with
    | EmptyString => None
    | String c _ => Some c
    end.

  (** [\b] holds between the character before the position, [prev], and
      the character at the position when exactly one of the two is a word
      character. *)
Definition at_boundary (prev : option ascii) (s : string) : bool :=
    xorb (is_word prev) (is_word (head s)).

  (** The [.] of a pattern without the [s] flag stops at a line end: at LF
      and CR, and at U+2028 and U+2029, the bytes E2 80 A8 and E2 80 A9. *)
Definition is_line_terminator (c : ascii) : bool :=
    (nat_of_ascii c =? 10) || (nat_of_ascii c =? 13).

Definition at_line_separator (s : string) : bool :=
    match s with
    | String c1 (String c2 (String c3 _)) =>
        is_byte 226 c1 && is_byte 128 c2
        && (is_byte 168 c3 || is_byte 169 c3)
    | _ => false
    end.

  (** Consumes the literal [lit] at the start of [s], comparing under the
      [i] flag; returns the last character consumed and the rest. *)
Fixpoint consume (lit : string) (prev : option ascii) (s : string)
    : option (option ascii * string) :=
    match lit with
    | EmptyString => Some (prev, s)
    | String p lit' =>
        match s with
        | EmptyString => None
        | String c s' =>
            if Ascii.eqb (lower_char p) (lower_char c)
            then consume lit' (Some c) s'
            else None
        end
    end.

  (** Whether the pattern matches at this position, by backtracking. *)
Fixpoint match_here (re : t) (prev : option ascii) (s : string) : bool :=
    match re with
    | [] => true
    | Bol :: re' =>
        match prev with
        | None => match_here re' prev s
        | Some _ => false
        end
    | WordBoundary :: re' => at_boundary prev s && match_here re' prev s
    | OneOf alternatives :: re' =>
        existsb
          (fun lit =>
             match consume lit prev s with
             | Some (prev', s') => match_here re' prev' s'
             | None => false
             end)
          alternatives
    | AnyStar :: re' =>
        (fix any (prev : option ascii) (s : string) : bool :=
           match_here re' prev s
           || match s with
              | EmptyString => false
              | String c s' =>
                  if is_line_terminator c || at_line_separator s
                  then false else any (Some c) s'
              end) prev s
    end.

Fixpoint search (re : t) (prev : option ascii) (s : string) : bool :=
    match_here re prev s
    || match s with
       | EmptyString => false
       | String c s' => search re (Some c) s'
       end.

  (** [re.test(s)] *)
Definition test (re : t) (s : string) : bool := search re None s.

End Regex.

(** Intent patterns for natural language understanding *)
Module INTENT_PATTERNS.
Import Regex.
Definition greeting : Regex.t :=
    [Bol; OneOf ["hi"; "hello"; "hey"; "hola"; "buenos dias"; "good morning";
                 "good afternoon"]].
Definition productSearch : Regex.t :=
    [WordBoundary;
     OneOf ["looking for"; "find"; "search"; "want"; "need"; "show me"];
     WordBoundary; AnyStar; WordBoundary;
     OneOf ["product"; "item"; "churro"; "food"; "menu"]].
Definition recommendations : Regex.t :=
    [WordBoundary;
     OneOf ["recommend"; "suggest"; "best"; "popular"; "trending"; "top"];
     WordBoundary].
Definition discount : Regex.t :=
    [WordBoundary;
     OneOf ["discount"; "coupon"; "promo"; "offer"; "deal"; "sale"; "code"];
     WordBoundary].
Definition help : Regex.t :=
    [WordBoundary;
     OneOf ["help"; "support"; "question"; "problem"; "issue"];
     WordBoundary].
Definition cart : Regex.t :=
    [WordBoundary;
     OneOf ["cart"; "basket"; "checkout"; "buy"; "purchase"; "order"];
     WordBoundary].
Definition price : Regex.t :=
    [WordBoundary;
     OneOf ["price"; "cost"; "how much"; "expensive"; "cheap"];
     WordBoundary].
Definition shipping : Regex.t :=
    [WordBoundary;
     OneOf ["ship"; "deliver"; "shipping"; "delivery"; "when"; "arrive"];
     WordBoundary].
Definition hours : Regex.t :=
    [WordBoundary;
     OneOf ["hour"; "open"; "close"; "time"; "schedule"];
     WordBoundary].
Definition location : Regex.t :=
    [WordBoundary;
     OneOf ["location"; "address"; "where"; "find you"; "store"];
     WordBoundary].
Definition thanks : Regex.t :=
    [WordBoundary;
     OneOf ["thank"; "thanks"; "gracias"; "appreciate"];
     WordBoundary].
Definition bye : Regex.t :=
    [WordBoundary;
     OneOf ["bye"; "goodbye"; "adios"; "see you"; "later"];
     WordBoundary].
End INTENT_PATTERNS.

Module BOT_CONFIG.
Definition greeting : string :=
    "¬°Hola! üëã Welcome to Don Churro! I'm here to help you find the perfect products. What can I help you with today?".
End BOT_CONFIG.

(** Predefined responses *)
Module RESPONSES.
Definition greeting : list string :=
    [ "¬°Hola! How can I help you today? üòä";
      "Welcome! Looking for something delicious? üç©";
      "Hi there! Ready to discover our amazing churros? üéâ" ].
Definition thanks : list string :=
    [ "You're welcome! Is there anything else I can help with? üòä";
      "My pleasure! Let me know if you need anything else!";
      "¬°De nada! Happy to help! üéâ" ].
Definition bye : list string :=
    [ "Goodbye! Thanks for visiting Don Churro! üëã";
      "¬°Adi√≥s! Come back soon! üç©";
      "Take care! Hope to see you again! üòä" ].
Definition shipping : string :=
    "We offer fast shipping! üöö Standard delivery takes 3-5 business days. Express shipping (1-2 days) is also available at checkout!".
Definition hours : string :=
    "We're here for you! üïê Online orders can be placed 24/7. Our customer support is available Monday-Friday, 9 AM - 6 PM.".
Definition location : string :=
    "You can find all our store locations on our Locations page! üìç Would you like me to take you there?".
Definition fallback : list string :=
    [ "I'm not sure I understood that. Could you rephrase? ü§î";
      "Let me connect you with our support team for that question. In the meantime, can I help you find a product?";
      "That's a great question! For detailed assistance, please contact our support. How else can I help?" ].
  (** The literals of [processUserInput] and of the two handlers. *)
Definition cart : string :=
    "Ready to checkout? üõí Click here to view your cart and complete your order! [View Cart](/cart)".
Definition help : string :=
    "I can help you with:
‚Ä¢ üîç Finding products
‚Ä¢ üí∞ Getting discounts
‚Ä¢ üõí Checking out
‚Ä¢ üì¶ Shipping info
‚Ä¢ ‚ùì General questions

Just ask! üòä".
Definition products : string :=
    "Here are some products you might love! üåü".
Definition menu : string :=
    "Check out our full menu for all our delicious options! [View Menu](/menu)".
Definition offer : string :=
    "üéâ Great news! Here's a special offer just for you:".
Definition no_offer : string :=
    "I don't have any special offers right now, but check our promotions page for current deals! üéÅ".
Definition deals : string :=
    "Check our promotions page for current deals! üéÅ [View Deals](/deals)".
End RESPONSES.

(** *** Chat bot state *)

Inductive MessageType : Type :=
| text_type
| products_type
| offer_type.

Module Message.
Record t : Type := mk {
    id : Z;
    sender : string;
    text : option string;
    type : MessageType;
    data : JsValue;
    timestamp : Z
  }.
End Message.

(** Chat Bot State Manager: the class [ChatBotState].  The widget module
    holds one instance of it in the module variable [chatState]; the
    functions of the widget below take that one instance as the state they
    read and write. *)
Module ChatBotState.
Record t : Type := mk {
    isOpen : bool;
    messages : list Message.t;
    customerId : option string;
    sessionId : option string;
    context : list (string * JsValue)
  }.

  (** [constructor()] *)
Definition new : t := mk false [] None None [].

  (** [addMessage(sender, text, type = 'text', data = null)]; [now] is the
      clock at the call. *)
Definition addMessage (now : Z) (sender : string) (text : option string)
      (type : MessageType) (data : JsValue) (this : t) : t :=
    mk (isOpen this)
       (messages this ++ [Message.mk now sender text type data now])
       (customerId this) (sessionId this) (context this).

Definition setContext (key : string) (value : JsValue) (this : t) : t :=
    mk (isOpen this) (messages this) (customerId this) (sessionId this)
       ((key, value)
          :: filter (fun kv => negb (fst kv =? key)%string) (context this)).

Definition getContext (key : string) (this : t) : JsValue :=
    match List.find (fun kv => (fst kv =? key)%string) (context this) with
    | Some kv => snd kv
    | None => JUndefined
    end.
End ChatBotState.

(** The result objects of the recommendation and offer engines of
    [backend/salesBot.jsw]. *)
Record Recommendations : Type := mkRecommendations {
  recommendations_success : bool;
  recommendations : list JsValue
}.

Record PersonalizedOffer : Type := mkPersonalizedOffer {
  offer_success : bool;
  offer : JsValue
}.

(** The collaborators of the widget during one call: the engines, the
    interaction tracker, the member lookup, and [random_pick n], the value
    of [Math.floor(Math.random() * n)]. *)
Record ChatEnv : Type := mkChatEnv {
  getPersonalizedRecommendations : string -> nat -> Completion Recommendations;
  getTrendingProducts : nat -> Completion Recommendations;
  getPersonalizedOffer : option string -> Completion PersonalizedOffer;
  trackCustomerInteraction : Completion unit;
  getMember : Completion (option string);
  random_pick : nat -> nat
}.

(** The object [processUserInput] returns. *)
Record Response : Type := mkResponse {
  response_type : MessageType;
  response_text : option string;
  response_data : JsValue
}.

Definition text_response (text : option string) : Response :=
  mkResponse text_type text JUndefined.

(** Get random response from array *)
Definition getRandomResponse (E : ChatEnv) (responses : list string)
  : option string :=
  nth_error responses (random_pick E (List.length responses)).

Fixpoint startsWith (prefix s : string) : bool :=
  match prefix with
  | EmptyString => true
  | String p prefix' =>
      match s with
      | EmptyString => false
      | String c s' => Ascii.eqb p c && startsWith prefix' s'
      end
  end.

(** Whether [chatState.customerId && !chatState.customerId.startsWith('guest_')]
    holds, and for which customer. *)
Definition known_customer (customerId : option string) : option string :=
  match customerId with
  | Some id =>
      if negb (id =? "")%string && negb (startsWith "guest_" id)
      then Some id else None
  | None => None
  end.

(** Handle product recommendation request *)
Definition handleProductRecommendation (E : ChatEnv)
    (chatState : ChatBotState.t) : Response :=
  let products :=
    match known_customer (ChatBotState.customerId chatState) with
    | Some id => getPersonalizedRecommendations E id 3
    | None => getTrendingProducts E 3
    end in
  match products with
  | Returned products =>
      if recommendations_success products
         && (0 <? List.length (recommendations products))
      then mkResponse products_type (Some RESPONSES.products)
                      (JArr (recommendations products))
      else text_response (Some RESPONSES.menu)
  | Threw _ => text_response (Some RESPONSES.menu)
  end.

(** Handle discount request *)
Definition handleDiscountRequest (E : ChatEnv) (chatState : ChatBotState.t)
  : Response :=
  match getPersonalizedOffer E (ChatBotState.customerId chatState) with
  | Returned result =>
      if offer_success result
      then mkResponse offer_type (Some RESPONSES.offer) (offer result)
      else text_response (Some RESPONSES.no_offer)
  | Threw _ => text_response (Some RESPONSES.deals)
  end.

(** Process user input and determine appropriate response *)
Definition processUserInput (E : ChatEnv) (chatState : ChatBotState.t)
    (input : string) : Response :=
  let lowerInput := toLowerCase input in
  if Regex.test INTENT_PATTERNS.greeting lowerInput then
    text_response (getRandomResponse E RESPONSES.greeting)
  else if Regex.test INTENT_PATTERNS.recommendations lowerInput
          || Regex.test INTENT_PATTERNS.productSearch lowerInput then
    handleProductRecommendation E chatState
  else if Regex.test INTENT_PATTERNS.discount lowerInput then
    handleDiscountRequest E chatState
  else if Regex.test INTENT_PATTERNS.cart lowerInput then
    text_response (Some RESPONSES.cart)
  else if Regex.test INTENT_PATTERNS.shipping lowerInput then
    text_response (Some RESPONSES.shipping)
  else if Regex.test INTENT_PATTERNS.hours lowerInput then
    text_response (Some RESPONSES.hours)
  else if Regex.test INTENT_PATTERNS.location lowerInput then
    text_response (Some RESPONSES.location)
  else if Regex.test INTENT_PATTERNS.thanks lowerInput then
    text_response (getRandomResponse E RESPONSES.thanks)
  else if Regex.test INTENT_PATTERNS.bye lowerInput then
    text_response (getRandomResponse E RESPONSES.bye)
  else if Regex.test INTENT_PATTERNS.help lowerInput then
    text_response (Some RESPONSES.help)
  else
    text_response (getRandomResponse E RESPONSES.fallback).

(** *** Initialisation and the message round trip *)

(** [n.toString(36)] for a non-negative integer. *)
Definition digit36 (d : Z) : ascii :=
  if (d <? 10)%Z
  then ascii_of_nat (48 + Z.to_nat d)
  else ascii_of_nat (87 + Z.to_nat d).

Fixpoint toString36_digits (fuel : nat) (n : Z) (acc : string) : string :=
  match fuel with
  | O => acc
  | S fuel' =>
      let acc' := String (digit36 (n mod 36)) acc in
      if (n <? 36)%Z then acc' else toString36_digits fuel' (n / 36) acc'
  end.

Definition toString36 (n : Z) : string :=
  toString36_digits (S (Z.to_nat (Z.log2 n))) n "".

(** The white space [trim] removes: the ASCII characters 9 to 13 and 32,
    and, in two and three bytes, U+00A0 (C2 A0), U+1680 (E1 9A 80), U+2000
    to U+200A (E2 80 80 to E2 80 8A), U+2028, U+2029 and U+202F (E2 80 A8,
    A9 and AF), U+205F (E2 81 9F), U+3000 (E3 80 80) and U+FEFF
    (EF BB BF). *)
Definition is_space (c : ascii) : bool :=
  ascii_between 9 13 c || (nat_of_ascii c =? 32).

Definition is_space2 (c1 c2 : ascii) : bool :=
  is_byte 194 c1 && is_byte 160 c2.

Definition is_space3 (c1 c2 c3 : ascii) : bool :=
  (is_byte 225 c1 && is_byte 154 c2 && is_byte 128 c3)
  || (is_byte 226 c1 && is_byte 128 c2
      && (ascii_between 128 138 c3 || is_byte 168 c3 || is_byte 169 c3
          || is_byte 175 c3))
  || (is_byte 226 c1 && is_byte 129 c2 && is_byte 159 c3)
  || (is_byte 227 c1 && is_byte 128 c2 && is_byte 128 c3)
  || (is_byte 239 c1 && is_byte 187 c2 && is_byte 191 c3).

(** Drops the white space a string starts with; [backwards] when the
    string is read from its end, so that the bytes of a character come last
    byte first. *)
Fixpoint strip (backwards : bool) (s : string) : string :=
  match s with
  | EmptyString => EmptyString
  | String c1 rest1 =>
      if is_space c1 then strip backwards rest1
      else
        match rest1 with
        | String c2 rest2 =>
            if (if backwards then is_space2 c2 c1 else is_space2 c1 c2)
            then strip backwards rest2
            else
              match rest2 with
              | String c3 rest3 =>
                  if (if backwards then is_space3 c3 c2 c1
                      else is_space3 c1 c2 c3)
                  then strip backwards rest3
                  else s
              | EmptyString => s
              end
        | EmptyString => s
        end
  end.

Fixpoint reverse_onto (s acc : string) : string :=
  match s with
  | EmptyString => acc
  | String c rest => reverse_onto rest (String c acc)
  end.

Definition trimStart (s : string) : string := strip false s.

Definition trimEnd (s : string) : string :=
  reverse_onto (strip true (reverse_onto s EmptyString)) EmptyString.

Definition trim (s : string) : string := trimEnd (trimStart s).

(** What the module can reach in the browser: its variable [chatState] and
    the entry [salesBotSessionId] of the session storage. *)
Record Page : Type := mkPage {
  chatState : ChatBotState.t;
  salesBotSessionId : option string
}.

Record InitResult : Type := mkInitResult {
  init_success : bool;
  init_error : option string
}.

(** Initialize the chat bot.  The handlers it installs on the page elements
    are the functions below. *)
Definition initializeChatBot (E : ChatEnv) (now : Z) (page : Page)
  : Page * InitResult :=
  let sessionId :=
    match salesBotSessionId page with
    | Some s => if (s =? "")%string
                then "session_" ++ toString36 now else s
    | None => "session_" ++ toString36 now
    end%string in
  let cs := chatState page in
  let cs :=
    ChatBotState.mk (ChatBotState.isOpen cs) (ChatBotState.messages cs)
                    (ChatBotState.customerId cs) (Some sessionId)
                    (ChatBotState.context cs) in
  match getMember E with
  | Threw e => (mkPage cs (Some sessionId), mkInitResult false (Some e))
  | Returned member =>
      let customerId :=
        match member with
        | Some member_id => member_id
        | None => ("guest_" ++ sessionId)%string
        end in
      let cs :=
        ChatBotState.mk (ChatBotState.isOpen cs) (ChatBotState.messages cs)
                        (Some customerId) (ChatBotState.sessionId cs)
                        (ChatBotState.context cs) in
      (mkPage (ChatBotState.addMessage now "bot" (Some BOT_CONFIG.greeting)
                                       text_type JNull cs)
              (Some sessionId),
       mkInitResult true None)
  end.

(** The callback [sendMessage] hands to [setTimeout]: it reads the module
    state as it is when the timer fires, at [later]. *)
Definition deliver_response (E : ChatEnv) (later : Z) (userInput : string)
    (cs : ChatBotState.t) : ChatBotState.t :=
  let response := processUserInput E cs userInput in
  match response_type response with
  | text_type =>
      ChatBotState.addMessage later "bot" (response_text response)
                              text_type JNull cs
  | products_type =>
      ChatBotState.addMessage later "bot" (response_text response)
                              products_type (response_data response) cs
  | offer_type =>
      ChatBotState.addMessage later "bot" (response_text response)
                              offer_type (response_data response) cs
  end.

(** Send user message: the part that runs at once.  Returns the input the
    timer was started for, if it was started. *)
Definition sendMessage (E : ChatEnv) (now : Z) (chatInput : string)
    (cs : ChatBotState.t) : ChatBotState.t * option string :=
  let userInput := trim chatInput in
  if (userInput =? "")%string then (cs, None)
  else
    let cs := ChatBotState.addMessage now "user" (Some userInput)
                                      text_type JNull cs in
    match trackCustomerInteraction E with
    | Threw _ => (cs, None)
    | Returned _ => (cs, Some userInput)
    end.

(** ** Discount codes *)

Module DiscountCode.
Record t : Type := mk {
    code : string;
    discountType : string;
    discountValue : Q;
    minOrderAmount : Q;
    expiresAt : Z;
    usageLimit : nat;
    usedCount : nat;
    isActive : bool
  }.
End DiscountCode.

Inductive InvalidReason : Type :=
| expired
| inactive
| limit_reached
| below_minimum.

Inductive Validation : Type :=
| valid
| invalid (reason : InvalidReason).

(** Modelled from the spec: no function of the sources validates or consumes
    a discount code; [validateCode] is specified in section 4.3 and its
    scenario in section 8.  The four conditions are tested in the order in
    which section 4.3 lists them, and the first one that fails gives the
    reason. *)
Definition check_code (now : Z) (c : DiscountCode.t) (orderAmount : Q)
  : Validation :=
  if negb (DiscountCode.isActive c) then invalid inactive
  else if negb (now <? DiscountCode.expiresAt c)%Z then invalid expired
  else if negb (DiscountCode.usedCount c <? DiscountCode.usageLimit c)
  then invalid limit_reached
  else if negb (Qle_bool (DiscountCode.minOrderAmount c) orderAmount)
  then invalid below_minimum
  else valid.

(** Modelled from the spec: consuming a code is one conditional increment
    of [usedCount], made only while it is below [usageLimit] (sections 4.3
    and 5). *)
Definition consume_code (c : DiscountCode.t) : DiscountCode.t :=
  if DiscountCode.usedCount c <? DiscountCode.usageLimit c
  then DiscountCode.mk (DiscountCode.code c) (DiscountCode.discountType c)
         (DiscountCode.discountValue c) (DiscountCode.minOrderAmount c)
         (DiscountCode.expiresAt c) (DiscountCode.usageLimit c)
         (S (DiscountCode.usedCount c)) (DiscountCode.isActive c)
  else c.

(** Modelled from the spec: [validateCode(code, orderAmount)] on the record
    of the code; a successful validation consumes one use (scenario of
    section 8), a failed one leaves the record as it is. *)
Definition validateCode (now : Z) (c : DiscountCode.t) (orderAmount : Q)
  : DiscountCode.t * Validation :=
  match check_code now c orderAmount with
  | valid => (consume_code c, valid)
  | invalid reason => (c, invalid reason)
  end.


(** * Verification *)

(** ** Definitions the statements use *)

Definition accepted (o : MailOutcome) : bool :=
  match o with
  | MailAccepted => true
  | _ => false
  end.

Definition mail_ok (E : Env) (x : AbandonedCart.t) : bool :=
  accepted (mail E (AbandonedCart._id x)).

Definition has_cart (cartId : string) (carts : list AbandonedCart.t) : bool :=
  existsb (fun c => (AbandonedCart._id c =? cartId)%string) carts.

Definition store_keys (w : World) : list string :=
  map AbandonedCart._id (AbandonedCarts w).

(** The pages of carts the three eligibility queries return. *)
Definition first_reminder_page (now : Z) (w : World) : list AbandonedCart.t :=
  firstn 100 (filter (first_reminder_due now) (AbandonedCarts w)).

Definition second_reminder_page (now : Z) (w : World) : list AbandonedCart.t :=
  firstn 50 (filter (second_reminder_due now) (AbandonedCarts w)).

Definition bulk_cutoff (now : Z) (body : BulkRequest) : Z :=
  (now - hoursOld_or_default body * 60 * 60 * 1000)%Z.

Definition bulk_page (now : Z) (body : BulkRequest) (w : World)
  : list AbandonedCart.t :=
  firstn 50 (filter (bulk_due (bulk_cutoff now body)) (AbandonedCarts w)).

(** What one call of [sendCartRecoveryEmail] inside a loop leaves behind,
    and what a whole loop over [page] leaves behind. *)
Definition send_effect (E : Env) (now : Z) (w : World)
    (cart : AbandonedCart.t) : World :=
  if has_cart (AbandonedCart._id cart) (AbandonedCarts w) && mail_ok E cart
  then record_reminder now (AbandonedCart._id cart) w
  else w.

Definition sweep (E : Env) (now : Z) (page : list AbandonedCart.t)
    (w : World) : World :=
  fold_left (send_effect E now) page w.

(** The ids a loop over [page] sends an email for, in order. *)
Definition emailed (E : Env) (page : list AbandonedCart.t) : list string :=
  map AbandonedCart._id (filter (mail_ok E) page).

Section KeyedUpdate.

Variables (A : Type) (key : A -> string) (f : A -> A) (cond : A -> bool).

(** The store item [c] after the write for the selected item [x], and after
    the writes for all of [sel]. *)
Definition touch (x c : A) : A :=
  if (key x =? key c)%string && cond x then f c else c.

Definition touched (sel : list A) (c : A) : A :=
  if existsb (fun x => (key x =? key c)%string && cond x) sel
  then f c else c.

End KeyedUpdate.

Definition swept (E : Env) (now : Z) (page : list AbandonedCart.t)
  : AbandonedCart.t -> AbandonedCart.t :=
  touched AbandonedCart._id (remind now) (mail_ok E) page.

(** The three batch passes over the abandoned carts. *)
Inductive Pass : Type :=
| FirstReminderPass (E : Env) (now : Z)
| SecondReminderPass (E : Env) (now : Z)
| BulkRecoveryPass (E : Env) (now : Z) (request : Completion BulkRequest).

Definition run_pass (w : World) (p : Pass) : World :=
  match p with
  | FirstReminderPass E now => fst (processAbandonedCarts E now w)
  | SecondReminderPass E now => fst (sendSecondReminder E now w)
  | BulkRecoveryPass E now request => fst (post_bulkRecovery E now request w)
  end.

Definition run_passes (passes : list Pass) (w : World) : World :=
  fold_left run_pass passes w.

(** A cart record as the recovery state machine keeps it: at most two
    reminders, and none counted before the first email went out. *)
Definition cart_ok (c : AbandonedCart.t) : Prop :=
  AbandonedCart.reminderCount c <= 2
  /\ (AbandonedCart.emailSent c = false -> AbandonedCart.reminderCount c = 0).

(** [_id] is the key of the collection. *)
Definition store_ok (w : World) : Prop :=
  NoDup (store_keys w) /\ Forall cart_ok (AbandonedCarts w).

(** A cart a pass may send to: it is stored, not recovered, and either not
    yet emailed or reminded exactly once. *)
Definition due (w : World) (x : AbandonedCart.t) : Prop :=
  In x (AbandonedCarts w)
  /\ AbandonedCart.recovered x = false
  /\ (AbandonedCart.emailSent x = false \/ AbandonedCart.reminderCount x = 1).


(** ** Concrete stores and collaborators *)

(** Collaborators with which no call fails: every store call goes through,
    the mail transport accepts every email. *)
Definition calm : Env :=
  mkEnv (fun _ => None) (fun _ => None) (fun _ _ => None) None
        (fun _ => MailAccepted)
        (fun _ => Returned (mkValueScore true (Some "Regular") (Some 10%Q)))
        (fun _ _ _ => JNull).

(** A cart as the abandonment signal records it: not emailed, no reminder
    counted. *)
Definition fresh_cart (id : string) (abandonedAt : Z) : AbandonedCart.t :=
  AbandonedCart.mk id "customer" (JArr []) 0%Q abandonedAt false false 0 None.

Definition cart_store (carts : list AbandonedCart.t) : World :=
  mkWorld carts [] [] [] [] [] [].

(** One hundred hours after the epoch. *)
Definition noon : Z := 360000000%Z.

Definition two_hours_before_noon : Z := (noon - 2 * 60 * 60 * 1000)%Z.

Definition numbered (n : nat) : string :=
  "cart" ++ NilEmpty.string_of_uint (Nat.to_uint n).

(** 101 carts, all abandoned two hours before [noon]. *)
Definition crowd : World :=
  cart_store
    (map (fun n => fresh_cart (numbered n) two_hours_before_noon) (seq 0 101)).

(** A cart abandoned at the epoch, and one abandoned two hours before
    [noon], the second one recovered since. *)
Definition stale_cart : AbandonedCart.t := fresh_cart "stale" 0%Z.

Definition recovered_cart : AbandonedCart.t :=
  AbandonedCart.mk "bought" "customer" (JArr []) 0%Q two_hours_before_noon
                   true false 0 None.

Definition small_store : World :=
  cart_store [fresh_cart "recent" two_hours_before_noon; stale_cart;
              recovered_cart].

(** ** Resegmentation *)

Definition with_customers (customers : list Customer.t) (w : World) : World :=
  mkWorld (AbandonedCarts w) customers (BrowsingHistory w)
          (CustomerInteractions w) (Orders w) (DailyReports w) (outbox w).

Definition customers_page (w : World) : list Customer.t :=
  firstn 1000 (filter (fun _ => true) (Customers w)).

(** The job asks for a write of [x]: the engine answered, with success, a
    segment other than the stored one. *)
Definition wants_write (E : Env) (x : Customer.t) : bool :=
  match getCustomerValueScore E (Customer._id x) with
  | Returned vs =>
      vs_success vs
      && negb (option_string_eqb (Customer.segment x) (vs_segment vs))
  | Threw _ => false
  end.

Definition update_goes_through (E : Env) (x : Customer.t) : bool :=
  match update_error E (Customer._id x) with
  | Some _ => false
  | None => true
  end.

Definition writes (E : Env) (x : Customer.t) : bool :=
  wants_write E x && update_goes_through E x.

(** The item the job writes for a customer. *)
Definition rescore (E : Env) (now : Z) (c : Customer.t) : Customer.t :=
  match getCustomerValueScore E (Customer._id c) with
  | Returned vs =>
      Customer.mk (Customer._id c) (vs_segment vs) (vs_score vs) (Some now)
  | Threw _ => c
  end.

Definition resegmented (E : Env) (now : Z) (page : list Customer.t)
  : Customer.t -> Customer.t :=
  touched Customer._id (rescore E now) (writes E) page.

(** Collaborators with the store down, and with the mail transport down. *)
Definition store_down : Env :=
  mkEnv (fun _ => Some "store unavailable") (fun _ => None) (fun _ _ => None)
        None (fun _ => MailAccepted)
        (fun _ => Returned (mkValueScore true (Some "Regular") (Some 10%Q)))
        (fun _ _ _ => JNull).

Definition mail_down : Env :=
  mkEnv (fun _ => None) (fun _ => None) (fun _ _ => None) None
        (fun _ => MailThrows "mail unavailable")
        (fun _ => Returned (mkValueScore true (Some "Regular") (Some 10%Q)))
        (fun _ _ _ => JNull).

(** A cart whose first reminder went out thirty hours before [noon]. *)
Definition reminded_cart : AbandonedCart.t :=
  AbandonedCart.mk "reminded" "customer" (JArr []) 0%Q 0%Z false true 1
                   (Some (noon - 30 * 60 * 60 * 1000)%Z).

Definition shop : World :=
  mkWorld [fresh_cart "recent" two_hours_before_noon; reminded_cart]
          [Customer.mk "ana" (Some "New") None None;
           Customer.mk "ben" (Some "Regular") (Some 10%Q) (Some 0%Z)]
          [] [] [] [] [].

(** ** Discount codes: the scenario of section 8 *)

Definition SAVE10 : DiscountCode.t :=
  DiscountCode.mk "SAVE10" "percentage" 10%Q 20%Q (noon + 1)%Z 1 0 true.

Definition SAVE10_used : DiscountCode.t :=
  DiscountCode.mk "SAVE10" "percentage" 10%Q 20%Q (noon + 1)%Z 1 1 true.

(** A run of validations of one code, each at its own time and order
    amount. *)
Definition validate_all (attempts : list (Z * Q)) (c : DiscountCode.t)
  : DiscountCode.t :=
  fold_left (fun c attempt => fst (validateCode (fst attempt) c (snd attempt)))
            attempts c.

(** ** The intent order in the words of the specification *)

Inductive Intent : Type :=
| greeting_intent
| recommendation_intent
| discount_intent
| cart_intent
| shipping_intent
| hours_intent
| location_intent
| thanks_intent
| goodbye_intent
| help_intent.

(** Section 4.5: greeting, product-search/recommendation, discount,
    cart/checkout, shipping, hours, location, thanks, goodbye, help. *)
Definition intent_priority : list (Intent * (string -> bool)) :=
  [ (greeting_intent, Regex.test INTENT_PATTERNS.greeting);
    (recommendation_intent,
     fun s => Regex.test INTENT_PATTERNS.recommendations s
              || Regex.test INTENT_PATTERNS.productSearch s);
    (discount_intent, Regex.test INTENT_PATTERNS.discount);
    (cart_intent, Regex.test INTENT_PATTERNS.cart);
    (shipping_intent, Regex.test INTENT_PATTERNS.shipping);
    (hours_intent, Regex.test INTENT_PATTERNS.hours);
    (location_intent, Regex.test INTENT_PATTERNS.location);
    (thanks_intent, Regex.test INTENT_PATTERNS.thanks);
    (goodbye_intent, Regex.test INTENT_PATTERNS.bye);
    (help_intent, Regex.test INTENT_PATTERNS.help) ].

(** The first pattern of the table that matches wins. *)
Fixpoint first_match (table : list (Intent * (string -> bool))) (s : string)
  : option Intent :=
  match table with
  | [] => None
  | (intent, matches) :: rest =>
      if matches s then Some intent else first_match rest s
  end.

Definition classify (input : string) : option Intent :=
  first_match intent_priority (toLowerCase input).

(** The response class of each intent, and of unmatched input. *)
Definition reply_for (E : ChatEnv) (chatState : ChatBotState.t)
    (intent : option Intent) : Response :=
  match intent with
  | Some greeting_intent =>
      text_response (getRandomResponse E RESPONSES.greeting)
  | Some recommendation_intent => handleProductRecommendation E chatState
  | Some discount_intent => handleDiscountRequest E chatState
  | Some cart_intent => text_response (Some RESPONSES.cart)
  | Some shipping_intent => text_response (Some RESPONSES.shipping)
  | Some hours_intent => text_response (Some RESPONSES.hours)
  | Some location_intent => text_response (Some RESPONSES.location)
  | Some thanks_intent => text_response (getRandomResponse E RESPONSES.thanks)
  | Some goodbye_intent => text_response (getRandomResponse E RESPONSES.bye)
  | Some help_intent => text_response (Some RESPONSES.help)
  | None => text_response (getRandomResponse E RESPONSES.fallback)
  end.

(** The reply to a recommendation request, given what the engine call
    completed with: the products when it succeeded with at least one, the
    canned menu reply otherwise. *)
Definition recommendation_reply (outcome : Completion Recommendations)
  : Response :=
  match outcome with
  | Returned (mkRecommendations true (product :: more)) =>
      mkResponse products_type (Some RESPONSES.products)
                 (JArr (product :: more))
  | _ => text_response (Some RESPONSES.menu)
  end.

(** ** Two callers of the one chat module *)

Definition engines (member : option string) : ChatEnv :=
  mkChatEnv
    (fun id _ => Returned (mkRecommendations true [JStr ("picked for " ++ id)]))
    (fun _ => Returned (mkRecommendations true [JStr "trending"]))
    (fun _ => Returned (mkPersonalizedOffer false JNull))
    (Returned tt)
    (Returned member)
    (fun _ => 0).

Definition blank_page : Page := mkPage ChatBotState.new None.

(** A member initialises the widget and sends a request; the timer for the
    reply is running. *)
Definition page_of_alice : Page :=
  fst (initializeChatBot (engines (Some "alice")) 1000 blank_page).

Definition alice_asks : ChatBotState.t * option string :=
  sendMessage (engines (Some "alice")) 1500 "  recommend something "
              (chatState page_of_alice).

(** Before the timer fires, a guest initialises the same module. *)
Definition page_after_guest : Page :=
  fst (initializeChatBot (engines None) 2000
         (mkPage (fst alice_asks) (salesBotSessionId page_of_alice))).

(** The attachment of the newest message of the log. *)
Definition newest_data (cs : ChatBotState.t) : JsValue :=
  match rev (ChatBotState.messages cs) with
  | m :: _ => Message.data m
  | [] => JUndefined
  end.

(** ** The abandonment webhook *)

(** [v.key] when it does not throw. *)
Definition field (v : JsValue) (key : string) : JsValue :=
  match member v key with
  | Returned x => x
  | Threw _ => JUndefined
  end.

(** What the handler answers once [trackAbandonedCart] has completed. *)
Definition tracked_reply (outcome : World * Completion JsValue)
  : World * HttpResponse JsValue :=
  match outcome with
  | (w', Returned result) =>
      match member result "success" with
      | Returned success =>
          if truthy success then (w', ok result) else (w', serverError result)
      | Threw message =>
          (w', serverError (error_body "Internal server error" message))
      end
  | (w', Threw message) =>
      (w', serverError (error_body "Internal server error" message))
  end.

Definition missing_fields : JsValue :=
  JObj [("error", JStr "Missing required fields: customerId, cartItems")].

(** A tracker that records nothing and echoes the total it was given. *)
Definition echo_total (customerId cartItems cartTotal : JsValue)
  : Job JsValue :=
  ret (JObj [("success", JBool true); ("cartTotal", cartTotal)]).


(** * Cleanup, reports, endpoints, the widget on the page and the client
    module *)

(** ** Cleanup cutoffs *)

(** The cutoff of [cleanOldData] and its three selections. *)
Definition ninetyDaysAgo (now : Z) : Z := (now - 90 * 24 * 60 * 60 * 1000)%Z.

Definition stale_record (now : Z) (r : Tracked.t) : bool :=
  (Tracked.timestamp r <? ninetyDaysAgo now)%Z.

Definition stale_recovered_cart (now : Z) (c : AbandonedCart.t) : bool :=
  (AbandonedCart.abandonedAt c <? ninetyDaysAgo now)%Z
  && Bool.eqb (AbandonedCart.recovered c) true.

(** The three pages of [cleanOldData]. *)
Definition stale_browsing_page (now : Z) (w : World) : list Tracked.t :=
  firstn 1000 (filter (stale_record now) (BrowsingHistory w)).

Definition stale_interactions_page (now : Z) (w : World) : list Tracked.t :=
  firstn 1000 (filter (stale_record now) (CustomerInteractions w)).

Definition stale_carts_page (now : Z) (w : World) : list AbandonedCart.t :=
  firstn 500 (filter (stale_recovered_cart now) (AbandonedCarts w)).

Section Removal.

Variables (A : Type) (key : A -> string).

(** An item stays when none of the removed items has its id. *)
Definition kept (removed : list A) (r : A) : bool :=
  negb (existsb (fun x => (key x =? key r)%string) removed).

End Removal.

(** The store after the records [d1], [d2] and the carts [d3] were removed
    from the three collections the job cleans. *)
Definition cleaned (d1 d2 : list Tracked.t) (d3 : list AbandonedCart.t)
    (w : World) : World :=
  mkWorld (filter (kept AbandonedCart._id d3) (AbandonedCarts w))
          (Customers w)
          (filter (kept Tracked._id d1) (BrowsingHistory w))
          (filter (kept Tracked._id d2) (CustomerInteractions w))
          (Orders w) (DailyReports w) (outbox w).

Definition with_browsing (l : list Tracked.t) (w : World) : World :=
  mkWorld (AbandonedCarts w) (Customers w) l (CustomerInteractions w)
          (Orders w) (DailyReports w) (outbox w).

Definition with_interactions (l : list Tracked.t) (w : World) : World :=
  mkWorld (AbandonedCarts w) (Customers w) (BrowsingHistory w) l
          (Orders w) (DailyReports w) (outbox w).

Definition with_carts (l : list AbandonedCart.t) (w : World) : World :=
  mkWorld l (Customers w) (BrowsingHistory w) (CustomerInteractions w)
          (Orders w) (DailyReports w) (outbox w).

(** A store with one record older than ninety days and one younger in each
    of the cleaned collections, at day 100 after the epoch. *)
Definition day100 : Z := (100 * 24 * 60 * 60 * 1000)%Z.

Definition attic : World :=
  mkWorld
    [ AbandonedCart.mk "old-bought" "ana" (JArr []) 0%Q 0%Z true true 1 (Some 5%Z);
      AbandonedCart.mk "old-open" "ben" (JArr []) 0%Q 0%Z false true 2 (Some 5%Z);
      AbandonedCart.mk "new-bought" "cy" (JArr []) 0%Q day100 true false 0 None ]
    []
    [ Tracked.mk "view-old" 0%Z; Tracked.mk "view-new" day100 ]
    [ Tracked.mk "click-old" 0%Z; Tracked.mk "click-new" day100 ]
    [] [] [].

(** ** The two days of the daily report *)



(** ** Rewritten customers *)

(** What the segmentation job may have made of the stored customer [c]:
    nothing, or the item with the engine's segment and score, stamped
    [now]. *)
Definition rewritten (E : Env) (now : Z) (c c' : Customer.t) : Prop :=
  c' = c
  \/ exists vs,
       getCustomerValueScore E (Customer._id c) = Returned vs
       /\ vs_success vs = true
       /\ c' = Customer.mk (Customer._id c) (vs_segment vs) (vs_score vs)
                           (Some now).

(** ** [chatWidget.js]: the widget on the page *)

(** The widget with the two page elements [toggleChat] and [closeChat]
    show and hide, and the customers for whom [chat_opened] was handed to
    the tracker.  Rendering the message list is left out. *)
Module Widget.
Record t : Type := mk {
  chat : ChatBotState.t;
  chatWidget_shown : bool;
  chatToggleBtn_shown : bool;
  opened_for : list (option string)
}.
End Widget.

Definition set_isOpen (isOpen : bool) (cs : ChatBotState.t) : ChatBotState.t :=
  ChatBotState.mk isOpen (ChatBotState.messages cs) (ChatBotState.customerId cs)
                  (ChatBotState.sessionId cs) (ChatBotState.context cs).

(** Close chat widget *)
Definition closeChat (wd : Widget.t) : Widget.t :=
  Widget.mk (set_isOpen false (Widget.chat wd)) false true
            (Widget.opened_for wd).

(** Toggle chat widget visibility *)
Definition toggleChat (wd : Widget.t) : Widget.t :=
  let cs := set_isOpen (negb (ChatBotState.isOpen (Widget.chat wd)))
                       (Widget.chat wd) in
  if ChatBotState.isOpen cs
  then Widget.mk cs true false
                 (Widget.opened_for wd ++ [ChatBotState.customerId cs])
  else closeChat (Widget.mk cs (Widget.chatWidget_shown wd)
                            (Widget.chatToggleBtn_shown wd)
                            (Widget.opened_for wd)).

Inductive WidgetClick : Type :=
| click_toggle
| click_close.

Definition click (wd : Widget.t) (c : WidgetClick) : Widget.t :=
  match c with
  | click_toggle => toggleChat wd
  | click_close => closeChat wd
  end.

(** Export chat state for external access *)
Record ChatStateView : Type := mkChatStateView {
  view_isOpen : bool;
  view_messageCount : nat;
  view_customerId : option string
}.

Definition getChatState (cs : ChatBotState.t) : ChatStateView :=
  mkChatStateView (ChatBotState.isOpen cs)
                  (List.length (ChatBotState.messages cs))
                  (ChatBotState.customerId cs).

(** *** Quick action buttons *)

Inductive QuickAction : Type :=
| products_action
| deals_action
| help_action.

(** The user message a quick action logs. *)
Definition quick_action_text (action : QuickAction) : string :=
  match action with
  | products_action => "Show me your best products"
  | deals_action => "Do you have any discounts?"
  | help_action => "I need help"
  end.

(** Handle quick action button clicks: the part that runs at once. *)
Definition handleQuickAction (now : Z) (action : QuickAction)
    (cs : ChatBotState.t) : ChatBotState.t :=
  ChatBotState.addMessage now "user" (Some (quick_action_text action))
                          text_type JNull cs.

(** The response the timer callback of [handleQuickAction] computes. *)
Definition quick_action_response (E : ChatEnv) (cs : ChatBotState.t)
    (action : QuickAction) : Response :=
  match action with
  | products_action => handleProductRecommendation E cs
  | deals_action => handleDiscountRequest E cs
  | help_action => text_response (Some RESPONSES.help)
  end.

(** The timer callback of [handleQuickAction]. *)
Definition deliver_quick_action (E : ChatEnv) (later : Z)
    (action : QuickAction) (cs : ChatBotState.t) : ChatBotState.t :=
  let response := quick_action_response E cs action in
  match response_type response with
  | products_type =>
      ChatBotState.addMessage later "bot" (response_text response)
                              products_type (response_data response) cs
  | offer_type =>
      ChatBotState.addMessage later "bot" (response_text response)
                              offer_type (response_data response) cs
  | text_type =>
      ChatBotState.addMessage later "bot" (response_text response)
                              text_type JNull cs
  end.

(** ** [http-functions.js]: the recovery endpoint *)

Section SendRecoveryEmail.

  (** [sendCartRecoveryEmail] of [backend/salesBot.jsw] as the handler sees
      it: any function of the id that acts on the store and returns a result
      object, or throws. *)
Variable send : JsValue -> Job JsValue.

  (** The body of the [try] block. [request] is what
      [await request.body.json()] completes with. *)
Definition sendRecoveryEmail_try (request : Completion JsValue)
    : Job (HttpResponse JsValue) :=
    body <- lift request ;;
    abandonedCartId <- lift (member body "abandonedCartId") ;;
    if negb (truthy abandonedCartId)
    then
      ret (badRequest
             (JObj [("error",
                     JStr "Missing required field: abandonedCartId")]))
    else
      result <- send abandonedCartId ;;
      success <- lift (member result "success") ;;
      if truthy success
      then ret (ok result)
      else ret (badRequest result).

Definition post_sendRecoveryEmail (request : Completion JsValue) (w : World)
    : World * HttpResponse JsValue :=
    match sendRecoveryEmail_try request w with
    | (w', Returned response) => (w', response)
    | (w', Threw message) =>
        (w', serverError (error_body "Internal server error" message))
    end.

End SendRecoveryEmail.

(** The cart a request asks to recover: the [abandonedCartId] of its body
    when the body can be read and the id is truthy. *)
Definition requested_cart (request : Completion JsValue) : option JsValue :=
  match request with
  | Returned body =>
      match member body "abandonedCartId" with
      | Returned id => if truthy id then Some id else None
      | Threw _ => None
      end
  | Threw _ => None
  end.

Definition is_ok {B} (response : HttpResponse B) : bool :=
  match response with
  | ok _ => true
  | _ => false
  end.

(** ** [http-functions.js]: the analytics endpoint *)

Section SalesAnalytics.

  (** The metrics are sums and quotients of doubles printed with
      [toFixed(2)]; the embedding takes the finished body from
      [render_analytics], given what the handler computes it from: the page
      of orders and the count of orders, the count of abandoned carts and
      the recovered carts. *)
Variable render_analytics :
    Z -> list Order.t * nat -> nat -> list AbandonedCart.t -> JsValue.

  (** The body of the [try] block. *)
Definition salesAnalytics_try (E : Env) (now : Z) : Job JsValue :=
    let thirtyDaysAgo := (now - 30 * 24 * 60 * 60 * 1000)%Z in
    fun w =>
      (orders <-
         find E 0 (fun o => (thirtyDaysAgo <=? Order._createdDate o)%Z)
              default_limit (Orders w) ;;
       abandonedCarts <-
         find E 1 (fun c => (thirtyDaysAgo <=? AbandonedCart.abandonedAt c)%Z)
              default_limit (AbandonedCarts w) ;;
       let recoveredCarts :=
         filter (fun cart => AbandonedCart.recovered cart)
                (items abandonedCarts) in
       ret (render_analytics now (items orders, totalCount orders)
                             (totalCount abandonedCarts) recoveredCarts)) w.

Definition get_salesAnalytics (E : Env) (now : Z) (w : World)
    : World * HttpResponse JsValue :=
    match salesAnalytics_try E now w with
    | (w', Returned body) => (w', ok body)
    | (w', Threw message) =>
        (w', serverError (error_body "Failed to generate analytics" message))
    end.

End SalesAnalytics.

(** The orders and the carts of the last thirty days. *)
Definition months_orders (now : Z) (w : World) : list Order.t :=
  filter (fun o => (now - 30 * 24 * 60 * 60 * 1000 <=? Order._createdDate o)%Z)
         (Orders w).

Definition months_carts (now : Z) (w : World) : list AbandonedCart.t :=
  filter (fun c =>
            (now - 30 * 24 * 60 * 60 * 1000 <=? AbandonedCart.abandonedAt c)%Z)
         (AbandonedCarts w).

(** ** [salesBotClient.js]: the client module *)

(** [`${n}`] for a whole number. *)
Definition decimal (n : Z) : string := NilZero.string_of_int (Z.to_int n).

(** Whether an entry of the session storage is truthy: [getItem] gives
    [null] or a string, and the empty string is falsy. *)
Definition item_set (item : option string) : bool :=
  match item with
  | Some s => negb (s =? "")%string
  | None => false
  end.

(** *** Scroll depth tracking *)

(** The value of [Math.round(...)] in the scroll handler: a whole number, or
    what a zero page height makes of the division. *)
Inductive Depth : Type :=
| finite (percent : Z)
| infinity
| minus_infinity
| not_a_number.

(** [a > b] *)
Definition depth_gt (a b : Depth) : bool :=
  match a, b with
  | not_a_number, _ | _, not_a_number => false
  | finite x, finite y => (y <? x)%Z
  | finite _, minus_infinity => true
  | finite _, infinity => false
  | infinity, infinity => false
  | infinity, _ => true
  | minus_infinity, _ => false
  end.

(** [a >= threshold] *)
Definition depth_reaches (a : Depth) (threshold : Z) : bool :=
  match a with
  | finite x => (threshold <=? x)%Z
  | infinity => true
  | minus_infinity | not_a_number => false
  end.

Definition scrollThresholds : list Z := [25; 50; 75; 100]%Z.

(** The closure [setupScrollTracking] creates.  The handler is [async] and
    waits for the tracker inside its loop, so several runs of it can be
    under way: [suspended] holds, for each run waiting for the tracker, the
    thresholds it has yet to visit.  [calls] are the depths handed to
    [trackCustomerInteraction], in order. *)
Module ScrollTracker.
Record t : Type := mk {
  customerId : string;
  sessionId : string;
  maxScrollDepth : Depth;
  trackedThresholds : list Z;
  suspended : list (list Z);
  calls : list Z
}.

Definition new (customerId sessionId : string) : t :=
  mk customerId sessionId (finite 0) [] [] [].
End ScrollTracker.

(** The loop from [rest] on, up to the threshold it stops at to call the
    tracker: that threshold and the thresholds after it. *)
Fixpoint next_milestone (maxScrollDepth : Depth) (trackedThresholds : list Z)
    (rest : list Z) : option (Z * list Z) :=
  match rest with
  | [] => None
  | threshold :: rest' =>
      if depth_reaches maxScrollDepth threshold
         && negb (existsb (Z.eqb threshold) trackedThresholds)
      then Some (threshold, rest')
      else next_milestone maxScrollDepth trackedThresholds rest'
  end.

(** Run the loop from [rest] on until it waits for the tracker or ends. *)
Definition run_loop (rest : list Z) (st : ScrollTracker.t) : ScrollTracker.t :=
  match next_milestone (ScrollTracker.maxScrollDepth st)
                       (ScrollTracker.trackedThresholds st) rest with
  | Some (threshold, rest') =>
      ScrollTracker.mk (ScrollTracker.customerId st)
                       (ScrollTracker.sessionId st)
                       (ScrollTracker.maxScrollDepth st)
                       (ScrollTracker.trackedThresholds st ++ [threshold])
                       (ScrollTracker.suspended st ++ [rest'])
                       (ScrollTracker.calls st ++ [threshold])
  | None => st
  end.

(** The listener up to its first [await]. *)
Definition on_scroll (scrollPercent : Depth) (st : ScrollTracker.t)
  : ScrollTracker.t :=
  if depth_gt scrollPercent (ScrollTracker.maxScrollDepth st)
  then
    run_loop scrollThresholds
      (ScrollTracker.mk (ScrollTracker.customerId st)
                        (ScrollTracker.sessionId st)
                        scrollPercent
                        (ScrollTracker.trackedThresholds st)
                        (ScrollTracker.suspended st)
                        (ScrollTracker.calls st))
  else st.

Fixpoint remove_nth {A} (i : nat) (l : list A) : list A :=
  match l, i with
  | [], _ => []
  | _ :: l', O => l'
  | x :: l', S i' => x :: remove_nth i' l'
  end.

(** The tracker call the [i]-th suspended run waits for settles: a resolved
    call lets the run go on with its loop, a rejected one ends it. *)
Definition on_settled (i : nat) (resolved : bool) (st : ScrollTracker.t)
  : ScrollTracker.t :=
  match nth_error (ScrollTracker.suspended st) i with
  | None => st
  | Some rest =>
      let st' :=
        ScrollTracker.mk (ScrollTracker.customerId st)
                         (ScrollTracker.sessionId st)
                         (ScrollTracker.maxScrollDepth st)
                         (ScrollTracker.trackedThresholds st)
                         (remove_nth i (ScrollTracker.suspended st))
                         (ScrollTracker.calls st) in
      if resolved then run_loop rest st' else st'
  end.

Inductive ScrollEvent : Type :=
| scrolled (scrollPercent : Depth)
| settled (i : nat) (resolved : bool).

Definition scroll_step (st : ScrollTracker.t) (ev : ScrollEvent)
  : ScrollTracker.t :=
  match ev with
  | scrolled scrollPercent => on_scroll scrollPercent st
  | settled i resolved => on_settled i resolved st
  end.

Definition no_rejection (ev : ScrollEvent) : bool :=
  match ev with
  | scrolled _ => true
  | settled _ resolved => resolved
  end.

(** The facts that hold of a tracker whatever has happened. *)
Definition milestones_ok (st : ScrollTracker.t) : Prop :=
  ScrollTracker.trackedThresholds st = ScrollTracker.calls st
  /\ NoDup (ScrollTracker.calls st)
  /\ incl (ScrollTracker.calls st) scrollThresholds
  /\ Forall (fun t => depth_reaches (ScrollTracker.maxScrollDepth st) t = true)
            (ScrollTracker.calls st)
  /\ Forall (fun rest => incl rest scrollThresholds)
            (ScrollTracker.suspended st).

(** No threshold the page has reached is lost: it has been handed to the
    tracker, or a suspended run of the listener has yet to visit it. *)
Definition nothing_missed (st : ScrollTracker.t) : Prop :=
  forall t,
    In t scrollThresholds ->
    depth_reaches (ScrollTracker.maxScrollDepth st) t = true ->
    In t (ScrollTracker.trackedThresholds st)
    \/ exists rest, In rest (ScrollTracker.suspended st) /\ In t rest.

(** *** The browser as the client module sees it *)

Inductive FormFactor : Type :=
| Desktop
| Mobile
| Tablet.

(** The closure of the [mouseout] listener. *)
Record ExitListener : Type := mkExitListener {
  listener_exitIntentShown : option string;
  listener_customerId : string
}.

(** A call of [trackCustomerInteraction]; of the payload the session id and
    the product id are kept. *)
Record Interaction : Type := mkInteraction {
  interaction_customerId : string;
  interactionType : string;
  interaction_sessionId : option string;
  interaction_productId : option string
}.

(** The session storage, the listeners of the current page, the calls of the
    tracker and the customers [showExitIntentPopup] was called for. *)
Module Browser.
Record t : Type := mk {
  salesBotSessionId : option string;
  exitIntentShown : option string;
  exitListeners : list ExitListener;
  scrollTrackers : list ScrollTracker.t;
  interactions : list Interaction;
  popups : list string
}.

Definition new : t := mk None None [] [] [] [].
End Browser.

(** Loading the next page of the visit: the session storage stays, the
    listeners of the page go. *)
Definition next_page (b : Browser.t) : Browser.t :=
  Browser.mk (Browser.salesBotSessionId b) (Browser.exitIntentShown b) [] []
             (Browser.interactions b) (Browser.popups b).

(** Generate a unique session ID; [suffix] is
    [Math.random().toString(36).substring(2)]. *)
Definition generateSessionId (now : Z) (suffix : string) : string :=
  "session_" ++ toString36 now ++ suffix.

(** [member ? member._id : `guest_${sessionId}`] *)
Definition customer_of (member sessionId : option string) : string :=
  match member with
  | Some member_id => member_id
  | None =>
      "guest_" ++ match sessionId with
                  | Some s => s
                  | None => "null"
                  end
  end.

Definition log_interaction (i : Interaction) (b : Browser.t) : Browser.t :=
  Browser.mk (Browser.salesBotSessionId b) (Browser.exitIntentShown b)
             (Browser.exitListeners b) (Browser.scrollTrackers b)
             (Browser.interactions b ++ [i]) (Browser.popups b).

(** Setup exit intent detection *)
Definition setupExitIntentListener (formFactor : FormFactor)
    (customerId : string) (b : Browser.t) : Browser.t :=
  let exitIntentShown := Browser.exitIntentShown b in
  if item_set exitIntentShown then b
  else
    match formFactor with
    | Mobile => b
    | _ =>
        Browser.mk (Browser.salesBotSessionId b) (Browser.exitIntentShown b)
                   (Browser.exitListeners b
                    ++ [mkExitListener exitIntentShown customerId])
                   (Browser.scrollTrackers b)
                   (Browser.interactions b) (Browser.popups b)
    end.

(** Setup scroll depth tracking *)
Definition setupScrollTracking (customerId sessionId : string)
    (b : Browser.t) : Browser.t :=
  Browser.mk (Browser.salesBotSessionId b) (Browser.exitIntentShown b)
             (Browser.exitListeners b)
             (Browser.scrollTrackers b
              ++ [ScrollTracker.new customerId sessionId])
             (Browser.interactions b) (Browser.popups b).

Record SalesBotResult : Type := mkSalesBotResult {
  bot_success : bool;
  bot_sessionId : option string;
  bot_customerId : option string;
  bot_error : option string
}.

(** Initialize the sales bot on page load. *)
Definition initializeSalesBot (E : ChatEnv) (formFactor : FormFactor)
    (now : Z) (suffix : string) (b : Browser.t)
  : Browser.t * SalesBotResult :=
  let sessionId :=
    match Browser.salesBotSessionId b with
    | Some s => if (s =? "")%string then generateSessionId now suffix else s
    | None => generateSessionId now suffix
    end in
  let b :=
    if item_set (Browser.salesBotSessionId b) then b
    else Browser.mk (Some sessionId) (Browser.exitIntentShown b)
                    (Browser.exitListeners b) (Browser.scrollTrackers b)
                    (Browser.interactions b) (Browser.popups b) in
  match getMember E with
  | Threw e => (b, mkSalesBotResult false None None (Some e))
  | Returned member =>
      let customerId := customer_of member (Some sessionId) in
      let b :=
        log_interaction
          (mkInteraction customerId "page_view" (Some sessionId) None) b in
      match trackCustomerInteraction E with
      | Threw e => (b, mkSalesBotResult false None None (Some e))
      | Returned _ =>
          (setupScrollTracking customerId sessionId
             (setupExitIntentListener formFactor customerId b),
           mkSalesBotResult true (Some sessionId) (Some customerId) None)
      end
  end.

(** The [mouseout] listener, up to the call of [showExitIntentPopup]. *)
Definition exit_listener (clientY : Q) (l : ExitListener) (b : Browser.t)
  : Browser.t :=
  if Qle_bool clientY 0 && negb (item_set (listener_exitIntentShown l))
  then
    Browser.mk (Browser.salesBotSessionId b) (Some "true")
               (Browser.exitListeners b) (Browser.scrollTrackers b)
               (Browser.interactions b)
               (Browser.popups b ++ [listener_customerId l])
  else b.

(** A [mouseout] event of the document reaches every listener. *)
Definition mouseout (b : Browser.t) (clientY : Q) : Browser.t :=
  fold_left (fun b l => exit_listener clientY l b) (Browser.exitListeners b) b.

Record TrackResult : Type := mkTrackResult {
  track_success : bool;
  track_error : option string
}.

(** [trackProductView] and [trackAddToCart] up to the type and the payload
    of the interaction. *)
Definition track_event (E : ChatEnv) (type : string) (productId : string)
    (b : Browser.t) : Browser.t * TrackResult :=
  match getMember E with
  | Threw e => (b, mkTrackResult false (Some e))
  | Returned member =>
      let sessionId := Browser.salesBotSessionId b in
      let customerId := customer_of member sessionId in
      let b :=
        log_interaction
          (mkInteraction customerId type sessionId (Some productId)) b in
      match trackCustomerInteraction E with
      | Threw e => (b, mkTrackResult false (Some e))
      | Returned _ => (b, mkTrackResult true None)
      end
  end.

(** Track product view for analytics *)
Definition trackProductView (E : ChatEnv) (productId : string)
    (b : Browser.t) : Browser.t * TrackResult :=
  track_event E "product_view" productId b.

(** Track add to cart event *)
Definition trackAddToCart (E : ChatEnv) (productId : string)
    (b : Browser.t) : Browser.t * TrackResult :=
  track_event E "add_to_cart" productId b.

(** A tracking call of a page: a product view or an add-to-cart, with the
    product. *)
Inductive TrackingCall : Type :=
| product_view (productId : string)
| add_to_cart (productId : string).

Definition tracking_call (E : ChatEnv) (b : Browser.t) (call : TrackingCall)
  : Browser.t :=
  match call with
  | product_view productId => fst (trackProductView E productId b)
  | add_to_cart productId => fst (trackAddToCart E productId b)
  end.

(** The interaction a tracking call records for a visitor who has neither
    logged in nor a session id. *)
Definition guest_null_interaction (call : TrackingCall) : Interaction :=
  match call with
  | product_view productId =>
      mkInteraction "guest_null" "product_view" None (Some productId)
  | add_to_cart productId =>
      mkInteraction "guest_null" "add_to_cart" None (Some productId)
  end.

(** The page of the chat widget in a browser: both modules read and write
    the same entry of the session storage. *)
Definition chat_page (cs : ChatBotState.t) (b : Browser.t) : Page :=
  mkPage cs (Browser.salesBotSessionId b).

(** *** Recommendations in a repeater *)

Record DisplayResult : Type := mkDisplayResult {
  display_success : bool;
  display_count : option nat;
  display_message : option string;
  display_error : option string
}.

(** Display product recommendations in a repeater: the result and the data
    the repeater is given, if any.  What [onItemReady] renders is left
    out. *)
Definition displayRecommendations (E : ChatEnv) (customerId : option string)
  : DisplayResult * option (list JsValue) :=
  let result :=
    match customerId with
    | Some id =>
        if (id =? "")%string then getTrendingProducts E 6
        else getPersonalizedRecommendations E id 6
    | None => getTrendingProducts E 6
    end in
  match result with
  | Returned r =>
      if recommendations_success r
         && (0 <? List.length (recommendations r))
      then (mkDisplayResult true (Some (List.length (recommendations r)))
                            None None,
            Some (recommendations r))
      else (mkDisplayResult false None
                            (Some "No recommendations available") None,
            None)
  | Threw e => (mkDisplayResult false None None (Some e), None)
  end.

(** What the page makes of the answer [answer] of the engine it asks:
    [shown] is the result of [displayRecommendations] with the data the
    repeater was given.  The repeater is filled, with the products of the
    answer, exactly when the answer is a success with at least one product;
    an answer without success or without products and a rejected call fill
    nothing and are told apart in the result. *)
Definition display_follows (answer : Completion Recommendations)
    (shown : DisplayResult * option (list JsValue)) : Prop :=
  (display_success (fst shown) = true
   <-> exists product more,
         answer = Returned (mkRecommendations true (product :: more)))
  /\ (forall product more,
        answer = Returned (mkRecommendations true (product :: more)) ->
        shown = (mkDisplayResult true (Some (S (List.length more))) None None,
                 Some (product :: more)))
  /\ (forall products,
        answer = Returned (mkRecommendations false products) ->
        shown = (mkDisplayResult false None
                                 (Some "No recommendations available") None,
                 None))
  /\ (answer = Returned (mkRecommendations true []) ->
      shown = (mkDisplayResult false None
                               (Some "No recommendations available") None,
               None))
  /\ (forall e,
        answer = Threw e ->
        shown = (mkDisplayResult false None None (Some e), None)).

(** *** Urgency notification *)

(** Of a product, what the notification reads: the quantity of its
    inventory, when it has one, and the instant its [saleEndDate] denotes,
    when it has one that is a date. *)
Record Product : Type := mkProduct {
  inventory_quantity : option Z;
  saleEndDate : option Z
}.

Definition stock_message (quantity : Z) : string :=
  "ðŸ”¥ Only " ++ decimal quantity ++ " left in stock!".

Definition sale_message (hoursLeft : Z) : string :=
  "â° Sale ends in " ++ decimal hoursLeft ++ " hours!".

(** Show urgency notification (low stock, limited time): the text the
    notification shows, or [None] when it is hidden. *)
Definition showUrgencyNotification (now : Z) (product : Product)
  : option string :=
  let urgencyMessage :=
    match inventory_quantity product with
    | Some quantity =>
        if (quantity <=? 5)%Z then Some (stock_message quantity) else None
    | None => None
    end in
  let urgencyMessage :=
    match saleEndDate product with
    | Some endDate =>
        let hoursLeft := ((endDate - now) / (1000 * 60 * 60))%Z in
        if (0 <? hoursLeft)%Z && (hoursLeft <=? 24)%Z
        then Some (sale_message hoursLeft)
        else urgencyMessage
    | None => urgencyMessage
    end in
  urgencyMessage.

(** *** Social proof *)

Definition recentActivity : list string :=
  [ "Someone from New York just purchased!";
    "15 people are viewing this right now";
    "Purchased 24 times in the last 24 hours";
    "â­ Top seller this week!" ].

(** The notification: its text, [None] standing for [undefined], and the
    variable [messageIndex] of the closure. *)
Record SocialProof : Type := mkSocialProof {
  notification_text : option string;
  messageIndex : nat
}.

Definition showNextMessage (s : SocialProof) : SocialProof :=
  mkSocialProof (nth_error recentActivity (messageIndex s))
                ((messageIndex s + 1) mod List.length recentActivity).

(** The notification after the call of [showSocialProofNotification] and
    [ticks] runs of the interval timer. *)
Definition showSocialProofNotification (ticks : nat) : SocialProof :=
  Nat.iter (S ticks) showNextMessage (mkSocialProof None 0).


(** ** Proofs *)

Unset Implicit Arguments.

(** Entering a job whose first query goes through: the query returns its
    page and the loop over the page starts. *)
Ltac enter_job Hq :=
  unfold try_catch, find; rewrite Hq;
  unfold bind at 1; unfold ret at 1; cbn [items]; unfold bind at 1.

(** A job whose first query rejects hands the error on. *)
Ltac query_rejects Hq := unfold try_catch, find; now rewrite Hq.

Section KeyedUpdateFacts.

Variables (A : Type) (key : A -> string) (f : A -> A) (cond : A -> bool).
Hypothesis key_f : forall c, key (f c) = key c.

Lemma fold_touch (sel : list A) :
  NoDup (map key sel) ->
  forall l, fold_left (fun l x => map (touch key f cond x) l) sel l
            = map (touched key f cond sel) l.
Proof.
  induction sel as [|x sel IH]; intros ND l; cbn [fold_left].
  - unfold touched; cbn. now rewrite map_id.
  - cbn [map] in ND. inversion ND as [|k ks Hnotin ND']; subst.
    rewrite (IH ND'), map_map. apply map_ext. intro c.
    unfold touched, touch; cbn [existsb].
    destruct ((key x =? key c)%string && cond x) eqn:Hx; cbn [orb]; [|reflexivity].
    apply andb_prop in Hx as [Hk _]. apply String.eqb_eq in Hk.
    replace (existsb (fun x0 => (key x0 =? key (f c))%string && cond x0) sel) with false; [reflexivity|].
    symmetry. apply not_true_is_false. intro Hex.
    apply existsb_exists in Hex as (y & Hy & Hyk).
    apply andb_prop in Hyk as [Hyk _]. apply String.eqb_eq in Hyk.
    apply Hnotin. rewrite Hk, <- key_f, <- Hyk. now apply in_map.
Qed.

End KeyedUpdateFacts.

Lemma has_cart_find (id : string) (carts : list AbandonedCart.t) :
  find_cart id carts = None <-> has_cart id carts = false.
Proof.
  unfold find_cart, has_cart. induction carts as [|c l IH]; cbn; [tauto|].
  destruct (AbandonedCart._id c =? id)%string; cbn; [split; discriminate | exact IH].
Qed.

Lemma has_cart_in (c : AbandonedCart.t) (carts : list AbandonedCart.t) :
  In c carts -> has_cart (AbandonedCart._id c) carts = true.
Proof.
  intro H. apply existsb_exists. exists c. split; [exact H | apply String.eqb_refl].
Qed.

Lemma has_cart_map (g : AbandonedCart.t -> AbandonedCart.t) (id : string)
    (carts : list AbandonedCart.t) :
  (forall c, AbandonedCart._id (g c) = AbandonedCart._id c) ->
  has_cart id (map g carts) = has_cart id carts.
Proof.
  intro Hg. unfold has_cart. induction carts as [|c l IH]; cbn; [reflexivity|].
  now rewrite Hg, IH.
Qed.

Lemma map_untouched (g : AbandonedCart.t -> AbandonedCart.t) (id : string)
    (carts : list AbandonedCart.t) :
  has_cart id carts = false ->
  map (fun c => if (AbandonedCart._id c =? id)%string then g c else c) carts = carts.
Proof.
  unfold has_cart. induction carts as [|c l IH]; cbn; [reflexivity|].
  intro H. apply orb_false_elim in H as [Hc Hl]. now rewrite Hc, IH.
Qed.

Lemma remind_id now c : AbandonedCart._id (remind now c) = AbandonedCart._id c.
Proof. reflexivity. Qed.

Lemma send_effect_carts E now w x :
  AbandonedCarts (send_effect E now w x)
  = map (touch AbandonedCart._id (remind now) (mail_ok E) x) (AbandonedCarts w).
Proof.
  unfold send_effect, touch, mail_ok.
  destruct (has_cart (AbandonedCart._id x) (AbandonedCarts w)) eqn:Hh; cbn [andb].
  - destruct (accepted (mail E (AbandonedCart._id x))); cbn [record_reminder AbandonedCarts].
    + apply map_ext. intro c. rewrite String.eqb_sym, andb_true_r. reflexivity.
    + symmetry. erewrite map_ext; [apply map_id|]. intro c. now rewrite andb_false_r.
  - symmetry. destruct (accepted (mail E (AbandonedCart._id x))).
    + rewrite <- (map_untouched (remind now) _ _ Hh) at 2.
      apply map_ext. intro c. now rewrite String.eqb_sym, andb_true_r.
    + erewrite map_ext; [apply map_id|]. intro c. now rewrite andb_false_r.
Qed.

Lemma sweep_carts_fold E now page : forall w,
  AbandonedCarts (sweep E now page w)
  = fold_left (fun l x => map (touch AbandonedCart._id (remind now) (mail_ok E) x) l)
              page (AbandonedCarts w).
Proof.
  unfold sweep. induction page as [|x page IH]; intro w; cbn [fold_left]; [reflexivity|].
  now rewrite IH, send_effect_carts.
Qed.

Lemma sweep_carts E now page w :
  NoDup (map AbandonedCart._id page) ->
  AbandonedCarts (sweep E now page w) = map (swept E now page) (AbandonedCarts w).
Proof.
  intro ND. rewrite sweep_carts_fold.
  rewrite (fold_touch _ AbandonedCart._id (remind now) (mail_ok E) (remind_id now) page ND).
  reflexivity.
Qed.

Lemma sweep_keys E now page w :
  store_keys (sweep E now page w) = store_keys w.
Proof.
  unfold store_keys. revert w. unfold sweep.
  induction page as [|x page IH]; intro w; cbn [fold_left]; [reflexivity|].
  rewrite IH, send_effect_carts, map_map. apply map_ext. intro c.
  unfold touch. now destruct (_ && _).
Qed.

Lemma has_cart_same_keys id (l : list AbandonedCart.t) : forall l',
  map AbandonedCart._id l' = map AbandonedCart._id l ->
  has_cart id l' = has_cart id l.
Proof.
  unfold has_cart. induction l as [|c l IH]; intros [|c' l'] H; cbn in *;
    try discriminate; [reflexivity|].
  injection H as Hc Hl. now rewrite Hc, (IH l' Hl).
Qed.

Lemma has_cart_keys id w w' :
  store_keys w' = store_keys w ->
  has_cart id (AbandonedCarts w') = has_cart id (AbandonedCarts w).
Proof. apply has_cart_same_keys. Qed.

(** One step of a loop over a page keeps the carts of the page in the
    store. *)
Ltac keep_page Hin w x :=
  let y := fresh "y" in
  let Hy := fresh "Hy" in
  intros y Hy; rewrite (has_cart_keys _ w);
  [apply Hin; now right | apply (sweep_keys _ _ [x] w)].

Lemma sweep_outbox E now page : forall w,
  (forall x, In x page -> has_cart (AbandonedCart._id x) (AbandonedCarts w) = true) ->
  outbox (sweep E now page w) = outbox w ++ emailed E page.
Proof.
  unfold sweep, emailed.
  induction page as [|x page IH]; intros w Hin; cbn [fold_left filter map].
  - now rewrite app_nil_r.
  - rewrite IH.
    + unfold send_effect. rewrite (Hin x (or_introl eq_refl)). cbn [andb].
      destruct (mail_ok E x); cbn [record_reminder outbox map].
      * now rewrite <- app_assoc.
      * reflexivity.
    + keep_page Hin w x.
Qed.

Lemma sweep_rest E now page w :
  Customers (sweep E now page w) = Customers w
  /\ BrowsingHistory (sweep E now page w) = BrowsingHistory w
  /\ CustomerInteractions (sweep E now page w) = CustomerInteractions w
  /\ Orders (sweep E now page w) = Orders w
  /\ DailyReports (sweep E now page w) = DailyReports w.
Proof.
  unfold sweep. revert w. induction page as [|x page IH]; intro w; cbn [fold_left].
  - repeat split.
  - destruct (IH (send_effect E now w x)) as (H1 & H2 & H3 & H4 & H5).
    rewrite H1, H2, H3, H4, H5. unfold send_effect.
    destruct (_ && _); repeat split.
Qed.

Section Pages.

Variables (A : Type) (key : A -> string) (p : A -> bool).

Lemma In_firstn (n : nat) : forall (l : list A) (x : A),
  In x (firstn n l) -> In x l.
Proof.
  induction n as [|n IH]; intros [|a l] x H; cbn in *; try contradiction.
  destruct H as [H|H]; [now left | right; now apply IH].
Qed.

Lemma page_in (n : nat) (l : list A) (x : A) :
  In x (firstn n (filter p l)) -> In x l /\ p x = true.
Proof. intro H. apply In_firstn in H. now apply filter_In in H. Qed.

Lemma NoDup_keys_firstn (n : nat) : forall l : list A,
  NoDup (map key l) -> NoDup (map key (firstn n l)).
Proof.
  induction n as [|n IH]; intros [|a l] H; cbn in *; try constructor.
  - inversion H as [|k ks Hnotin ND]; subst.
    intro Hin. apply Hnotin. apply in_map_iff in Hin as (y & Hy & Hin).
    apply in_map_iff. exists y. split; [exact Hy | now apply In_firstn in Hin].
  - inversion H; subst. now apply IH.
Qed.

Lemma NoDup_keys_filter : forall l : list A,
  NoDup (map key l) -> NoDup (map key (filter p l)).
Proof.
  induction l as [|a l IH]; intro H; cbn in *; [constructor|].
  inversion H as [|k ks Hnotin ND]; subst.
  destruct (p a); cbn; [constructor|]; auto.
  intro Hin. apply Hnotin. apply in_map_iff in Hin as (y & Hy & Hin).
  apply in_map_iff. exists y. split; [exact Hy | now apply filter_In in Hin].
Qed.

Lemma NoDup_keys_page (n : nat) (l : list A) :
  NoDup (map key l) -> NoDup (map key (firstn n (filter p l))).
Proof. intro H. now apply NoDup_keys_firstn, NoDup_keys_filter. Qed.

Lemma page_complete (n : nat) (l : list A) (x : A) :
  List.length (filter p l) <= n -> In x l -> p x = true ->
  In x (firstn n (filter p l)).
Proof.
  intros Hlen Hin Hp. rewrite firstn_all2 by exact Hlen. now apply filter_In.
Qed.

(** Two items of a collection with the same key are the same item. *)
Lemma same_key_same_item : forall (l : list A) (x y : A),
  NoDup (map key l) -> In x l -> In y l -> key x = key y -> x = y.
Proof.
  induction l as [|a l IH]; intros x y ND Hx Hy Hk; [contradiction|].
  cbn in ND. inversion ND as [|k ks Hnotin ND']; subst.
  destruct Hx as [Hx|Hx], Hy as [Hy|Hy]; subst.
  - reflexivity.
  - exfalso. apply Hnotin. rewrite Hk. now apply in_map.
  - exfalso. apply Hnotin. rewrite <- Hk. now apply in_map.
  - now apply IH.
Qed.

End Pages.

Lemma send_run E now id w :
  exists r,
    sendCartRecoveryEmail E now id w
    = (if has_cart id (AbandonedCarts w) && accepted (mail E id)
       then record_reminder now id w else w, r)
    /\ match r with
       | Returned res =>
           success res = has_cart id (AbandonedCarts w) && accepted (mail E id)
       | Threw _ => accepted (mail E id) = false
       end.
Proof.
  unfold sendCartRecoveryEmail.
  destruct (find_cart id (AbandonedCarts w)) eqn:Hf.
  - assert (Hh : has_cart id (AbandonedCarts w) = true).
    { destruct (has_cart id (AbandonedCarts w)) eqn:Hh; [reflexivity|].
      apply has_cart_find in Hh. congruence. }
    rewrite Hh. cbn [andb].
    destruct (mail E id); cbn [accepted]; eexists; split; reflexivity.
  - apply has_cart_find in Hf. rewrite Hf. cbn [andb].
    eexists; split; reflexivity.
Qed.

Lemma recover_one_run E now c s f w :
  recover_one E now c (s, f) w
  = (send_effect E now w c,
     Returned (if has_cart (AbandonedCart._id c) (AbandonedCarts w) && mail_ok E c
               then (S s, f) else (s, S f))).
Proof.
  unfold recover_one, try_catch, bind, send_effect, mail_ok.
  destruct (send_run E now (AbandonedCart._id c) w) as (r & Heq & Hr).
  rewrite Heq. destruct r as [res|e].
  - rewrite <- Hr. now destruct (success res).
  - rewrite Hr, andb_false_r. reflexivity.
Qed.

Lemma recover_loop E now page : forall s f w,
  (forall x, In x page -> has_cart (AbandonedCart._id x) (AbandonedCarts w) = true) ->
  for_of page (recover_one E now) (s, f) w
  = (sweep E now page w,
     Returned (s + List.length (emailed E page),
               f + (List.length page - List.length (emailed E page)))).
Proof.
  unfold sweep, emailed.
  induction page as [|x page IH]; intros s f w Hin; cbn [for_of fold_left].
  - cbn. unfold ret. now rewrite !Nat.add_0_r.
  - unfold bind at 1. rewrite recover_one_run.
    rewrite (Hin x (or_introl eq_refl)). cbn [andb filter].
    assert (Hin' : forall y, In y page ->
              has_cart (AbandonedCart._id y)
                       (AbandonedCarts (send_effect E now w x)) = true)
      by keep_page Hin w x.
    pose proof (filter_length_le (mail_ok E) page) as Hle.
    destruct (mail_ok E x);
      rewrite (IH _ _ _ Hin'); cbn [map List.length]; rewrite !length_map in *;
      do 3 f_equal; lia.
Qed.

Lemma remind_one_run E now c n w :
  exists n', remind_one E now c n w = (send_effect E now w c, Returned n')
             /\ n' <= S n.
Proof.
  unfold remind_one, try_catch, bind, send_effect.
  destruct (send_run E now (AbandonedCart._id c) w) as (r & Heq & Hr).
  rewrite Heq. destruct r as [res|e]; eexists; split; try reflexivity; lia.
Qed.

Lemma remind_loop E now page : forall n w,
  exists n', for_of page (remind_one E now) n w = (sweep E now page w, Returned n')
             /\ n' <= n + List.length page.
Proof.
  unfold sweep.
  induction page as [|x page IH]; intros n w; cbn [for_of fold_left List.length].
  - exists n. split; [reflexivity | lia].
  - unfold bind at 1. destruct (remind_one_run E now x n w) as (n1 & -> & Hn1).
    destruct (IH n1 (send_effect E now w x)) as (n' & -> & Hn').
    exists n'. split; [reflexivity | lia].
Qed.

Lemma bulk_one_run E now c r w :
  exists r', bulk_one E now c r w = (send_effect E now w c, Returned r')
    /\ results_processed r' = S (results_processed r)
    /\ results_successful r'
       = (if has_cart (AbandonedCart._id c) (AbandonedCarts w) && mail_ok E c
          then S (results_successful r) else results_successful r)
    /\ results_failed r'
       = (if has_cart (AbandonedCart._id c) (AbandonedCarts w) && mail_ok E c
          then results_failed r else S (results_failed r)).
Proof.
  unfold bulk_one, try_catch, bind, send_effect, mail_ok.
  destruct (send_run E now (AbandonedCart._id c) w) as (res & Heq & Hr).
  rewrite Heq. destruct res as [res|e].
  - rewrite <- Hr. destruct (success res); eexists; repeat split.
  - rewrite Hr, andb_false_r. eexists; repeat split.
Qed.

Lemma page_has_cart (p : AbandonedCart.t -> bool) (n : nat) (w : World) :
  forall x, In x (firstn n (filter p (AbandonedCarts w))) ->
            has_cart (AbandonedCart._id x) (AbandonedCarts w) = true.
Proof. intros x Hx. apply page_in in Hx as [Hx _]. now apply has_cart_in. Qed.

Lemma processAbandonedCarts_run E now w :
  find_error E 0 = None ->
  processAbandonedCarts E now w
  = (sweep E now (first_reminder_page now w) w,
     Returned (mkCartJobSummary
                 (List.length (first_reminder_page now w))
                 (List.length (emailed E (first_reminder_page now w)))
                 (List.length (first_reminder_page now w)
                  - List.length (emailed E (first_reminder_page now w))))).
Proof.
  intro Hq. unfold processAbandonedCarts. enter_job Hq.
  fold (first_reminder_page now w).
  rewrite recover_loop by apply page_has_cart. reflexivity.
Qed.

Lemma processAbandonedCarts_rethrows E now w e :
  find_error E 0 = Some e -> processAbandonedCarts E now w = (w, Threw e).
Proof.
  intro Hq. unfold processAbandonedCarts. query_rejects Hq.
Qed.

Lemma sendSecondReminder_run E now w :
  find_error E 0 = None ->
  exists n,
    sendSecondReminder E now w
    = (sweep E now (second_reminder_page now w) w,
       Returned (mkSecondReminderSummary n))
    /\ n <= List.length (second_reminder_page now w).
Proof.
  intro Hq. unfold sendSecondReminder. enter_job Hq.
  fold (second_reminder_page now w).
  destruct (remind_loop E now (second_reminder_page now w) 0 w) as (n & -> & Hn).
  exists n. split; [reflexivity | exact Hn].
Qed.

Lemma sendSecondReminder_rethrows E now w e :
  find_error E 0 = Some e -> sendSecondReminder E now w = (w, Threw e).
Proof.
  intro Hq. unfold sendSecondReminder. query_rejects Hq.
Qed.

Lemma bulk_loop E now page : forall r w,
  (forall x, In x page -> has_cart (AbandonedCart._id x) (AbandonedCarts w) = true) ->
  exists r',
    for_of page (bulk_one E now) r w = (sweep E now page w, Returned r')
    /\ results_processed r' = results_processed r + List.length page
    /\ results_successful r' = results_successful r + List.length (emailed E page)
    /\ results_failed r'
       = results_failed r + (List.length page - List.length (emailed E page)).
Proof.
  unfold sweep, emailed.
  induction page as [|x page IH]; intros r w Hin; cbn [for_of fold_left].
  - exists r. cbn. repeat split; lia.
  - unfold bind at 1.
    destruct (bulk_one_run E now x r w) as (r1 & -> & Hp & Hs & Hf).
    rewrite (Hin x (or_introl eq_refl)) in Hs, Hf. cbn [andb] in Hs, Hf.
    assert (Hin' : forall y, In y page ->
              has_cart (AbandonedCart._id y)
                       (AbandonedCarts (send_effect E now w x)) = true)
      by keep_page Hin w x.
    destruct (IH r1 _ Hin') as (r' & -> & Hp' & Hs' & Hf').
    exists r'. split; [reflexivity|].
    pose proof (filter_length_le (mail_ok E) page) as Hle.
    cbn [filter].
    destruct (mail_ok E x);
      cbn [map List.length]; rewrite !length_map in *; repeat split; lia.
Qed.

Lemma post_bulkRecovery_run E now body w :
  find_error E 0 = None ->
  exists r,
    post_bulkRecovery E now (Returned body) w
    = (sweep E now (bulk_page now body w) w, ok (inl r))
    /\ results_processed r = List.length (bulk_page now body w)
    /\ results_successful r = List.length (emailed E (bulk_page now body w))
    /\ results_failed r = List.length (bulk_page now body w)
                          - List.length (emailed E (bulk_page now body w)).
Proof.
  intro Hq. unfold post_bulkRecovery, bulkRecovery_try, lift, find. rewrite Hq.
  unfold bind at 1. unfold bind at 1. unfold ret at 1. cbn [items].
  fold (bulk_cutoff now body). fold (bulk_page now body w).
  destruct (bulk_loop E now (bulk_page now body w) (mkBulkResults 0 0 0 []) w
              (page_has_cart _ _ w)) as (r & -> & Hp & Hs & Hf).
  exists r. cbn in Hp, Hs, Hf. repeat split; assumption.
Qed.

Lemma post_bulkRecovery_fails E now request w :
  (forall body, request = Returned body -> find_error E 0 <> None) ->
  fst (post_bulkRecovery E now request w) = w.
Proof.
  intro H. unfold post_bulkRecovery, bulkRecovery_try, lift, find.
  unfold bind at 1. destruct request as [body|e]; [|reflexivity].
  destruct (find_error E 0) eqn:Hq; [reflexivity|]. now elim (H body eq_refl).
Qed.

(** *** What a loop over a page does to each cart *)

Lemma swept_hit E now page c :
  In c page -> mail_ok E c = true -> swept E now page c = remind now c.
Proof.
  intros Hin Hok. unfold swept, touched.
  replace (existsb _ page) with true; [reflexivity|].
  symmetry. apply existsb_exists. exists c. split; [exact Hin|].
  now rewrite String.eqb_refl, Hok.
Qed.

Lemma swept_cases E now page (carts : list AbandonedCart.t) c :
  NoDup (map AbandonedCart._id carts) ->
  (forall x, In x page -> In x carts) ->
  In c carts ->
  swept E now page c = c
  \/ (swept E now page c = remind now c /\ In c page /\ mail_ok E c = true).
Proof.
  intros ND Hsub Hc. unfold swept, touched.
  destruct (existsb _ page) eqn:Hex; [right | now left].
  apply existsb_exists in Hex as (x & Hx & Hk).
  apply andb_prop in Hk as [Hk Hok]. apply String.eqb_eq in Hk.
  assert (x = c) as ->
    by (apply (same_key_same_item _ AbandonedCart._id carts); auto).
  auto.
Qed.

Lemma emailed_in E page id :
  In id (emailed E page) ->
  exists x, In x page /\ AbandonedCart._id x = id /\ mail_ok E x = true.
Proof.
  unfold emailed. intro H. apply in_map_iff in H as (x & Hid & Hx).
  apply filter_In in Hx as [Hx Hok]. now exists x.
Qed.

Lemma in_emailed E page c :
  In c page -> mail_ok E c = true -> In (AbandonedCart._id c) (emailed E page).
Proof.
  intros Hin Hok. unfold emailed. apply in_map. now apply filter_In.
Qed.

Lemma first_reminder_due_true now c :
  first_reminder_due now c = true <->
  (now - 24 * 60 * 60 * 1000 <= AbandonedCart.abandonedAt c
   <= now - 60 * 60 * 1000)%Z
  /\ AbandonedCart.emailSent c = false
  /\ AbandonedCart.recovered c = false.
Proof.
  unfold first_reminder_due.
  rewrite !andb_true_iff, !Z.leb_le, !Bool.eqb_true_iff. tauto.
Qed.

Lemma second_reminder_due_true now c :
  second_reminder_due now c = true <->
  (exists t, AbandonedCart.lastReminderAt c = Some t
             /\ (now - 48 * 60 * 60 * 1000 <= t <= now - 24 * 60 * 60 * 1000)%Z)
  /\ AbandonedCart.recovered c = false
  /\ AbandonedCart.reminderCount c = 1.
Proof.
  unfold second_reminder_due.
  rewrite !andb_true_iff, Bool.eqb_true_iff, Nat.eqb_eq.
  destruct (AbandonedCart.lastReminderAt c) as [t|].
  - rewrite andb_true_iff, !Z.leb_le. split.
    + intros [[Ht Hr] Hn]. repeat split; auto. now exists t.
    + intros [(t' & Heq & Ht) [Hr Hn]]. injection Heq as <-. tauto.
  - split; [intros [[H _] _]; discriminate | intros [(t & H & _) _]; discriminate].
Qed.

Lemma bulk_due_true cutoff c :
  bulk_due cutoff c = true <->
  (AbandonedCart.abandonedAt c <= cutoff)%Z
  /\ AbandonedCart.emailSent c = false
  /\ AbandonedCart.recovered c = false.
Proof.
  unfold bulk_due.
  rewrite !andb_true_iff, Z.leb_le, !Bool.eqb_true_iff. tauto.
Qed.

(** Every pass is a loop of sends over a page of due carts. *)
Lemma pass_is_sweep (w : World) (p : Pass) :
  exists E now page,
    run_pass w p = sweep E now page w
    /\ (forall x, In x page -> due w x)
    /\ (NoDup (store_keys w) -> NoDup (map AbandonedCart._id page)).
Proof.
  destruct p as [E now | E now | E now [body|e]]; cbn [run_pass].
  - destruct (find_error E 0) as [e|] eqn:Hq.
    + exists E, now, []. rewrite (processAbandonedCarts_rethrows _ _ _ _ Hq).
      repeat split; try contradiction. constructor.
    + exists E, now, (first_reminder_page now w).
      rewrite (processAbandonedCarts_run _ _ _ Hq). split; [reflexivity|]. split.
      * intros x Hx. apply page_in in Hx as [Hx Hd].
        apply first_reminder_due_true in Hd. unfold due. tauto.
      * apply NoDup_keys_page.
  - destruct (find_error E 0) as [e|] eqn:Hq.
    + exists E, now, []. rewrite (sendSecondReminder_rethrows _ _ _ _ Hq).
      repeat split; try contradiction. constructor.
    + exists E, now, (second_reminder_page now w).
      destruct (sendSecondReminder_run E now w Hq) as (n & -> & _).
      split; [reflexivity|]. split.
      * intros x Hx. apply page_in in Hx as [Hx Hd].
        apply second_reminder_due_true in Hd. unfold due. tauto.
      * apply NoDup_keys_page.
  - destruct (find_error E 0) as [e|] eqn:Hq.
    + exists E, now, []. rewrite post_bulkRecovery_fails.
      * repeat split; try contradiction. constructor.
      * intros b _. congruence.
    + exists E, now, (bulk_page now body w).
      destruct (post_bulkRecovery_run E now body w Hq) as (r & -> & _).
      split; [reflexivity|]. split.
      * intros x Hx. apply page_in in Hx as [Hx Hd].
        apply bulk_due_true in Hd. unfold due. tauto.
      * apply NoDup_keys_page.
  - exists E, now, []. rewrite post_bulkRecovery_fails.
    + repeat split; try contradiction. constructor.
    + discriminate.
Qed.

Lemma remind_ok now c :
  cart_ok c ->
  AbandonedCart.emailSent c = false \/ AbandonedCart.reminderCount c = 1 ->
  cart_ok (remind now c).
Proof.
  unfold cart_ok. cbn [remind AbandonedCart.reminderCount AbandonedCart.emailSent].
  intros [Hle H0] [Hs|H1]; split; try discriminate.
  - rewrite (H0 Hs). lia.
  - lia.
Qed.

Lemma sweep_effect E now page w :
  store_ok w ->
  (forall x, In x page -> due w x) ->
  NoDup (map AbandonedCart._id page) ->
  store_ok (sweep E now page w)
  /\ outbox (sweep E now page w) = outbox w ++ emailed E page
  /\ (forall c, In c (AbandonedCarts w) -> AbandonedCart.recovered c = true ->
        In c (AbandonedCarts (sweep E now page w))
        /\ ~ In (AbandonedCart._id c) (emailed E page))
  /\ (forall c', In c' (AbandonedCarts (sweep E now page w)) ->
        exists c, In c (AbandonedCarts w)
                  /\ AbandonedCart._id c = AbandonedCart._id c'
                  /\ AbandonedCart.reminderCount c
                     <= AbandonedCart.reminderCount c'
                     <= S (AbandonedCart.reminderCount c)).
Proof.
  intros [ND Hok] Hdue NDp.
  assert (Hsub : forall x, In x page -> In x (AbandonedCarts w))
    by (intros x Hx; apply (Hdue x Hx)).
  rewrite Forall_forall in Hok.
  repeat split.
  - now rewrite sweep_keys.
  - rewrite sweep_carts by exact NDp. apply Forall_forall.
    intros c' Hc'. apply in_map_iff in Hc' as (c & <- & Hc).
    destruct (swept_cases E now page _ c ND Hsub Hc) as [-> | (-> & Hp & _)].
    + now apply Hok.
    + apply remind_ok; [now apply Hok | apply (Hdue c Hp)].
  - apply sweep_outbox. intros x Hx. apply has_cart_in, Hsub, Hx.
  - rewrite sweep_carts by exact NDp. apply in_map_iff. exists c. split; [|assumption].
    destruct (swept_cases E now page _ c ND Hsub H) as [Heq | (_ & Hp & _)]; [exact Heq|].
    destruct (Hdue c Hp) as (_ & Hr & _). congruence.
  - intro Hin. apply emailed_in in Hin as (x & Hx & Hk & _).
    destruct (Hdue x Hx) as (Hxw & Hr & _).
    assert (x = c) as ->
      by (apply (same_key_same_item _ AbandonedCart._id (AbandonedCarts w)); auto).
    congruence.
  - intros c' Hc'. rewrite sweep_carts in Hc' by exact NDp.
    apply in_map_iff in Hc' as (c & <- & Hc). exists c. split; [exact Hc|].
    destruct (swept_cases E now page _ c ND Hsub Hc) as [-> | (-> & _ & _)];
      cbn [remind AbandonedCart._id AbandonedCart.reminderCount]; repeat split; lia.
Qed.

Lemma run_passes_inv (passes : list Pass) : forall w,
  store_ok w ->
  store_ok (run_passes passes w)
  /\ exists more,
       outbox (run_passes passes w) = outbox w ++ more
       /\ forall c, In c (AbandonedCarts w) -> AbandonedCart.recovered c = true ->
            In c (AbandonedCarts (run_passes passes w))
            /\ ~ In (AbandonedCart._id c) more.
Proof.
  unfold run_passes.
  induction passes as [|p passes IH]; intros w Hw; cbn [fold_left].
  - split; [exact Hw|]. exists []. rewrite app_nil_r. split; [reflexivity|]. auto.
  - destruct (pass_is_sweep w p) as (E & now & page & -> & Hdue & HND).
    destruct (sweep_effect E now page w Hw Hdue (HND (proj1 Hw)))
      as (Hw1 & Hout1 & Hrec1 & _).
    destruct (IH _ Hw1) as (Hw2 & more & Hout2 & Hrec2).
    split; [exact Hw2|]. exists (emailed E page ++ more).
    rewrite Hout2, Hout1, app_assoc. split; [reflexivity|].
    intros c Hc Hr. destruct (Hrec1 c Hc Hr) as [Hc1 Hn1].
    destruct (Hrec2 c Hc1 Hr) as [Hc2 Hn2]. split; [exact Hc2|].
    intro Hin. apply in_app_or in Hin as [Hin|Hin]; auto.
Qed.

(** C2.  Starting from a store whose carts are as the state machine keeps
    them (unique ids, at most two reminders, none counted before the first
    email), and for every sequence of batch passes (first reminder, second
    reminder, bulk recovery, with any behaviour of the store and of the mail
    transport): the store stays of that kind; no pass of the sequence sends
    an email for a cart that was recovered at the start, and its record
    stays as it was; no cart ever counts more than two reminders; and one
    more pass raises the count of a cart by at most one and never lowers
    it. *)
Theorem recovered_carts_are_left_alone_and_reminders_are_bounded
    (passes : list Pass) (w : World) :
  store_ok w ->
  store_ok (run_passes passes w)
  /\ (exists more,
        outbox (run_passes passes w) = outbox w ++ more
        /\ forall c, In c (AbandonedCarts w) ->
             AbandonedCart.recovered c = true ->
             In c (AbandonedCarts (run_passes passes w))
             /\ ~ In (AbandonedCart._id c) more)
  /\ (forall c, In c (AbandonedCarts (run_passes passes w)) ->
        AbandonedCart.reminderCount c <= 2)
  /\ (forall p c', In c' (AbandonedCarts (run_pass (run_passes passes w) p)) ->
        exists c, In c (AbandonedCarts (run_passes passes w))
                  /\ AbandonedCart._id c = AbandonedCart._id c'
                  /\ AbandonedCart.reminderCount c
                     <= AbandonedCart.reminderCount c'
                     <= S (AbandonedCart.reminderCount c)).
Proof.
  intro Hw. destruct (run_passes_inv passes w Hw) as (Hw' & more & Hout & Hrec).
  split; [exact Hw'|]. split; [|split].
  - exists more. split; [exact Hout | exact Hrec].
  - intros c Hc. destruct Hw' as [_ Hok]. rewrite Forall_forall in Hok.
    apply (Hok c Hc).
  - intros p c' Hc'.
    destruct (pass_is_sweep (run_passes passes w) p)
      as (E & now & page & Heq & Hdue & HND).
    rewrite Heq in Hc'.
    destruct (sweep_effect E now page _ Hw' Hdue (HND (proj1 Hw'))) as (_ & _ & _ & Hstep).
    apply (Hstep c' Hc').
Qed.

(** ** The first-reminder pass *)

Lemma remind_stored E now page w c :
  NoDup (map AbandonedCart._id page) ->
  In c (AbandonedCarts w) -> In c page -> mail_ok E c = true ->
  In (remind now c) (AbandonedCarts (sweep E now page w)).
Proof.
  intros NDp Hc Hp Hok. rewrite sweep_carts by exact NDp.
  apply in_map_iff. exists c. split; [now apply swept_hit | exact Hc].
Qed.

Lemma mail_ok_accepted E c :
  mail E (AbandonedCart._id c) = MailAccepted -> mail_ok E c = true.
Proof. unfold mail_ok. now intros ->. Qed.

(** C1, as the code has it.  When its query goes through, the first-reminder
    pass handles one page of at most 100 carts: every cart of the page is a
    stored cart abandoned between 24 hours and 1 hour before [now] (both
    ends included) with [emailSent=false] and [recovered=false], and when at
    most 100 stored carts are of that kind the page holds every one of them.
    The pass sends an email for exactly the carts of the page the mail
    transport accepts.  After such a send the stored cart has
    [emailSent=true], one reminder more than before (1 for a cart that
    counted none) and [lastReminderAt=now]; and a first-reminder pass run
    on the resulting store, at whatever time and with whatever collaborators,
    does not select that cart and sends no email for it. *)
Theorem first_reminder_pass_selects_a_page_and_marks_it (E : Env) (now : Z)
    (w : World) :
  find_error E 0 = None ->
  NoDup (store_keys w) ->
  exists w' summary,
    processAbandonedCarts E now w = (w', Returned summary)
    /\ processed summary = List.length (first_reminder_page now w)
    /\ List.length (first_reminder_page now w) <= 100
    /\ outbox w' = outbox w ++ emailed E (first_reminder_page now w)
    /\ (forall c, In c (first_reminder_page now w) ->
          In c (AbandonedCarts w)
          /\ (now - 24 * 60 * 60 * 1000 <= AbandonedCart.abandonedAt c
              <= now - 60 * 60 * 1000)%Z
          /\ AbandonedCart.emailSent c = false
          /\ AbandonedCart.recovered c = false)
    /\ (List.length (filter (first_reminder_due now) (AbandonedCarts w)) <= 100 ->
        forall c, In c (AbandonedCarts w) ->
          (now - 24 * 60 * 60 * 1000 <= AbandonedCart.abandonedAt c
           <= now - 60 * 60 * 1000)%Z ->
          AbandonedCart.emailSent c = false ->
          AbandonedCart.recovered c = false ->
          In c (first_reminder_page now w))
    /\ (forall c, In c (first_reminder_page now w) ->
          mail E (AbandonedCart._id c) = MailAccepted ->
          In (AbandonedCart._id c) (emailed E (first_reminder_page now w))
          /\ (exists c', In c' (AbandonedCarts w')
                /\ AbandonedCart._id c' = AbandonedCart._id c
                /\ AbandonedCart.emailSent c' = true
                /\ AbandonedCart.reminderCount c'
                   = S (AbandonedCart.reminderCount c)
                /\ (AbandonedCart.reminderCount c = 0 ->
                    AbandonedCart.reminderCount c' = 1)
                /\ AbandonedCart.lastReminderAt c' = Some now)
          /\ forall E2 now2 w2 r2,
               processAbandonedCarts E2 now2 w' = (w2, r2) ->
               ~ In (AbandonedCart._id c)
                    (map AbandonedCart._id (first_reminder_page now2 w'))
               /\ exists more, outbox w2 = outbox w' ++ more
                               /\ ~ In (AbandonedCart._id c) more).
Proof.
  intros Hq ND. rewrite (processAbandonedCarts_run _ _ _ Hq).
  set (page := first_reminder_page now w).
  assert (NDp : NoDup (map AbandonedCart._id page))
    by (apply NoDup_keys_page; exact ND).
  eexists. eexists. split; [reflexivity|]. cbn [processed].
  split; [reflexivity|].
  split; [apply firstn_le_length|].
  split; [apply sweep_outbox, page_has_cart|].
  split.
  { intros c Hc. apply page_in in Hc as [Hc Hd].
    apply first_reminder_due_true in Hd. tauto. }
  split.
  { intros Hlen c Hc Hwin Hs Hr. apply page_complete; auto.
    apply first_reminder_due_true. tauto. }
  intros c Hc Hmail. pose proof (mail_ok_accepted E c Hmail) as Hok.
  pose proof (page_in _ _ _ _ _ Hc) as [Hcw _].
  assert (Hstored : In (remind now c) (AbandonedCarts (sweep E now page w)))
    by (apply remind_stored; assumption).
  split; [now apply in_emailed|]. split.
  { exists (remind now c). split; [exact Hstored|].
    cbn [remind AbandonedCart._id AbandonedCart.emailSent
         AbandonedCart.reminderCount AbandonedCart.lastReminderAt].
    repeat split. now intros ->. }
  intros E2 now2 w2 r2 Hrun2.
  assert (Hnot : ~ In (AbandonedCart._id c)
                      (map AbandonedCart._id
                           (first_reminder_page now2 (sweep E now page w)))).
  { intro Hin. apply in_map_iff in Hin as (x & Hk & Hx).
    apply page_in in Hx as [Hx Hd]. apply first_reminder_due_true in Hd.
    assert (x = remind now c) as ->.
    { apply (same_key_same_item _ AbandonedCart._id
               (AbandonedCarts (sweep E now page w))); auto.
      change (NoDup (store_keys (sweep E now page w))).
      now rewrite sweep_keys. }
    cbn in Hd. destruct Hd as (_ & Hd & _). discriminate. }
  split; [exact Hnot|].
  destruct (find_error E2 0) as [e|] eqn:Hq2.
  - rewrite (processAbandonedCarts_rethrows _ _ _ _ Hq2) in Hrun2.
    injection Hrun2 as <- _. exists []. now rewrite app_nil_r.
  - rewrite (processAbandonedCarts_run _ _ _ Hq2) in Hrun2.
    injection Hrun2 as <- _. eexists. split.
    + apply sweep_outbox, page_has_cart.
    + intro Hin. apply emailed_in in Hin as (x & Hx & Hk & _).
      apply Hnot. rewrite <- Hk. now apply in_map.
Qed.

Lemma small_store_keys : NoDup (store_keys small_store).
Proof.
  unfold store_keys, small_store, cart_store. cbn.
  repeat constructor; cbn; intuition discriminate.
Qed.

Lemma first_reminder_pass_witness :
  find_error calm 0 = None
  /\ NoDup (store_keys small_store)
  /\ exists w' summary,
       processAbandonedCarts calm noon small_store = (w', Returned summary)
       /\ processed summary = 1
       /\ outbox w' = ["recent"].
Proof.
  split; [reflexivity|]. split; [exact small_store_keys|].
  destruct (first_reminder_pass_selects_a_page_and_marks_it
              calm noon small_store eq_refl small_store_keys)
    as (w' & summary & Hrun & Hn & _ & Hout & _).
  exists w', summary. split; [exact Hrun|]. split; [exact Hn | exact Hout].
Defined.

(** C1 as stated fails on a store with more than 100 due carts: the 101st
    cart of [crowd] lies in the window, unemailed and unrecovered, and the
    pass neither selects it nor sends for it. *)
Lemma first_reminder_pass_stops_after_100_carts :
  nth_error (AbandonedCarts crowd) 100
  = Some (fresh_cart "cart100" two_hours_before_noon)
  /\ first_reminder_due noon (fresh_cart "cart100" two_hours_before_noon) = true
  /\ has_cart "cart100" (first_reminder_page noon crowd) = false
  /\ snd (processAbandonedCarts calm noon crowd)
     = Returned (mkCartJobSummary 100 100 0)
  /\ existsb (String.eqb "cart100")
             (outbox (fst (processAbandonedCarts calm noon crowd))) = false
  /\ nth_error (AbandonedCarts (fst (processAbandonedCarts calm noon crowd))) 100
     = Some (fresh_cart "cart100" two_hours_before_noon).
Proof. repeat split; vm_compute; reflexivity. Qed.

(** ** Recovered carts and the reminder count *)

Lemma small_store_ok : store_ok small_store.
Proof.
  split; [exact small_store_keys|].
  unfold small_store, cart_store. cbn.
  repeat constructor; cbn; try lia; discriminate.
Qed.

Lemma recovered_carts_witness :
  store_ok small_store
  /\ exists more,
       outbox (run_passes [FirstReminderPass calm noon;
                           BulkRecoveryPass calm noon
                             (Returned (mkBulkRequest None));
                           SecondReminderPass calm (noon + 86400000)]
                          small_store)
       = outbox small_store ++ more
       /\ ~ In "bought" more.
Proof.
  split; [exact small_store_ok|].
  destruct (recovered_carts_are_left_alone_and_reminders_are_bounded
              [FirstReminderPass calm noon;
               BulkRecoveryPass calm noon (Returned (mkBulkRequest None));
               SecondReminderPass calm (noon + 86400000)]
              small_store small_store_ok) as (_ & (more & Hout & Hrec) & _).
  exists more. split; [exact Hout|].
  apply (Hrec recovered_cart); [|reflexivity].
  cbn. right. right. left. reflexivity.
Defined.

(** ** Eligibility windows *)

(** C8, as the code has it.  The two scheduled passes select by a closed
    interval of elapsed time: a cart of the first-reminder page was abandoned
    between 1 and 24 hours before [now], a cart of the second-reminder page
    was last reminded between 24 and 48 hours before [now].  The bulk
    endpoint selects by one cutoff: a cart of its page was abandoned at
    least [hoursOld] hours before [now] (1 hour when [hoursOld] is absent or
    0), and as long as the page of 50 is not full every stored unemailed,
    unrecovered cart that old is on it, however long ago it was abandoned. *)
Theorem eligibility_is_a_window_except_for_bulk_recovery (now : Z)
    (body : BulkRequest) (w : World) (c : AbandonedCart.t) :
  (In c (first_reminder_page now w) ->
     In c (AbandonedCarts w)
     /\ (60 * 60 * 1000 <= now - AbandonedCart.abandonedAt c
         <= 24 * 60 * 60 * 1000)%Z
     /\ AbandonedCart.emailSent c = false
     /\ AbandonedCart.recovered c = false)
  /\ (In c (second_reminder_page now w) ->
        In c (AbandonedCarts w)
        /\ (exists t, AbandonedCart.lastReminderAt c = Some t
                      /\ (24 * 60 * 60 * 1000 <= now - t
                          <= 48 * 60 * 60 * 1000)%Z)
        /\ AbandonedCart.recovered c = false
        /\ AbandonedCart.reminderCount c = 1)
  /\ (In c (bulk_page now body w) ->
        In c (AbandonedCarts w)
        /\ (hoursOld_or_default body * 60 * 60 * 1000
            <= now - AbandonedCart.abandonedAt c)%Z
        /\ AbandonedCart.emailSent c = false
        /\ AbandonedCart.recovered c = false)
  /\ (In c (AbandonedCarts w) ->
      (hoursOld_or_default body * 60 * 60 * 1000
       <= now - AbandonedCart.abandonedAt c)%Z ->
      AbandonedCart.emailSent c = false ->
      AbandonedCart.recovered c = false ->
      List.length (filter (bulk_due (bulk_cutoff now body)) (AbandonedCarts w))
      <= 50 ->
      In c (bulk_page now body w))
  /\ (forall E, find_error E 0 = None ->
        outbox (fst (processAbandonedCarts E now w))
        = outbox w ++ emailed E (first_reminder_page now w)
        /\ outbox (fst (sendSecondReminder E now w))
           = outbox w ++ emailed E (second_reminder_page now w)
        /\ outbox (fst (post_bulkRecovery E now (Returned body) w))
           = outbox w ++ emailed E (bulk_page now body w)).
Proof.
  repeat apply conj.
  - intro H. apply page_in in H as [H Hd].
    apply first_reminder_due_true in Hd. repeat split; try tauto; lia.
  - intro H. apply page_in in H as [H Hd].
    apply second_reminder_due_true in Hd as ((t & Ht & Hwin) & Hr & Hn).
    repeat split; auto. exists t. split; [exact Ht | lia].
  - intro H. apply page_in in H as [H Hd].
    apply bulk_due_true in Hd. unfold bulk_cutoff in Hd.
    repeat split; try tauto; lia.
  - intros Hc Hold Hs Hr Hlen. apply page_complete; auto.
    apply bulk_due_true. unfold bulk_cutoff. repeat split; auto; lia.
  - intros E Hq. rewrite (processAbandonedCarts_run _ _ _ Hq).
    destruct (sendSecondReminder_run E now w Hq) as (n & -> & _).
    destruct (post_bulkRecovery_run E now body w Hq) as (r & -> & _).
    cbn [fst]. repeat split; apply sweep_outbox, page_has_cart.
Qed.

(** C8 as stated fails for the bulk endpoint: with the default [hoursOld]
    it selects, and emails, a cart abandoned 100 hours earlier, which the
    windowed first-reminder query leaves out; and it still selects that
    cart a million hours later. *)
Lemma bulk_recovery_selects_by_a_single_cutoff :
  (noon - AbandonedCart.abandonedAt stale_cart = 100 * 60 * 60 * 1000)%Z
  /\ has_cart "stale" (first_reminder_page noon small_store) = false
  /\ has_cart "stale" (bulk_page noon (mkBulkRequest None) small_store) = true
  /\ outbox (fst (post_bulkRecovery calm noon (Returned (mkBulkRequest None))
                                    small_store))
     = ["recent"; "stale"]
  /\ has_cart "stale"
       (bulk_page (noon + 1000000 * 60 * 60 * 1000) (mkBulkRequest None)
                  small_store) = true.
Proof. repeat split; vm_compute; reflexivity. Qed.

(** ** Resegmentation *)

Lemma option_string_eqb_refl (a : option string) : option_string_eqb a a = true.
Proof. destruct a; cbn; [apply String.eqb_refl | reflexivity]. Qed.

Lemma rescore_id E now c : Customer._id (rescore E now c) = Customer._id c.
Proof. unfold rescore. now destruct (getCustomerValueScore E (Customer._id c)). Qed.

Lemma resegment_one_run E now x n w :
  resegment_one E now x n w
  = (with_customers
       (map (touch Customer._id (rescore E now) (writes E) x) (Customers w)) w,
     Returned (if writes E x then S n else n)).
Proof.
  assert (Hsame : forall l : list Customer.t,
             map (fun c => c) l = l) by apply map_id.
  assert (Hw : with_customers (Customers w) w = w) by now destruct w.
  unfold resegment_one, try_catch, bind, writes, wants_write,
    update_goes_through, update_customer, touch.
  destruct (getCustomerValueScore E (Customer._id x)) as [vs|e] eqn:Hscore.
  - destruct (vs_success vs
              && negb (option_string_eqb (Customer.segment x) (vs_segment vs))).
    + cbn [andb Customer._id].
      destruct (update_error E (Customer._id x)) as [e|]; cbn [andb ret].
      * rewrite (map_ext _ (fun c => c)), Hsame, Hw; [reflexivity|].
        intro c. now rewrite andb_false_r.
      * unfold with_customers. do 2 f_equal. apply map_ext. intro c.
        rewrite String.eqb_sym, andb_true_r.
        destruct (Customer._id x =? Customer._id c)%string eqn:Hk; [|reflexivity].
        apply String.eqb_eq in Hk. unfold rescore. now rewrite <- Hk, Hscore.
    + cbn [andb ret]. rewrite (map_ext _ (fun c => c)), Hsame, Hw; [reflexivity|].
      intro c. now rewrite andb_false_r.
  - cbn [andb ret]. rewrite (map_ext _ (fun c => c)), Hsame, Hw; [reflexivity|].
    intro c. now rewrite andb_false_r.
Qed.

Lemma resegment_loop E now page : forall n w,
  for_of page (resegment_one E now) n w
  = (with_customers
       (fold_left
          (fun l x => map (touch Customer._id (rescore E now) (writes E) x) l)
          page (Customers w)) w,
     Returned (n + List.length (filter (writes E) page))).
Proof.
  induction page as [|x page IH]; intros n w; cbn [for_of fold_left filter].
  - unfold ret. rewrite Nat.add_0_r. now destruct w.
  - unfold bind at 1. rewrite resegment_one_run, IH.
    unfold with_customers. cbn [AbandonedCarts Customers BrowsingHistory
      CustomerInteractions Orders DailyReports outbox].
    destruct (writes E x); cbn [List.length]; do 2 f_equal; lia.
Qed.

Lemma updateCustomerSegments_run E now w :
  find_error E 0 = None ->
  NoDup (map Customer._id (Customers w)) ->
  updateCustomerSegments E now w
  = (with_customers
       (map (resegmented E now (customers_page w)) (Customers w)) w,
     Returned (mkSegmentJobSummary
                 (List.length (customers_page w))
                 (List.length (filter (writes E) (customers_page w))))).
Proof.
  intros Hq ND. unfold updateCustomerSegments. enter_job Hq.
  fold (customers_page w).
  rewrite resegment_loop. unfold ret. cbn [Nat.add]. do 2 f_equal.
  unfold resegmented. apply fold_touch; [apply rescore_id|].
  now apply NoDup_keys_page.
Qed.

Lemma updateCustomerSegments_rethrows E now w e :
  find_error E 0 = Some e -> updateCustomerSegments E now w = (w, Threw e).
Proof.
  intro Hq. unfold updateCustomerSegments. query_rejects Hq.
Qed.

(** A loop in which no customer asks for a write leaves the world alone. *)
Lemma resegment_loop_quiet E now page : forall n w,
  (forall x, In x page -> wants_write E x = false) ->
  for_of page (resegment_one E now) n w = (w, Returned n).
Proof.
  induction page as [|x page IH]; intros n w Hq; cbn [for_of]; [reflexivity|].
  unfold bind at 1. rewrite resegment_one_run.
  assert (Hx : writes E x = false)
    by (unfold writes; now rewrite (Hq x (or_introl eq_refl))).
  rewrite Hx. rewrite (map_ext _ (fun c => c)).
  - rewrite map_id. replace (with_customers (Customers w) w) with w by now destruct w.
    apply IH. intros y Hy. apply Hq. now right.
  - intro c. unfold touch. now rewrite Hx, andb_false_r.
Qed.

Lemma filter_all {A} (l : list A) : filter (fun _ => true) l = l.
Proof. induction l as [|a l IH]; cbn; [reflexivity | now rewrite IH]. Qed.

Lemma customers_page_map (g : Customer.t -> Customer.t) (w : World) :
  customers_page (with_customers (map g (Customers w)) w)
  = map g (customers_page w).
Proof.
  unfold customers_page, with_customers. cbn [Customers].
  now rewrite !filter_all, firstn_map.
Qed.

(** After a run, a customer of the page asks for a write again only when the
    write for it was rejected. *)
Lemma resegmented_settled E1 E2 now page x :
  (forall id, getCustomerValueScore E2 id = getCustomerValueScore E1 id) ->
  In x page ->
  wants_write E2 (resegmented E1 now page x) = true ->
  update_error E1 (Customer._id x) <> None.
Proof.
  intros Hsame Hx. unfold resegmented, touched.
  destruct (existsb _ page) eqn:Hex.
  - unfold wants_write. rewrite rescore_id, Hsame. unfold rescore.
    destruct (getCustomerValueScore E1 (Customer._id x)) as [vs|e];
      [|discriminate].
    cbn [Customer.segment]. now rewrite option_string_eqb_refl, andb_false_r.
  - assert (Hwr : writes E1 x = false).
    { destruct (writes E1 x) eqn:Hwr; [|reflexivity].
      rewrite <- Hex. symmetry. apply existsb_exists. exists x.
      split; [exact Hx|]. now rewrite String.eqb_refl, Hwr. }
    unfold writes, update_goes_through in Hwr.
    unfold wants_write in *. rewrite Hsame. intros Hwant Hnone.
    now rewrite Hwant, Hnone in Hwr.
Qed.

(** C6.  Take a store in which [_id] is the key of [Customers], a first run
    of the segmentation job whose query goes through, and a second run for
    which the scoring engine answers as in the first (no data changed in
    between).  In the first run a customer whose stored segment the engine
    confirms (or whom it cannot score) is not written: its record stays as
    it was.  In the second run a customer asks for a write only if the
    write for it was rejected in the first run.  So when the writes of the
    first run all went through, every processed customer the engine scores
    successfully is stored with the segment the engine gives, and the second
    run leaves the store exactly as the first run left it and reports zero
    updated customers. *)
Theorem resegmenting_twice_writes_nothing_the_second_time
    (E1 E2 : Env) (now1 now2 : Z) (w : World) :
  NoDup (map Customer._id (Customers w)) ->
  find_error E1 0 = None ->
  (forall id, getCustomerValueScore E2 id = getCustomerValueScore E1 id) ->
  exists w1 s1,
    updateCustomerSegments E1 now1 w = (w1, Returned s1)
    /\ (forall c, In c (Customers w) -> wants_write E1 c = false ->
          In c (Customers w1))
    /\ (forall c, In c (customers_page w1) -> wants_write E2 c = true ->
          update_error E1 (Customer._id c) <> None)
    /\ ((forall id, update_error E1 id = None) ->
        (forall c vs, In c (customers_page w1) ->
           getCustomerValueScore E1 (Customer._id c) = Returned vs ->
           vs_success vs = true ->
           Customer.segment c = vs_segment vs)
        /\ fst (updateCustomerSegments E2 now2 w1) = w1
        /\ (find_error E2 0 = None ->
            snd (updateCustomerSegments E2 now2 w1)
            = Returned (mkSegmentJobSummary (customers_processed s1) 0))).
Proof.
  intros ND Hq Hsame.
  rewrite (updateCustomerSegments_run _ _ _ Hq ND).
  set (T := resegmented E1 now1 (customers_page w)).
  set (w1 := with_customers (map T (Customers w)) w).
  assert (Hagain : forall E, (forall id, getCustomerValueScore E id
                                         = getCustomerValueScore E1 id) ->
            forall x, In x (customers_page w1) -> wants_write E x = true ->
                      update_error E1 (Customer._id x) <> None).
  { intros E HE x' Hx' Hwant. unfold w1 in Hx'. rewrite customers_page_map in Hx'.
    apply in_map_iff in Hx' as (x & <- & Hx).
    unfold T. unfold resegmented at 1. unfold touched.
    destruct (existsb _ (customers_page w)); [rewrite rescore_id|];
      apply (resegmented_settled E1 E now1 (customers_page w) x HE Hx Hwant). }
  exists w1. eexists. split; [reflexivity|]. cbn [customers_processed].
  split; [|split].
  - intros c Hc Hwant. unfold w1, with_customers. cbn [Customers].
    apply in_map_iff. exists c. split; [|exact Hc].
    unfold T, resegmented, touched.
    destruct (existsb _ (customers_page w)) eqn:Hex; [|reflexivity].
    apply existsb_exists in Hex as (y & Hy & Hk).
    apply andb_prop in Hk as [Hk Hwr]. apply String.eqb_eq in Hk.
    apply page_in in Hy as [Hy _].
    assert (y = c) as ->
      by (apply (same_key_same_item _ Customer._id (Customers w)); auto).
    unfold writes in Hwr. rewrite Hwant in Hwr. discriminate.
  - apply (Hagain E2 Hsame).
  - intro Hup.
    assert (Hsettled : forall E, (forall id, getCustomerValueScore E id
                                             = getCustomerValueScore E1 id) ->
              forall x, In x (customers_page w1) -> wants_write E x = false).
    { intros E HE x Hx. destruct (wants_write E x) eqn:Hwant; [|reflexivity].
      elim (Hagain E HE x Hx Hwant). apply Hup. }
    split; [|split].
    + intros c vs Hc Hscore Hsucc.
      pose proof (Hsettled E1 (fun _ => eq_refl) c Hc) as Hwant.
      unfold wants_write in Hwant. rewrite Hscore, Hsucc in Hwant.
      cbn [andb] in Hwant. apply negb_false_iff in Hwant.
      destruct (Customer.segment c) as [a|], (vs_segment vs) as [b|];
        cbn in Hwant; try discriminate; [|reflexivity].
      apply String.eqb_eq in Hwant. now subst.
    + unfold updateCustomerSegments, try_catch, find.
      destruct (find_error E2 0) as [e|]; [reflexivity|].
      unfold bind at 1. unfold ret at 1. cbn [items]. unfold bind at 1.
      fold (customers_page w1).
      now rewrite (resegment_loop_quiet E2 now2 _ 0 w1 (Hsettled E2 Hsame)).
    + intro Hq2. unfold updateCustomerSegments. enter_job Hq2.
      fold (customers_page w1).
      rewrite (resegment_loop_quiet E2 now2 _ 0 w1 (Hsettled E2 Hsame)).
      unfold ret. cbn [snd]. do 2 f_equal.
      unfold w1. now rewrite customers_page_map, length_map.
Qed.

Lemma shop_customer_keys : NoDup (map Customer._id (Customers shop)).
Proof. cbn. repeat constructor; cbn; intuition discriminate. Qed.

Lemma resegmenting_twice_witness :
  NoDup (map Customer._id (Customers shop))
  /\ find_error calm 0 = None
  /\ (forall id, getCustomerValueScore calm id = getCustomerValueScore calm id)
  /\ exists w1 s1,
       updateCustomerSegments calm noon shop = (w1, Returned s1)
       /\ fst (updateCustomerSegments calm (noon + 1)%Z w1) = w1.
Proof.
  split; [exact shop_customer_keys|]. split; [reflexivity|].
  split; [reflexivity|].
  destruct (resegmenting_twice_writes_nothing_the_second_time
              calm calm noon (noon + 1)%Z shop shop_customer_keys eq_refl
              (fun _ => eq_refl))
    as (w1 & s1 & Hrun & _ & _ & Hquiet).
  exists w1, s1. split; [exact Hrun|].
  apply (Hquiet (fun _ => eq_refl)).
Defined.

(** ** The boundary of the batch jobs *)

Lemma cleanOldData_rethrows E now w e :
  find_error E 0 = Some e -> cleanOldData E now w = (w, Threw e).
Proof.
  intro Hq. unfold cleanOldData. query_rejects Hq.
Qed.

Lemma generateDailySalesReport_rethrows E now w e :
  find_error E 0 = Some e -> generateDailySalesReport E now w = (w, Threw e).
Proof.
  intro Hq. unfold generateDailySalesReport. query_rejects Hq.
Qed.

Lemma remove_browsing_loop E page :
  (forall id, remove_error E "BrowsingHistory" id = None) ->
  forall n w,
    exists w',
      for_of page
             (fun record n =>
                remove_browsing E (Tracked._id record) ;;; ret (S n)) n w
      = (w', Returned (n + List.length page))
      /\ CustomerInteractions w' = CustomerInteractions w
      /\ AbandonedCarts w' = AbandonedCarts w.
Proof.
  intro Hr. induction page as [|x page IH]; intros n w; cbn [for_of List.length].
  - exists w. rewrite Nat.add_0_r. repeat split.
  - unfold bind at 1. unfold bind at 1. unfold remove_browsing at 1.
    rewrite Hr. unfold ret at 1.
    match goal with |- context [for_of page _ (S n) ?w1] =>
      destruct (IH (S n) w1) as (w' & -> & Hi & Hc) end.
    exists w'. split; [f_equal; f_equal; lia|]. now rewrite Hi, Hc.
Qed.

Lemma remove_interaction_loop E page :
  (forall id, remove_error E "CustomerInteractions" id = None) ->
  forall n w,
    exists w',
      for_of page
             (fun record n =>
                remove_interaction E (Tracked._id record) ;;; ret (S n)) n w
      = (w', Returned (n + List.length page))
      /\ AbandonedCarts w' = AbandonedCarts w.
Proof.
  intro Hr. induction page as [|x page IH]; intros n w; cbn [for_of List.length].
  - exists w. rewrite Nat.add_0_r. repeat split.
  - unfold bind at 1. unfold bind at 1. unfold remove_interaction at 1.
    rewrite Hr. unfold ret at 1.
    match goal with |- context [for_of page _ (S n) ?w1] =>
      destruct (IH (S n) w1) as (w' & -> & Hc) end.
    exists w'. split; [f_equal; f_equal; lia|]. now rewrite Hc.
Qed.

Lemma remove_cart_loop E page :
  (forall id, remove_error E "AbandonedCarts" id = None) ->
  forall n w,
    exists w',
      for_of page
             (fun cart n =>
                remove_cart E (AbandonedCart._id cart) ;;; ret (S n)) n w
      = (w', Returned (n + List.length page)).
Proof.
  intro Hr. induction page as [|x page IH]; intros n w; cbn [for_of List.length].
  - exists w. now rewrite Nat.add_0_r.
  - unfold bind at 1. unfold bind at 1. unfold remove_cart at 1.
    rewrite Hr. unfold ret at 1.
    match goal with |- context [for_of page _ (S n) ?w1] =>
      destruct (IH (S n) w1) as (w' & ->) end.
    exists w'. f_equal; f_equal; lia.
Qed.

Lemma cleanOldData_run E now w :
  (forall k, find_error E k = None) ->
  (forall collection id, remove_error E collection id = None) ->
  exists w',
    cleanOldData E now w
    = (w',
       Returned
         (mkCleanupSummary
            (List.length
               (firstn 1000
                  (filter (fun r => (Tracked.timestamp r
                                     <? now - 90 * 24 * 60 * 60 * 1000)%Z)
                          (BrowsingHistory w))))
            (List.length
               (firstn 1000
                  (filter (fun r => (Tracked.timestamp r
                                     <? now - 90 * 24 * 60 * 60 * 1000)%Z)
                          (CustomerInteractions w))))
            (List.length
               (firstn 500
                  (filter (fun c => (AbandonedCart.abandonedAt c
                                     <? now - 90 * 24 * 60 * 60 * 1000)%Z
                                    && Bool.eqb (AbandonedCart.recovered c) true)
                          (AbandonedCarts w)))))).
Proof.
  intros Hq Hr. unfold cleanOldData, try_catch, find. rewrite !Hq.
  unfold bind at 1. unfold ret at 1. cbn [items]. unfold bind at 1.
  destruct (remove_browsing_loop E
              (firstn 1000
                 (filter (fun r => (Tracked.timestamp r
                                    <? now - 90 * 24 * 60 * 60 * 1000)%Z)
                         (BrowsingHistory w)))
              (Hr "BrowsingHistory") 0 w) as (w1 & -> & Hi1 & Hc1).
  unfold bind at 1. unfold ret at 1. cbn [items]. unfold bind at 1.
  destruct (remove_interaction_loop E
              (firstn 1000
                 (filter (fun r => (Tracked.timestamp r
                                    <? now - 90 * 24 * 60 * 60 * 1000)%Z)
                         (CustomerInteractions w1)))
              (Hr "CustomerInteractions") 0 w1) as (w2 & -> & Hc2).
  unfold bind at 1. unfold ret at 1. cbn [items]. unfold bind at 1.
  destruct (remove_cart_loop E
              (firstn 500
                 (filter (fun c => (AbandonedCart.abandonedAt c
                                    <? now - 90 * 24 * 60 * 60 * 1000)%Z
                                   && Bool.eqb (AbandonedCart.recovered c) true)
                         (AbandonedCarts w2)))
              (Hr "AbandonedCarts") 0 w2) as (w3 & ->).
  exists w3. unfold ret. cbn [Nat.add]. now rewrite Hc2, Hc1, Hi1.
Qed.

Lemma generateDailySalesReport_run E now w :
  (forall k, find_error E k = None) ->
  insert_error E = None ->
  exists w' report,
    generateDailySalesReport E now w = (w', Returned report)
    /\ DailyReports w' = DailyReports w ++ [report].
Proof.
  intros Hq Hi. unfold generateDailySalesReport, try_catch, find. rewrite !Hq.
  unfold bind at 1. unfold ret at 1. unfold bind at 1. unfold ret at 1.
  unfold bind at 1. unfold insert_report. rewrite Hi.
  eexists. eexists. split; reflexivity.
Qed.

(** C4, as the code has it.  Each of the five batch entry points hands a
    failure of its first store query on to its caller: it throws.  When the
    query goes through, the three jobs whose loop wraps each item in its own
    [try] always return their summary, whatever happens to single items:
    [processAbandonedCarts] returns [{processed, successful, failed}] with
    [successful + failed = processed], [successful] counting the sends the
    mail transport accepted; [sendSecondReminder] returns [{sent}], at most
    the size of its page; [updateCustomerSegments] returns
    [{processed, updated}], [updated] counting the writes that went through.
    No failing item stops the pass: every cart of the page whose send is
    accepted gets its email, and every customer of the page whose write goes
    through is stored with the new segment.  When no store call fails at
    all, [cleanOldData] returns its three counts of deleted records and
    [generateDailySalesReport] returns the report it stored. *)
Theorem batch_jobs_isolate_items_and_rethrow_query_failures
    (E : Env) (now : Z) (w : World) :
  (forall e, find_error E 0 = Some e ->
     processAbandonedCarts E now w = (w, Threw e)
     /\ sendSecondReminder E now w = (w, Threw e)
     /\ updateCustomerSegments E now w = (w, Threw e)
     /\ cleanOldData E now w = (w, Threw e)
     /\ generateDailySalesReport E now w = (w, Threw e))
  /\ (find_error E 0 = None ->
      NoDup (map Customer._id (Customers w)) ->
      (exists w' s,
         processAbandonedCarts E now w = (w', Returned s)
         /\ processed s = List.length (first_reminder_page now w)
         /\ successful s = List.length (emailed E (first_reminder_page now w))
         /\ successful s + failed s = processed s
         /\ outbox w' = outbox w ++ emailed E (first_reminder_page now w))
      /\ (exists w' s,
            sendSecondReminder E now w = (w', Returned s)
            /\ sent s <= List.length (second_reminder_page now w)
            /\ outbox w' = outbox w ++ emailed E (second_reminder_page now w))
      /\ (exists w' s,
            updateCustomerSegments E now w = (w', Returned s)
            /\ customers_processed s = List.length (customers_page w)
            /\ updated s = List.length (filter (writes E) (customers_page w))
            /\ forall x, In x (customers_page w) -> writes E x = true ->
                 In (rescore E now x) (Customers w')))
  /\ ((forall k, find_error E k = None) ->
      (forall collection id, remove_error E collection id = None) ->
      insert_error E = None ->
      (exists w' s, cleanOldData E now w = (w', Returned s))
      /\ (exists w' report,
            generateDailySalesReport E now w = (w', Returned report)
            /\ DailyReports w' = DailyReports w ++ [report])).
Proof.
  split; [|split].
  3:{ intros Hq Hr Hi. split.
      - destruct (cleanOldData_run E now w Hq Hr) as (w' & Hrun).
        eexists. eexists. exact Hrun.
      - now apply generateDailySalesReport_run. }
  - intros e Hq. repeat split.
    + now apply processAbandonedCarts_rethrows.
    + now apply sendSecondReminder_rethrows.
    + now apply updateCustomerSegments_rethrows.
    + now apply cleanOldData_rethrows.
    + now apply generateDailySalesReport_rethrows.
  - intros Hq ND. split; [|split].
    + rewrite (processAbandonedCarts_run _ _ _ Hq).
      eexists. eexists. split; [reflexivity|].
      cbn [processed successful failed]. repeat split.
      * pose proof (filter_length_le (mail_ok E) (first_reminder_page now w)).
        unfold emailed. rewrite length_map. lia.
      * apply sweep_outbox, page_has_cart.
    + destruct (sendSecondReminder_run E now w Hq) as (n & -> & Hn).
      eexists. eexists. split; [reflexivity|]. cbn [sent].
      split; [exact Hn | apply sweep_outbox, page_has_cart].
    + rewrite (updateCustomerSegments_run _ _ _ Hq ND).
      eexists. eexists. split; [reflexivity|].
      cbn [customers_processed updated]. repeat split.
      intros x Hx Hwr. unfold with_customers. cbn [Customers].
      apply in_map_iff. exists x. split.
      * unfold resegmented, touched.
        replace (existsb _ (customers_page w)) with true; [reflexivity|].
        symmetry. apply existsb_exists. exists x. split; [exact Hx|].
        now rewrite String.eqb_refl, Hwr.
      * now apply page_in in Hx.
Qed.

Lemma batch_jobs_witness :
  find_error calm 0 = None
  /\ NoDup (map Customer._id (Customers shop))
  /\ (exists w' s,
        processAbandonedCarts calm noon shop = (w', Returned s)
        /\ successful s + failed s = processed s)
  /\ find_error store_down 0 = Some "store unavailable"
  /\ cleanOldData store_down noon shop = (shop, Threw "store unavailable").
Proof.
  split; [reflexivity|]. split; [exact shop_customer_keys|].
  destruct (batch_jobs_isolate_items_and_rethrow_query_failures calm noon shop)
    as (_ & Hruns & _).
  destruct (Hruns eq_refl shop_customer_keys)
    as ((w' & s & Hrun & _ & _ & Hsum & _) & _).
  split; [exists w', s; split; [exact Hrun | exact Hsum]|].
  split; [reflexivity|].
  destruct (batch_jobs_isolate_items_and_rethrow_query_failures
              store_down noon shop) as (Hthrows & _).
  apply (Hthrows "store unavailable" eq_refl).
Defined.

(** C4 as stated fails twice over.  With the store down the first-reminder
    job throws past its boundary instead of returning a summary.  And with
    the mail transport throwing on the one cart that is due, the
    second-reminder job returns [{sent: 0}], the very summary of a pass
    that found no cart; the error of the item is in no field of it. *)
Lemma batch_jobs_throw_and_drop_item_errors :
  processAbandonedCarts store_down noon shop = (shop, Threw "store unavailable")
  /\ second_reminder_page noon shop = [reminded_cart]
  /\ sendSecondReminder mail_down noon shop
     = (shop, Returned (mkSecondReminderSummary 0))
  /\ sendSecondReminder mail_down noon (cart_store [])
     = (cart_store [], Returned (mkSecondReminderSummary 0)).
Proof. repeat split; vm_compute; reflexivity. Qed.

(** ** Discount codes *)

Lemma validateCode_keeps_limit (now : Z) (c : DiscountCode.t) (orderAmount : Q) :
  DiscountCode.usedCount c <= DiscountCode.usageLimit c ->
  DiscountCode.usedCount (fst (validateCode now c orderAmount))
  <= DiscountCode.usageLimit (fst (validateCode now c orderAmount)).
Proof.
  intro Hle. unfold validateCode, consume_code.
  destruct (check_code now c orderAmount); cbn [fst]; [|exact Hle].
  destruct (DiscountCode.usedCount c <? DiscountCode.usageLimit c) eqn:Hu;
    [|exact Hle].
  apply Nat.ltb_lt in Hu. cbn. lia.
Qed.

Lemma validate_all_keeps_limit (attempts : list (Z * Q)) :
  forall c : DiscountCode.t,
    DiscountCode.usedCount c <= DiscountCode.usageLimit c ->
    DiscountCode.usedCount (validate_all attempts c)
    <= DiscountCode.usageLimit (validate_all attempts c).
Proof.
  unfold validate_all.
  induction attempts as [|a attempts IH]; intros c Hle; cbn [fold_left].
  - exact Hle.
  - apply IH. now apply validateCode_keeps_limit.
Qed.

Ltac code_facts :=
  repeat match goal with
         | H : (_ <? _)%Z = true |- _ => apply Z.ltb_lt in H
         | H : (_ <? _)%Z = false |- _ => apply Z.ltb_ge in H
         | H : (_ <? _) = true |- _ => apply Nat.ltb_lt in H
         | H : (_ <? _) = false |- _ => apply Nat.ltb_ge in H
         | H : Qle_bool _ _ = true |- _ => apply Qle_bool_iff in H
         end.

(** The five ways a validation can go: valid, below the minimum, at the
    limit, expired, inactive. *)
Ltac code_cases now c orderAmount :=
  unfold validateCode, check_code, consume_code;
  destruct (DiscountCode.isActive c) eqn:Ha; cbn [negb];
  [ destruct (now <? DiscountCode.expiresAt c)%Z eqn:He; cbn [negb];
    [ destruct (DiscountCode.usedCount c <? DiscountCode.usageLimit c) eqn:Hu;
      cbn [negb];
      [ destruct (Qle_bool (DiscountCode.minOrderAmount c) orderAmount) eqn:Hm;
        cbn [negb] | ] | ] | ];
  cbn [fst snd DiscountCode.usedCount DiscountCode.usageLimit]; code_facts.

(** C3.  A code validates iff it is active, not yet expired, below its
    usage limit and the order reaches its minimum; a failed validation
    names a condition that does fail; a successful one consumes exactly one
    use, a failed one none, so [usedCount <= usageLimit] is kept, by one
    validation and by any run of validations.  On
    [SAVE10] (limit 1, used 0, minimum 20): 15 fails with [below_minimum],
    25 succeeds and sets [usedCount] to 1, 25 again fails with
    [limit_reached]. *)
Theorem validateCode_checks_four_conditions_and_respects_the_limit
    (now : Z) (c : DiscountCode.t) (orderAmount : Q) :
  (snd (validateCode now c orderAmount) = valid <->
     DiscountCode.isActive c = true
     /\ (now < DiscountCode.expiresAt c)%Z
     /\ DiscountCode.usedCount c < DiscountCode.usageLimit c
     /\ (DiscountCode.minOrderAmount c <= orderAmount)%Q)
  /\ (forall reason,
        snd (validateCode now c orderAmount) = invalid reason ->
        fst (validateCode now c orderAmount) = c
        /\ match reason with
           | inactive => DiscountCode.isActive c = false
           | expired => ~ (now < DiscountCode.expiresAt c)%Z
           | limit_reached =>
               ~ DiscountCode.usedCount c < DiscountCode.usageLimit c
           | below_minimum =>
               ~ (DiscountCode.minOrderAmount c <= orderAmount)%Q
           end)
  /\ (snd (validateCode now c orderAmount) = valid ->
        DiscountCode.usedCount (fst (validateCode now c orderAmount))
        = S (DiscountCode.usedCount c)
        /\ DiscountCode.usageLimit (fst (validateCode now c orderAmount))
           = DiscountCode.usageLimit c)
  /\ (DiscountCode.usedCount c <= DiscountCode.usageLimit c ->
        DiscountCode.usedCount (fst (validateCode now c orderAmount))
        <= DiscountCode.usageLimit (fst (validateCode now c orderAmount))
        /\ forall attempts,
             DiscountCode.usedCount (validate_all attempts c)
             <= DiscountCode.usageLimit (validate_all attempts c))
  /\ (validateCode noon SAVE10 15%Q = (SAVE10, invalid below_minimum)
      /\ validateCode noon SAVE10 25%Q = (SAVE10_used, valid)
      /\ validateCode noon SAVE10_used 25%Q
         = (SAVE10_used, invalid limit_reached)).
Proof.
  split; [|split; [|split; [|split]]].
  - code_cases now c orderAmount;
      (split;
       [ first [ discriminate
               | intros _; split; [|split; [|split]];
                 first [ assumption | reflexivity ] ]
       | first [ reflexivity
               | intros (H1 & H2 & H3 & H4);
                 first [ congruence | lia
                       | apply Qle_bool_iff in H4; congruence ] ] ]).
  - code_cases now c orderAmount; intros reason H;
      first [ discriminate H
            | injection H as <-; split;
              [ reflexivity
              | first [ assumption | reflexivity | lia
                      | intro H'; apply Qle_bool_iff in H'; congruence ] ] ].
  - code_cases now c orderAmount;
      first [ discriminate | intros _; split; reflexivity ].
  - intro Hle. split; [now apply validateCode_keeps_limit|].
    intro attempts. now apply validate_all_keeps_limit.
  - repeat split; vm_compute; reflexivity.
Qed.

(** ** The intent dispatcher *)

Lemma greeting_is_no_discount_reply (E : ChatEnv) (cs : ChatBotState.t) :
  text_response (getRandomResponse E RESPONSES.greeting)
  <> handleDiscountRequest E cs.
Proof.
  unfold handleDiscountRequest, text_response.
  assert (Hg : forall t, getRandomResponse E RESPONSES.greeting = Some t ->
                         In t RESPONSES.greeting)
    by (intros t Ht; apply nth_error_In in Ht; exact Ht).
  destruct (getPersonalizedOffer E (ChatBotState.customerId cs)) as [r|e].
  - destruct (offer_success r); [discriminate|].
    intro H. injection H as H. apply Hg in H. cbn in H.
    repeat (destruct H as [H|H]; [discriminate H|]). exact H.
  - intro H. injection H as H. apply Hg in H. cbn in H.
    repeat (destruct H as [H|H]; [discriminate H|]). exact H.
Qed.

Lemma processUserInput_first_match (E : ChatEnv) (cs : ChatBotState.t)
    (input : string) :
  processUserInput E cs input = reply_for E cs (classify input).
Proof.
  unfold processUserInput, classify, intent_priority.
  cbn [first_match].
  repeat match goal with
         | |- context [if ?b then _ else _] => destruct b; [reflexivity|]
         end.
  reflexivity.
Qed.

(** C5.  [processUserInput] answers with the response class of the first
    pattern that matches the lower-cased input, the patterns taken in the
    order greeting, product-search/recommendation, discount, cart/checkout,
    shipping, hours, location, thanks, goodbye, help, and with a fallback
    when none matches.  The input "hi, do you have any discount codes"
    matches the greeting pattern and the discount pattern; it classifies as
    a greeting and gets a greeting reply, which is never the reply of the
    discount handler. *)
Theorem first_matching_intent_decides_the_response
    (E : ChatEnv) (cs : ChatBotState.t) (input : string) :
  processUserInput E cs input = reply_for E cs (classify input)
  /\ Regex.test INTENT_PATTERNS.greeting
       (toLowerCase "hi, do you have any discount codes") = true
  /\ Regex.test INTENT_PATTERNS.discount
       (toLowerCase "hi, do you have any discount codes") = true
  /\ classify "hi, do you have any discount codes" = Some greeting_intent
  /\ processUserInput E cs "hi, do you have any discount codes"
     = text_response (getRandomResponse E RESPONSES.greeting)
  /\ processUserInput E cs "hi, do you have any discount codes"
     <> handleDiscountRequest E cs.
Proof.
  assert (Hhi : processUserInput E cs "hi, do you have any discount codes"
                = text_response (getRandomResponse E RESPONSES.greeting)).
  { unfold processUserInput.
    replace (Regex.test INTENT_PATTERNS.greeting
               (toLowerCase "hi, do you have any discount codes"))
      with true by (vm_compute; reflexivity).
    reflexivity. }
  split; [|split; [|split; [|split; [|split]]]].
  - apply processUserInput_first_match.
  - vm_compute; reflexivity.
  - vm_compute; reflexivity.
  - vm_compute; reflexivity.
  - exact Hhi.
  - rewrite Hhi. apply greeting_is_no_discount_reply.
Qed.

(** ** Recommendations in the chat *)

Lemma recommendation_reply_run (outcome : Completion Recommendations) :
  match outcome with
  | Returned products =>
      if recommendations_success products
         && (0 <? List.length (recommendations products))
      then mkResponse products_type (Some RESPONSES.products)
                      (JArr (recommendations products))
      else text_response (Some RESPONSES.menu)
  | Threw _ => text_response (Some RESPONSES.menu)
  end = recommendation_reply outcome.
Proof.
  destruct outcome as [[[|] [|product more]]|e]; reflexivity.
Qed.

(** C9.  A message that classifies as a recommendation intent is answered
    by [handleProductRecommendation].  For a customer id that is set, not
    empty and not a [guest_] id, the handler asks the engine for three
    personalized recommendations; otherwise for three trending products.
    When the call throws, reports no success or returns no product, the
    reply is the canned menu text; otherwise the products. *)
Theorem recommendation_intent_asks_the_right_engine_and_degrades
    (E : ChatEnv) (cs : ChatBotState.t) :
  (forall input, classify input = Some recommendation_intent ->
     processUserInput E cs input = handleProductRecommendation E cs)
  /\ (forall id, ChatBotState.customerId cs = Some id ->
        id <> "" -> startsWith "guest_" id = false ->
        handleProductRecommendation E cs
        = recommendation_reply (getPersonalizedRecommendations E id 3))
  /\ ((ChatBotState.customerId cs = None
       \/ ChatBotState.customerId cs = Some ""
       \/ (exists id, ChatBotState.customerId cs = Some id
                      /\ startsWith "guest_" id = true)) ->
      handleProductRecommendation E cs
      = recommendation_reply (getTrendingProducts E 3))
  /\ (forall e, recommendation_reply (Threw e)
                = text_response (Some RESPONSES.menu))
  /\ (forall products,
        recommendation_reply (Returned (mkRecommendations false products))
        = text_response (Some RESPONSES.menu))
  /\ (forall success,
        recommendation_reply (Returned (mkRecommendations success []))
        = text_response (Some RESPONSES.menu))
  /\ (forall product more,
        recommendation_reply
          (Returned (mkRecommendations true (product :: more)))
        = mkResponse products_type (Some RESPONSES.products)
                     (JArr (product :: more))).
Proof.
  split; [|split; [|split; [|split; [|split; [|split]]]]].
  - intros input Hc.
    now rewrite processUserInput_first_match, Hc.
  - intros id Hid Hne Hguest. unfold handleProductRecommendation, known_customer.
    rewrite Hid, Hguest. apply String.eqb_neq in Hne. rewrite Hne. cbn [negb andb].
    apply recommendation_reply_run.
  - intros H. unfold handleProductRecommendation, known_customer.
    destruct H as [-> | [-> | (id & -> & Hguest)]].
    + apply recommendation_reply_run.
    + cbn. apply recommendation_reply_run.
    + rewrite Hguest, andb_false_r. apply recommendation_reply_run.
  - reflexivity.
  - reflexivity.
  - intros [|]; reflexivity.
  - reflexivity.
Qed.

(** ** The chat state *)

Lemma initializeChatBot_appends (E : ChatEnv) (now : Z) (page : Page) :
  exists more,
    ChatBotState.messages (chatState (fst (initializeChatBot E now page)))
    = ChatBotState.messages (chatState page) ++ more.
Proof.
  unfold initializeChatBot. destruct (getMember E) as [member|e]; cbn.
  - eexists. reflexivity.
  - exists []. now rewrite app_nil_r.
Qed.

(** C7, as the code has it.  The widget keeps one [chatState] for the whole
    module.  [processUserInput] gets the message alone; of the state it
    reads the customer id and nothing else, so with the same collaborators
    two states with the same customer id get the same reply, whatever their
    messages, session id and context; the timer callback that delivers the
    reply leaves context and customer id as they are.  Every initialisation
    works on that one state and keeps its context.  When the member lookup
    answers, it keeps the messages that are there, appends exactly one
    message, its greeting, and replaces the customer id by the member's id
    or by the guest id of the session.  When the lookup throws, it appends
    nothing and leaves the customer id as it was. *)
Theorem dispatcher_reads_the_customer_id_of_the_one_chat_state
    (E : ChatEnv) (cs cs' : ChatBotState.t) (input : string) :
  ChatBotState.customerId cs = ChatBotState.customerId cs' ->
  processUserInput E cs input = processUserInput E cs' input
  /\ (forall later,
        ChatBotState.context (deliver_response E later input cs)
        = ChatBotState.context cs
        /\ ChatBotState.customerId (deliver_response E later input cs)
           = ChatBotState.customerId cs)
  /\ (forall now page,
        (exists more,
           ChatBotState.messages (chatState (fst (initializeChatBot E now page)))
           = ChatBotState.messages (chatState page) ++ more)
        /\ ChatBotState.context (chatState (fst (initializeChatBot E now page)))
           = ChatBotState.context (chatState page)
        /\ (forall member, getMember E = Returned member ->
              ChatBotState.messages
                (chatState (fst (initializeChatBot E now page)))
              = ChatBotState.messages (chatState page)
                ++ [Message.mk now "bot" (Some BOT_CONFIG.greeting)
                               text_type JNull now])
        /\ (forall id, getMember E = Returned (Some id) ->
              ChatBotState.customerId
                (chatState (fst (initializeChatBot E now page))) = Some id)
        /\ (getMember E = Returned None ->
              exists session,
                ChatBotState.sessionId
                  (chatState (fst (initializeChatBot E now page)))
                = Some session
                /\ ChatBotState.customerId
                     (chatState (fst (initializeChatBot E now page)))
                   = Some ("guest_" ++ session)%string)
        /\ (forall e, getMember E = Threw e ->
              ChatBotState.messages
                (chatState (fst (initializeChatBot E now page)))
              = ChatBotState.messages (chatState page)
              /\ ChatBotState.customerId
                   (chatState (fst (initializeChatBot E now page)))
                 = ChatBotState.customerId (chatState page))).
Proof.
  intro Hid. split; [|split].
  - unfold processUserInput, handleProductRecommendation, handleDiscountRequest.
    now rewrite Hid.
  - intro later. unfold deliver_response.
    destruct (response_type (processUserInput E cs input)); split; reflexivity.
  - intros now page. split; [apply initializeChatBot_appends|].
    unfold initializeChatBot.
    destruct (getMember E) as [member|e]; cbn;
      (split; [reflexivity|]); (split; [|split; [|split]]).
    + intros member' _. reflexivity.
    + intros id H. now injection H as ->.
    + intros H. injection H as ->. eexists. split; reflexivity.
    + discriminate.
    + discriminate.
    + discriminate.
    + discriminate.
    + intros e' _. split; reflexivity.
Qed.

Lemma dispatcher_reads_the_customer_id_witness :
  ChatBotState.customerId (chatState page_of_alice)
  = ChatBotState.customerId
      (ChatBotState.setContext "lastOffer" JNull (chatState page_of_alice))
  /\ processUserInput (engines None) (chatState page_of_alice)
                      "recommend something"
     = processUserInput (engines None)
         (ChatBotState.setContext "lastOffer" JNull (chatState page_of_alice))
         "recommend something".
Proof.
  split; [reflexivity|].
  apply (dispatcher_reads_the_customer_id_of_the_one_chat_state
           (engines None) (chatState page_of_alice)
           (ChatBotState.setContext "lastOffer" JNull (chatState page_of_alice))
           "recommend something" eq_refl).
Defined.

(** C7 as stated fails: the state is shared by whoever calls the module.
    A member initialises the widget and asks for recommendations.  When the
    timer fires on the state as she left it, the reply carries the
    personalized list.  When a guest has initialised the same module in the
    meantime, the reply to her message, with the same engines, carries the
    trending list, and the one message log holds the greetings of both
    callers next to her message. *)
Lemma chat_state_is_shared_by_all_callers :
  ChatBotState.customerId (chatState page_of_alice) = Some "alice"
  /\ snd alice_asks = Some "recommend something"
  /\ newest_data
       (deliver_response (engines (Some "alice")) 2500 "recommend something"
                         (fst alice_asks))
     = JArr [JStr "picked for alice"]
  /\ ChatBotState.customerId (chatState page_after_guest)
     = Some "guest_session_rs"
  /\ newest_data
       (deliver_response (engines (Some "alice")) 2500 "recommend something"
                         (chatState page_after_guest))
     = JArr [JStr "trending"]
  /\ map Message.sender (ChatBotState.messages (chatState page_after_guest))
     = ["bot"; "user"; "bot"].
Proof. repeat split; vm_compute; reflexivity. Qed.

(** ** The abandonment webhook *)

Lemma member_appended (fields : list (string * JsValue)) (key : string)
    (v : JsValue) :
  member (JObj (fields ++ [(key, v)])) key = Returned v.
Proof.
  unfold member. rewrite rev_app_distr. cbn. now rewrite String.eqb_refl.
Qed.

Lemma member_other (fields : list (string * JsValue)) (key key' : string)
    (v : JsValue) :
  key <> key' ->
  member (JObj (fields ++ [(key, v)])) key' = member (JObj fields) key'.
Proof.
  intro Hne. unfold member. rewrite rev_app_distr. cbn.
  apply String.eqb_neq in Hne. now rewrite Hne.
Qed.

Lemma member_object (fields : list (string * JsValue)) (key : string) :
  member (JObj fields) key = Returned (field (JObj fields) key).
Proof.
  unfold field, member.
  now destruct (List.find (fun kv => (fst kv =? key)%string) (rev fields)).
Qed.

Lemma post_cartAbandoned_object
    (track : JsValue -> JsValue -> JsValue -> Job JsValue)
    (fields : list (string * JsValue)) (w : World) :
  post_cartAbandoned track (Returned (JObj fields)) w
  = if negb (truthy (field (JObj fields) "customerId"))
       || negb (truthy (field (JObj fields) "cartItems"))
    then (w, badRequest missing_fields)
    else tracked_reply
           (track (field (JObj fields) "customerId")
                  (field (JObj fields) "cartItems")
                  (js_or (field (JObj fields) "cartTotal") (JNum 0)) w).
Proof.
  unfold post_cartAbandoned, cartAbandoned_try, lift, tracked_reply.
  unfold bind at 1. unfold bind at 1. rewrite member_object.
  unfold bind at 1. rewrite member_object.
  destruct (negb (truthy (field (JObj fields) "customerId"))
            || negb (truthy (field (JObj fields) "cartItems"))).
  - reflexivity.
  - unfold bind at 1. rewrite member_object. unfold bind at 1.
    destruct (track _ _ _ w) as [w' [result|e]]; [|reflexivity].
    unfold bind. destruct (member result "success") as [s|e]; [|reflexivity].
    now destruct (truthy s).
Qed.

Lemma tracked_reply_accepts (outcome : World * Completion JsValue)
    (b : JsValue) :
  snd (tracked_reply outcome) <> badRequest b.
Proof.
  unfold tracked_reply. destruct outcome as [w' [result|e]]; [|discriminate].
  destruct (member result "success") as [s|e]; [|discriminate].
  destruct (truthy s); discriminate.
Qed.

(** C10.  For a request whose body is a JSON object, whatever
    [trackAbandonedCart] does: the handler answers with the validation
    rejection exactly when [customerId] or [cartItems] is absent or falsy,
    and [cartTotal] plays no part in that; every other request is handed to
    [trackAbandonedCart] with [cartTotal || 0] as the total, which is 0
    when [cartTotal] is absent or falsy, so that the request fares exactly
    as the same request with [cartTotal: 0]. *)
Theorem cart_total_is_optional_in_the_abandonment_webhook
    (trackAbandonedCart : JsValue -> JsValue -> JsValue -> Job JsValue)
    (fields : list (string * JsValue)) (w : World) :
  let body := JObj fields in
  let customerId := field body "customerId" in
  let cartItems := field body "cartItems" in
  let cartTotal := field body "cartTotal" in
  ((exists b, snd (post_cartAbandoned trackAbandonedCart (Returned body) w)
              = badRequest b)
   <-> truthy customerId = false \/ truthy cartItems = false)
  /\ (truthy customerId = true -> truthy cartItems = true ->
      post_cartAbandoned trackAbandonedCart (Returned body) w
      = tracked_reply
          (trackAbandonedCart customerId cartItems (js_or cartTotal (JNum 0)) w))
  /\ (truthy cartTotal = false ->
      js_or cartTotal (JNum 0) = JNum 0
      /\ post_cartAbandoned trackAbandonedCart (Returned body) w
         = post_cartAbandoned trackAbandonedCart
             (Returned (JObj (fields ++ [("cartTotal", JNum 0)]))) w).
Proof.
  cbv zeta. split; [|split].
  - rewrite post_cartAbandoned_object.
    destruct (truthy (field (JObj fields) "customerId")) eqn:Hc;
      destruct (truthy (field (JObj fields) "cartItems")) eqn:Hi; cbn [negb orb snd].
    + split; [|intros [H|H]; discriminate].
      intros [b Hb]. now apply tracked_reply_accepts in Hb.
    + split; [now right | intros _; now exists missing_fields].
    + split; [now left | intros _; now exists missing_fields].
    + split; [now left | intros _; now exists missing_fields].
  - intros Hc Hi. rewrite post_cartAbandoned_object, Hc, Hi. reflexivity.
  - intro Ht. split; [unfold js_or; now rewrite Ht|].
    rewrite !post_cartAbandoned_object.
    unfold field. rewrite member_appended.
    rewrite !(member_other fields "cartTotal") by discriminate.
    unfold js_or at 2. cbn [truthy Qeq_bool]. 
    fold (field (JObj fields) "customerId"). fold (field (JObj fields) "cartItems").
    fold (field (JObj fields) "cartTotal").
    unfold js_or. rewrite Ht. reflexivity.
Qed.

Lemma cart_total_is_optional_witness :
  truthy (field (JObj [("customerId", JStr "c1"); ("cartItems", JArr [])])
                "cartTotal") = false
  /\ post_cartAbandoned echo_total
       (Returned (JObj [("customerId", JStr "c1"); ("cartItems", JArr [])]))
       (cart_store [])
     = (cart_store [],
        ok (JObj [("success", JBool true); ("cartTotal", JNum 0)])).
Proof.
  split; [reflexivity|].
  destruct (cart_total_is_optional_in_the_abandonment_webhook
              echo_total [("customerId", JStr "c1"); ("cartItems", JArr [])]
              (cart_store [])) as (_ & Hcall & _).
  rewrite (Hcall eq_refl eq_refl). reflexivity.
Defined.


(** * Cleanup, reports, endpoints, the widget and the client module: proofs *)

(** ** [cleanOldData] *)

Lemma drop_tracked_incl (id : string) (l : list Tracked.t) :
  incl (drop_tracked id l) l.
Proof. intros r Hr. unfold drop_tracked in Hr. now apply filter_In in Hr. Qed.

Lemma drop_tracked_keeps (id : string) (l : list Tracked.t) (r : Tracked.t) :
  In r l -> Tracked._id r <> id -> In r (drop_tracked id l).
Proof.
  intros Hr Hne. unfold drop_tracked. apply filter_In. split; [exact Hr|].
  apply negb_true_iff. now apply String.eqb_neq.
Qed.

Lemma filter_filter {A} (p q : A -> bool) (l : list A) :
  filter p (filter q l) = filter (fun x => q x && p x) l.
Proof.
  induction l as [|a l IH]; cbn; [reflexivity|].
  destruct (q a); cbn; [destruct (p a)|]; now rewrite IH.
Qed.

Section RemovalLoop.

Variables (A : Type) (key : A -> string).
Variables (get : World -> list A) (set : list A -> World -> World).
Variables (remove : Env -> string -> Job unit) (collection : string).

Hypothesis remove_run : forall E id w,
  remove E id w
  = match remove_error E collection id with
    | Some e => (w, Threw e)
    | None =>
        (set (filter (fun r => negb (key r =? id)%string) (get w)) w,
         Returned tt)
    end.
Hypothesis get_set : forall l w, get (set l w) = l.
Hypothesis set_set : forall l l' w, set l (set l' w) = set l w.
Hypothesis set_get : forall w, set (get w) w = w.

Lemma kept_nil (l : list A) : filter (kept key []) l = l.
Proof. apply filter_all. Qed.

Lemma kept_cons (x : A) (done : list A) (l : list A) :
  filter (kept key done) (filter (fun r => negb (key r =? key x)%string) l)
  = filter (kept key (x :: done)) l.
Proof.
  rewrite filter_filter. apply filter_ext. intro r.
  unfold kept. cbn [existsb]. rewrite negb_orb. now rewrite (String.eqb_sym (key x)).
Qed.

(** A loop of removals removes a first part of its page, all of it when it
    returns. *)
Lemma removal_loop E (page : list A) : forall n w w' r,
  for_of page (fun x n => remove E (key x) ;;; ret (S n)) n w = (w', r) ->
  exists done rest,
    page = done ++ rest
    /\ w' = set (filter (kept key done) (get w)) w
    /\ match r with
       | Returned k => rest = [] /\ k = n + List.length page
       | Threw _ => rest <> []
              /\ exists x, In x rest /\ remove_error E collection (key x) <> None
       end.
Proof.
  induction page as [|x page IH]; intros n w w' r H; cbn [for_of] in H.
  - unfold ret in H. injection H as <- <-. exists [], [].
    rewrite kept_nil, set_get, Nat.add_0_r. repeat split.
  - unfold bind at 1 in H. unfold bind at 1 in H. rewrite remove_run in H.
    destruct (remove_error E collection (key x)) as [e|] eqn:He.
    + injection H as <- <-. exists [], (x :: page).
      rewrite kept_nil, set_get. repeat split; [discriminate|].
      exists x. split; [now left | congruence].
    + unfold ret at 1 in H. apply IH in H as (done & rest & -> & -> & Hr).
      exists (x :: done), rest. split; [reflexivity|]. split.
      * now rewrite get_set, set_set, kept_cons.
      * destruct r as [k|e]; [|exact Hr].
        destruct Hr as [-> ->]. split; [reflexivity|]. cbn [List.length]. lia.
Qed.

End RemovalLoop.

Lemma browsing_loop E page n w w' r :
  for_of page (fun record n => remove_browsing E (Tracked._id record) ;;; ret (S n))
         n w = (w', r) ->
  exists done rest,
    page = done ++ rest
    /\ w' = with_browsing (filter (kept Tracked._id done) (BrowsingHistory w)) w
    /\ match r with
       | Returned k => rest = [] /\ k = n + List.length page
       | Threw _ =>
           rest <> []
           /\ exists x, In x rest
                /\ remove_error E "BrowsingHistory" (Tracked._id x) <> None
       end.
Proof.
  apply (removal_loop Tracked.t Tracked._id BrowsingHistory with_browsing
           remove_browsing "BrowsingHistory").
  - intros E0 id w0. unfold remove_browsing, drop_tracked, with_browsing.
    now destruct (remove_error E0 "BrowsingHistory" id).
  - reflexivity.
  - reflexivity.
  - now intros [].
Qed.

Lemma interactions_loop E page n w w' r :
  for_of page
         (fun record n => remove_interaction E (Tracked._id record) ;;; ret (S n))
         n w = (w', r) ->
  exists done rest,
    page = done ++ rest
    /\ w' = with_interactions
              (filter (kept Tracked._id done) (CustomerInteractions w)) w
    /\ match r with
       | Returned k => rest = [] /\ k = n + List.length page
       | Threw _ =>
           rest <> []
           /\ exists x, In x rest
                /\ remove_error E "CustomerInteractions" (Tracked._id x) <> None
       end.
Proof.
  apply (removal_loop Tracked.t Tracked._id CustomerInteractions
           with_interactions remove_interaction "CustomerInteractions").
  - intros E0 id w0. unfold remove_interaction, drop_tracked, with_interactions.
    now destruct (remove_error E0 "CustomerInteractions" id).
  - reflexivity.
  - reflexivity.
  - now intros [].
Qed.

Lemma carts_loop E page n w w' r :
  for_of page (fun cart n => remove_cart E (AbandonedCart._id cart) ;;; ret (S n))
         n w = (w', r) ->
  exists done rest,
    page = done ++ rest
    /\ w' = with_carts (filter (kept AbandonedCart._id done) (AbandonedCarts w)) w
    /\ match r with
       | Returned k => rest = [] /\ k = n + List.length page
       | Threw _ =>
           rest <> []
           /\ exists x, In x rest
                /\ remove_error E "AbandonedCarts" (AbandonedCart._id x) <> None
       end.
Proof.
  apply (removal_loop AbandonedCart.t AbandonedCart._id AbandonedCarts with_carts
           remove_cart "AbandonedCarts").
  - intros E0 id w0. unfold remove_cart, with_carts.
    now destruct (remove_error E0 "AbandonedCarts" id).
  - reflexivity.
  - reflexivity.
  - now intros [].
Qed.

Lemma cleaned_nothing (w : World) : cleaned [] [] [] w = w.
Proof.
  unfold cleaned. rewrite !filter_all. now destruct w.
Qed.

Lemma incl_app_l {A} (done rest : list A) : incl done (done ++ rest).
Proof. intros x Hx. apply in_or_app. now left. Qed.

(** Whatever fails, [cleanOldData] leaves the store with a first part of
    each of its three pages removed; when nothing fails, with all of them
    removed. *)
Lemma cleanOldData_outcome E now w :
  exists d1 d2 d3 r,
    cleanOldData E now w = (cleaned d1 d2 d3 w, r)
    /\ incl d1 (stale_browsing_page now w)
    /\ incl d2 (stale_interactions_page now w)
    /\ incl d3 (stale_carts_page now w)
    /\ ((forall k, find_error E k = None) ->
        (forall collection id, remove_error E collection id = None) ->
        d1 = stale_browsing_page now w
        /\ d2 = stale_interactions_page now w
        /\ d3 = stale_carts_page now w
        /\ r = Returned (mkCleanupSummary (List.length d1) (List.length d2)
                                          (List.length d3))).
Proof.
  unfold cleanOldData, try_catch, find, throw.
  change (now - 90 * 24 * 60 * 60 * 1000)%Z with (ninetyDaysAgo now).
  destruct (find_error E 0) as [e|] eqn:Hq0.
  { exists [], [], [], (Threw e). rewrite cleaned_nothing.
    split; [reflexivity|]. do 3 (split; [intros x []|]).
    intros Hq. congruence. }
  unfold bind at 1. unfold ret at 1. cbn [items]. unfold bind at 1.
  fold (stale_record now). fold (stale_browsing_page now w).
  destruct (for_of (stale_browsing_page now w) _ 0 w) as [w1 r1] eqn:H1.
  apply browsing_loop in H1 as (d1 & rest1 & Hp1 & -> & Hr1).
  destruct r1 as [n1|e1].
  2:{ exists d1, [], [], (Threw e1). split.
      - unfold cleaned, with_browsing. now rewrite !filter_all.
      - split; [rewrite Hp1; apply incl_app_l|].
        do 2 (split; [intros x []|]).
        intros _ Hr. destruct Hr1 as (_ & x & _ & Hx). elim Hx. apply Hr. }
  destruct Hr1 as [-> ->]. rewrite app_nil_r in Hp1. subst d1.
  cbn [with_browsing CustomerInteractions].
  destruct (find_error E 1) as [e|] eqn:Hq1.
  { exists (stale_browsing_page now w), [], [], (Threw e). split.
    - unfold cleaned, with_browsing. now rewrite !filter_all.
    - split; [apply incl_refl|]. do 2 (split; [intros x []|]).
      intros Hq. congruence. }
  unfold bind at 1. unfold ret at 1. cbn [items]. unfold bind at 1.
  fold (stale_interactions_page now w).
  match goal with |- context [for_of (stale_interactions_page now w) ?b 0 ?w1] =>
    destruct (for_of (stale_interactions_page now w) b 0 w1) as [w2 r2] eqn:H2 end.
  apply interactions_loop in H2 as (d2 & rest2 & Hp2 & -> & Hr2).
  cbn [CustomerInteractions] in *.
  destruct r2 as [n2|e2].
  2:{ exists (stale_browsing_page now w), d2, [], (Threw e2). split.
      - unfold cleaned, with_interactions. cbn. now rewrite !filter_all.
      - split; [apply incl_refl|]. split; [rewrite Hp2; apply incl_app_l|].
        split; [intros x []|].
        intros _ Hr. destruct Hr2 as (_ & x & _ & Hx). elim Hx. apply Hr. }
  destruct Hr2 as [-> ->]. rewrite app_nil_r in Hp2. subst d2.
  cbn [with_interactions with_browsing AbandonedCarts].
  destruct (find_error E 2) as [e|] eqn:Hq2.
  { exists (stale_browsing_page now w), (stale_interactions_page now w), [],
      (Threw e). split.
    - unfold cleaned. cbn. now rewrite !filter_all.
    - do 2 (split; [apply incl_refl|]). split; [intros x []|].
      intros Hq. congruence. }
  unfold bind at 1. unfold ret at 1. cbn [items]. unfold bind at 1.
  fold (stale_recovered_cart now). fold (stale_carts_page now w).
  match goal with |- context [for_of (stale_carts_page now w) ?b 0 ?w2] =>
    destruct (for_of (stale_carts_page now w) b 0 w2) as [w3 r3] eqn:H3 end.
  apply carts_loop in H3 as (d3 & rest3 & Hp3 & -> & Hr3).
  cbn [AbandonedCarts] in *.
  exists (stale_browsing_page now w), (stale_interactions_page now w), d3.
  destruct r3 as [n3|e3].
  - destruct Hr3 as [-> ->]. rewrite app_nil_r in Hp3. subst d3.
    eexists. split; [reflexivity|].
    do 3 (split; [apply incl_refl|]). intros _ _. repeat split.
  - eexists. split; [reflexivity|].
    do 2 (split; [apply incl_refl|]).
    split; [rewrite Hp3; apply incl_app_l|].
    intros _ Hr. destruct Hr3 as (_ & x & _ & Hx). elim Hx. apply Hr.
Qed.

Section KeptFacts.

Variables (A : Type) (key : A -> string) (p : A -> bool).

(** An item the query does not select is not removed, when ids are
    unique. *)
Lemma unselected_is_kept (l d : list A) (n : nat) (r : A) :
  NoDup (map key l) -> incl d (firstn n (filter p l)) ->
  In r l -> p r = false -> kept key d r = true.
Proof.
  intros ND Hd Hr Hp. unfold kept. apply negb_true_iff.
  apply not_true_is_false. intro Hex.
  apply existsb_exists in Hex as (x & Hx & Hk). apply String.eqb_eq in Hk.
  apply Hd, page_in in Hx as [Hx Hpx].
  assert (x = r) as -> by (apply (same_key_same_item A key l); auto).
  congruence.
Qed.

Lemma selected_is_removed (d : list A) (r : A) :
  In r d -> kept key d r = false.
Proof.
  intro Hr. unfold kept. apply negb_false_iff. apply existsb_exists.
  exists r. split; [exact Hr | apply String.eqb_refl].
Qed.

(** Removing the whole selection, when it fits the page, leaves exactly the
    items the query does not select. *)
Lemma removing_the_selection (l : list A) (n : nat) :
  NoDup (map key l) -> List.length (filter p l) <= n ->
  filter (kept key (firstn n (filter p l))) l = filter (fun r => negb (p r)) l.
Proof.
  intros ND Hn. apply filter_ext_in. intros r Hr.
  destruct (p r) eqn:Hp; cbn [negb].
  - apply selected_is_removed. now apply page_complete.
  - now apply (unselected_is_kept l _ n r ND (incl_refl _)).
Qed.

End KeptFacts.

(** X1.  The cleanup job, whatever fails on the way, deletes nothing but
    browsing records and interactions older than ninety days and recovered
    carts abandoned more than ninety days ago: every younger record and
    every cart that is unrecovered or younger is still stored afterwards;
    nothing is added to the three collections; customers, orders, reports
    and the mail outbox are as before. *)
Theorem cleanup_spares_recent_records_and_unrecovered_carts
    (E : Env) (now : Z) (w : World) :
  NoDup (map Tracked._id (BrowsingHistory w)) ->
  NoDup (map Tracked._id (CustomerInteractions w)) ->
  NoDup (map AbandonedCart._id (AbandonedCarts w)) ->
  (forall r, In r (BrowsingHistory w) ->
     (now - 90 * 24 * 60 * 60 * 1000 <= Tracked.timestamp r)%Z ->
     In r (BrowsingHistory (fst (cleanOldData E now w))))
  /\ (forall r, In r (CustomerInteractions w) ->
        (now - 90 * 24 * 60 * 60 * 1000 <= Tracked.timestamp r)%Z ->
        In r (CustomerInteractions (fst (cleanOldData E now w))))
  /\ (forall c, In c (AbandonedCarts w) ->
        AbandonedCart.recovered c = false
        \/ (now - 90 * 24 * 60 * 60 * 1000 <= AbandonedCart.abandonedAt c)%Z ->
        In c (AbandonedCarts (fst (cleanOldData E now w))))
  /\ incl (BrowsingHistory (fst (cleanOldData E now w))) (BrowsingHistory w)
  /\ incl (CustomerInteractions (fst (cleanOldData E now w)))
          (CustomerInteractions w)
  /\ incl (AbandonedCarts (fst (cleanOldData E now w))) (AbandonedCarts w)
  /\ Customers (fst (cleanOldData E now w)) = Customers w
  /\ Orders (fst (cleanOldData E now w)) = Orders w
  /\ DailyReports (fst (cleanOldData E now w)) = DailyReports w
  /\ outbox (fst (cleanOldData E now w)) = outbox w.
Proof.
  intros ND1 ND2 ND3.
  destruct (cleanOldData_outcome E now w)
    as (d1 & d2 & d3 & r & -> & H1 & H2 & H3 & _).
  cbn [fst cleaned BrowsingHistory CustomerInteractions AbandonedCarts
       Customers Orders DailyReports outbox].
  split; [|split; [|split; [|split; [|split; [|split]]]]].
  - intros rec Hr Hy. apply filter_In. split; [exact Hr|].
    apply (unselected_is_kept _ _ (stale_record now) _ _ 1000 _ ND1 H1 Hr).
    unfold stale_record, ninetyDaysAgo. now apply Z.ltb_ge.
  - intros rec Hr Hy. apply filter_In. split; [exact Hr|].
    apply (unselected_is_kept _ _ (stale_record now) _ _ 1000 _ ND2 H2 Hr).
    unfold stale_record, ninetyDaysAgo. now apply Z.ltb_ge.
  - intros c Hc Hy. apply filter_In. split; [exact Hc|].
    apply (unselected_is_kept _ _ (stale_recovered_cart now) _ _ 500 _ ND3 H3 Hc).
    unfold stale_recovered_cart, ninetyDaysAgo. apply andb_false_iff.
    destruct Hy as [Hy|Hy]; [right; now rewrite Hy | left; now apply Z.ltb_ge].
  - intros x Hx. now apply filter_In in Hx.
  - intros x Hx. now apply filter_In in Hx.
  - intros x Hx. now apply filter_In in Hx.
  - repeat split.
Qed.

Lemma attic_keys :
  NoDup (map Tracked._id (BrowsingHistory attic))
  /\ NoDup (map Tracked._id (CustomerInteractions attic))
  /\ NoDup (map AbandonedCart._id (AbandonedCarts attic)).
Proof.
  repeat split; cbn; repeat constructor; cbn; intuition discriminate.
Qed.

Lemma cleanup_spares_witness :
  NoDup (map Tracked._id (BrowsingHistory attic))
  /\ NoDup (map Tracked._id (CustomerInteractions attic))
  /\ NoDup (map AbandonedCart._id (AbandonedCarts attic))
  /\ In (Tracked.mk "view-new" day100)
        (BrowsingHistory (fst (cleanOldData mail_down day100 attic))).
Proof.
  destruct attic_keys as (K1 & K2 & K3).
  split; [exact K1|]. split; [exact K2|]. split; [exact K3|].
  destruct (cleanup_spares_recent_records_and_unrecovered_carts
              mail_down day100 attic K1 K2 K3) as (Hb & _).
  apply Hb; [cbn; right; left; reflexivity | vm_compute; discriminate].
Defined.

(** X2.  When no store call fails, ids are unique and the old items fit the
    pages (1000 browsing records, 1000 interactions, 500 carts), the cleanup
    job leaves exactly the browsing records and interactions that are not
    older than ninety days and the carts that are unrecovered or not older
    than ninety days, reports how many of each it deleted, and a second run
    at the same time deletes nothing. *)
Theorem cleanup_removes_all_old_records_and_then_nothing
    (E : Env) (now : Z) (w : World) :
  (forall k, find_error E k = None) ->
  (forall collection id, remove_error E collection id = None) ->
  NoDup (map Tracked._id (BrowsingHistory w)) ->
  NoDup (map Tracked._id (CustomerInteractions w)) ->
  NoDup (map AbandonedCart._id (AbandonedCarts w)) ->
  List.length (filter (stale_record now) (BrowsingHistory w)) <= 1000 ->
  List.length (filter (stale_record now) (CustomerInteractions w)) <= 1000 ->
  List.length (filter (stale_recovered_cart now) (AbandonedCarts w)) <= 500 ->
  exists w',
    cleanOldData E now w
    = (w',
       Returned
         (mkCleanupSummary
            (List.length (filter (stale_record now) (BrowsingHistory w)))
            (List.length (filter (stale_record now) (CustomerInteractions w)))
            (List.length (filter (stale_recovered_cart now) (AbandonedCarts w)))))
    /\ BrowsingHistory w'
       = filter (fun r => negb (stale_record now r)) (BrowsingHistory w)
    /\ CustomerInteractions w'
       = filter (fun r => negb (stale_record now r)) (CustomerInteractions w)
    /\ AbandonedCarts w'
       = filter (fun c => negb (stale_recovered_cart now c)) (AbandonedCarts w)
    /\ cleanOldData E now w' = (w', Returned (mkCleanupSummary 0 0 0)).
Proof.
  assert (Hrun : forall w0,
    NoDup (map Tracked._id (BrowsingHistory w0)) ->
    NoDup (map Tracked._id (CustomerInteractions w0)) ->
    NoDup (map AbandonedCart._id (AbandonedCarts w0)) ->
    List.length (filter (stale_record now) (BrowsingHistory w0)) <= 1000 ->
    List.length (filter (stale_record now) (CustomerInteractions w0)) <= 1000 ->
    List.length (filter (stale_recovered_cart now) (AbandonedCarts w0)) <= 500 ->
    (forall k, find_error E k = None) ->
    (forall collection id, remove_error E collection id = None) ->
    cleanOldData E now w0
    = (mkWorld
         (filter (fun c => negb (stale_recovered_cart now c)) (AbandonedCarts w0))
         (Customers w0)
         (filter (fun r => negb (stale_record now r)) (BrowsingHistory w0))
         (filter (fun r => negb (stale_record now r)) (CustomerInteractions w0))
         (Orders w0) (DailyReports w0) (outbox w0),
       Returned
         (mkCleanupSummary
            (List.length (filter (stale_record now) (BrowsingHistory w0)))
            (List.length (filter (stale_record now) (CustomerInteractions w0)))
            (List.length (filter (stale_recovered_cart now) (AbandonedCarts w0)))))).
  { intros w0 N1 N2 N3 L1 L2 L3 Hq Hr.
    destruct (cleanOldData_outcome E now w0)
      as (d1 & d2 & d3 & r & -> & _ & _ & _ & Hall).
    destruct (Hall Hq Hr) as (-> & -> & -> & ->).
    unfold cleaned, stale_browsing_page, stale_interactions_page,
      stale_carts_page.
    rewrite !removing_the_selection by assumption.
    now rewrite !firstn_all2 by assumption. }
  intros Hq Hr N1 N2 N3 L1 L2 L3.
  rewrite (Hrun w N1 N2 N3 L1 L2 L3 Hq Hr).
  eexists. split; [reflexivity|].
  cbn [BrowsingHistory CustomerInteractions AbandonedCarts].
  do 3 (split; [reflexivity|]).
  assert (Hnone : forall A (p : A -> bool) (l : list A),
             filter p (filter (fun r => negb (p r)) l) = []).
  { intros A p l. rewrite filter_filter.
    induction l as [|a l IH]; cbn; [reflexivity|].
    now destruct (p a). }
  rewrite Hrun; cbn [BrowsingHistory CustomerInteractions AbandonedCarts
                     Customers Orders DailyReports outbox];
    rewrite ?Hnone; cbn [List.length]; try lia; try assumption;
    try (apply NoDup_keys_filter; assumption).
  assert (Hidem : forall A (q : A -> bool) (l : list A),
             filter q (filter q l) = filter q l).
  { intros A q l. rewrite filter_filter. apply filter_ext. intro x.
    now destruct (q x). }
  now rewrite !Hidem.
Qed.

Lemma cleanup_removes_witness :
  (forall k, find_error calm k = None)
  /\ (forall collection id, remove_error calm collection id = None)
  /\ List.length (filter (stale_record day100) (BrowsingHistory attic)) <= 1000
  /\ exists w',
       cleanOldData calm day100 attic
       = (w', Returned (mkCleanupSummary 1 1 1))
       /\ map AbandonedCart._id (AbandonedCarts w') = ["old-open"; "new-bought"].
Proof.
  split; [reflexivity|]. split; [reflexivity|].
  assert (L1 : List.length (filter (stale_record day100) (BrowsingHistory attic))
               <= 1000) by (vm_compute; lia).
  assert (L2 : List.length (filter (stale_record day100)
                                   (CustomerInteractions attic)) <= 1000)
    by (vm_compute; lia).
  assert (L3 : List.length (filter (stale_recovered_cart day100)
                                   (AbandonedCarts attic)) <= 500)
    by (vm_compute; lia).
  split; [exact L1|].
  destruct attic_keys as (K1 & K2 & K3).
  destruct (cleanup_removes_all_old_records_and_then_nothing
              calm day100 attic (fun _ => eq_refl) (fun _ _ => eq_refl)
              K1 K2 K3 L1 L2 L3) as (w' & Hrun & _ & _ & Hc & _).
  exists w'. split; [exact Hrun|]. rewrite Hc. reflexivity.
Defined.

(** ** [generateDailySalesReport] *)



(** ** [updateCustomerSegments]: what it leaves alone *)

Lemma rewritten_refl E now (l : list Customer.t) :
  Forall2 (rewritten E now) l l.
Proof. induction l; constructor; [now left | assumption]. Qed.

Lemma rewritten_touch E now x (l0 l : list Customer.t) :
  Forall2 (rewritten E now) l0 l ->
  Forall2 (rewritten E now) l0
          (map (touch Customer._id (rescore E now) (writes E) x) l).
Proof.
  induction 1 as [|c c' l0 l Hc Hl IH]; cbn [map]; constructor; [|exact IH].
  unfold touch.
  destruct ((Customer._id x =? Customer._id c')%string && writes E x) eqn:Hx;
    [|exact Hc].
  apply andb_prop in Hx as [Hk Hwr]. apply String.eqb_eq in Hk.
  assert (Hid : Customer._id c' = Customer._id c).
  { destruct Hc as [-> | (vs & _ & _ & ->)]; reflexivity. }
  right. unfold writes, wants_write in Hwr. unfold rescore.
  rewrite Hk, Hid in Hwr. rewrite Hid.
  destruct (getCustomerValueScore E (Customer._id c)) as [vs|e];
    [|discriminate].
  exists vs. split; [reflexivity|]. split; [|reflexivity].
  now destruct (vs_success vs).
Qed.

Lemma rewritten_fold E now page : forall l0 l,
  Forall2 (rewritten E now) l0 l ->
  Forall2 (rewritten E now) l0
          (fold_left
             (fun l x => map (touch Customer._id (rescore E now) (writes E) x) l)
             page l).
Proof.
  induction page as [|x page IH]; intros l0 l H; cbn [fold_left]; [exact H|].
  apply IH. now apply rewritten_touch.
Qed.

Lemma rewritten_ids E now (l l' : list Customer.t) :
  Forall2 (rewritten E now) l l' ->
  map Customer._id l' = map Customer._id l.
Proof.
  induction 1 as [|c c' l l' Hc Hl IH]; cbn [map]; [reflexivity|].
  rewrite IH. f_equal. destruct Hc as [-> | (vs & _ & _ & ->)]; reflexivity.
Qed.

Lemma updateCustomerSegments_fold E now w :
  find_error E 0 = None ->
  updateCustomerSegments E now w
  = (with_customers
       (fold_left
          (fun l x => map (touch Customer._id (rescore E now) (writes E) x) l)
          (customers_page w) (Customers w)) w,
     Returned (mkSegmentJobSummary
                 (List.length (customers_page w))
                 (List.length (filter (writes E) (customers_page w))))).
Proof.
  intro Hq. unfold updateCustomerSegments. enter_job Hq.
  fold (customers_page w). now rewrite resegment_loop.
Qed.

(** X4.  Whatever the store, the engine and the writes do, the segmentation
    job neither adds nor removes nor reorders customers: position by
    position each stored customer is either as before or is the item with
    the engine's successful segment and score for its id, stamped with the
    time of the run. The job touches no other collection, processes at most
    1000 customers and never reports more updates than customers processed. *)
Theorem resegmentation_only_rewrites_scored_customers
    (E : Env) (now : Z) (w : World) :
  Forall2 (rewritten E now) (Customers w)
          (Customers (fst (updateCustomerSegments E now w)))
  /\ map Customer._id (Customers (fst (updateCustomerSegments E now w)))
     = map Customer._id (Customers w)
  /\ AbandonedCarts (fst (updateCustomerSegments E now w)) = AbandonedCarts w
  /\ BrowsingHistory (fst (updateCustomerSegments E now w)) = BrowsingHistory w
  /\ CustomerInteractions (fst (updateCustomerSegments E now w))
     = CustomerInteractions w
  /\ Orders (fst (updateCustomerSegments E now w)) = Orders w
  /\ DailyReports (fst (updateCustomerSegments E now w)) = DailyReports w
  /\ outbox (fst (updateCustomerSegments E now w)) = outbox w
  /\ (forall s, snd (updateCustomerSegments E now w) = Returned s ->
        updated s <= customers_processed s
        /\ customers_processed s <= 1000
        /\ customers_processed s <= List.length (Customers w)).
Proof.
  assert (Hmain :
    Forall2 (rewritten E now) (Customers w)
            (Customers (fst (updateCustomerSegments E now w)))
    /\ AbandonedCarts (fst (updateCustomerSegments E now w)) = AbandonedCarts w
    /\ BrowsingHistory (fst (updateCustomerSegments E now w)) = BrowsingHistory w
    /\ CustomerInteractions (fst (updateCustomerSegments E now w))
       = CustomerInteractions w
    /\ Orders (fst (updateCustomerSegments E now w)) = Orders w
    /\ DailyReports (fst (updateCustomerSegments E now w)) = DailyReports w
    /\ outbox (fst (updateCustomerSegments E now w)) = outbox w
    /\ (forall s, snd (updateCustomerSegments E now w) = Returned s ->
          updated s <= customers_processed s
          /\ customers_processed s <= 1000
          /\ customers_processed s <= List.length (Customers w))).
  { destruct (find_error E 0) as [e|] eqn:Hq.
    - rewrite (updateCustomerSegments_rethrows E now w e Hq). cbn [fst snd].
      split; [apply rewritten_refl|]. do 6 (split; [reflexivity|]).
      discriminate.
    - rewrite (updateCustomerSegments_fold E now w Hq).
      cbn [fst snd with_customers Customers AbandonedCarts BrowsingHistory
           CustomerInteractions Orders DailyReports outbox].
      split; [apply rewritten_fold, rewritten_refl|].
      do 6 (split; [reflexivity|]).
      intros s Hs. injection Hs as <-. cbn [updated customers_processed].
      split; [apply filter_length_le|].
      unfold customers_page. rewrite filter_all. split.
      + apply firstn_le_length.
      + rewrite length_firstn. lia. }
  destruct Hmain as (HF & Hrest). split; [exact HF|].
  split; [now apply (rewritten_ids E now)|]. exact Hrest.
Qed.

(** ** [post_bulkRecovery]: the accounting of the results *)

Lemma bulk_one_accounts E now c r w :
  exists w' r',
    bulk_one E now c r w = (w', Returned r')
    /\ results_processed r' = S (results_processed r)
    /\ ((results_successful r' = S (results_successful r)
         /\ results_failed r' = results_failed r
         /\ errors r' = errors r)
        \/ (results_successful r' = results_successful r
            /\ results_failed r' = S (results_failed r)
            /\ exists msg, errors r' = errors r ++ [(AbandonedCart._id c, msg)])).
Proof.
  unfold bulk_one, try_catch, bind.
  destruct (sendCartRecoveryEmail E now (AbandonedCart._id c) w)
    as [w1 [res|e]].
  - destruct (success res); eexists; eexists; (split; [reflexivity|]);
      cbn; (split; [reflexivity|]); [left | right]; repeat split.
    now exists (message res).
  - eexists; eexists; (split; [reflexivity|]); cbn; (split; [reflexivity|]).
    right. repeat split. now exists e.
Qed.

Lemma bulk_loop_accounts E now page : forall r w,
  exists w' r',
    for_of page (bulk_one E now) r w = (w', Returned r')
    /\ results_processed r' = results_processed r + List.length page
    /\ results_successful r' + results_failed r'
       = results_successful r + results_failed r + List.length page
    /\ List.length (errors r') + results_failed r
       = List.length (errors r) + results_failed r'
    /\ (forall e, In e (errors r') ->
          In e (errors r) \/ exists c, In c page /\ AbandonedCart._id c = fst e).
Proof.
  induction page as [|c page IH]; intros r w; cbn [for_of List.length].
  - exists w, r. split; [reflexivity|]. repeat split; try lia. now left.
  - unfold bind at 1.
    destruct (bulk_one_accounts E now c r w) as (w1 & r1 & -> & Hp & Hcase).
    destruct (IH r1 w1) as (w' & r' & -> & Hp' & Hs' & He' & Hin').
    exists w', r'. split; [reflexivity|].
    destruct Hcase as [(Hs & Hf & Her) | (Hs & Hf & msg & Her)].
    + rewrite Her in *. repeat split; try lia.
      intros e He. destruct (Hin' e He) as [Hin | (x & Hx & Hk)]; [now left|].
      right. exists x. split; [now right | exact Hk].
    + rewrite Her, length_app in He'. cbn [List.length] in He'.
      repeat split; try lia.
      intros e He. destruct (Hin' e He) as [Hin | (x & Hx & Hk)].
      * rewrite Her in Hin. apply in_app_or in Hin as [Hin | [<- | []]];
          [now left|]. right. exists c. split; [now left | reflexivity].
      * right. exists x. split; [now right | exact Hk].
Qed.

(** X5.  The bulk endpoint answers [ok] with its results whenever the body
    was parsed and the query went through, no matter what happens to single
    carts: it processed the carts of its page, at most 50, each of them
    counted as successful or as failed, with one error entry for each failed
    cart and none for any other, each entry naming a cart of the page. A
    body that cannot be parsed or a rejected query gives a server error and
    leaves the store as it was. *)
Theorem bulk_recovery_accounts_for_every_cart
    (E : Env) (now : Z) (request : Completion BulkRequest) (w : World) :
  (forall body, request = Returned body -> find_error E 0 = None ->
     exists w' r,
       post_bulkRecovery E now request w = (w', ok (inl r))
       /\ results_processed r = List.length (bulk_page now body w)
       /\ results_processed r <= 50
       /\ results_successful r + results_failed r = results_processed r
       /\ List.length (errors r) = results_failed r
       /\ (forall e, In e (errors r) ->
             exists c, In c (bulk_page now body w)
                       /\ AbandonedCart._id c = fst e))
  /\ (forall body e, request = Returned body -> find_error E 0 = Some e ->
        post_bulkRecovery E now request w
        = (w, serverError (inr (error_body "Bulk recovery failed" e))))
  /\ (forall e, request = Threw e ->
        post_bulkRecovery E now request w
        = (w, serverError (inr (error_body "Bulk recovery failed" e)))).
Proof.
  split; [|split].
  - intros body -> Hq.
    unfold post_bulkRecovery, bulkRecovery_try, lift, find. rewrite Hq.
    unfold bind at 1. unfold bind at 1. unfold ret at 1. cbn [items].
    fold (bulk_cutoff now body). fold (bulk_page now body w).
    destruct (bulk_loop_accounts E now (bulk_page now body w)
                (mkBulkResults 0 0 0 []) w)
      as (w' & r & -> & Hp & Hs & He & Hin).
    cbn [results_processed results_successful results_failed errors
         List.length Nat.add] in Hp, Hs, He.
    exists w', r. split; [reflexivity|].
    split; [exact Hp|].
    split; [rewrite Hp; unfold bulk_page; apply firstn_le_length|].
    split; [lia|]. split; [lia|].
    intros e Hine. destruct (Hin e Hine) as [[] | Hc]. exact Hc.
  - intros body e -> Hq.
    unfold post_bulkRecovery, bulkRecovery_try, lift, find. rewrite Hq.
    reflexivity.
  - intros e ->. reflexivity.
Qed.

(** ** The schedules meet the windows *)

(** X6.  A cart that stays unemailed and unrecovered is due for its first
    reminder exactly from 1 hour to 24 hours after it was abandoned, so
    among hourly runs that start no later than the end of that window one
    finds it due. A cart reminded once and unrecovered is due for its second
    reminder exactly from 24 to 48 hours after the reminder, so among runs
    every six hours that start no later than the end of that window one
    finds it due. *)
Theorem scheduled_runs_meet_the_reminder_windows
    (c : AbandonedCart.t) (start : Z) :
  (AbandonedCart.emailSent c = false ->
   AbandonedCart.recovered c = false ->
   (forall now,
      first_reminder_due now c = true <->
      (AbandonedCart.abandonedAt c + 60 * 60 * 1000 <= now
       <= AbandonedCart.abandonedAt c + 24 * 60 * 60 * 1000)%Z)
   /\ ((start <= AbandonedCart.abandonedAt c + 24 * 60 * 60 * 1000)%Z ->
       exists k, (0 <= k)%Z
                 /\ first_reminder_due (start + k * (60 * 60 * 1000)) c = true))
  /\ (forall t,
        AbandonedCart.lastReminderAt c = Some t ->
        AbandonedCart.reminderCount c = 1 ->
        AbandonedCart.recovered c = false ->
        (forall now,
           second_reminder_due now c = true <->
           (t + 24 * 60 * 60 * 1000 <= now <= t + 48 * 60 * 60 * 1000)%Z)
        /\ ((start <= t + 48 * 60 * 60 * 1000)%Z ->
            exists k, (0 <= k)%Z
                      /\ second_reminder_due (start + k * (6 * 60 * 60 * 1000)) c
                         = true)).
Proof.
  split.
  - intros Hs Hr.
    assert (Hdue : forall now,
              first_reminder_due now c = true <->
              (AbandonedCart.abandonedAt c + 60 * 60 * 1000 <= now
               <= AbandonedCart.abandonedAt c + 24 * 60 * 60 * 1000)%Z).
    { intro now. rewrite first_reminder_due_true. split; [intros (H & _); lia|].
      intro H. repeat split; auto; lia. }
    split; [exact Hdue|]. intro Hstart.
    destruct (Z_le_gt_dec (AbandonedCart.abandonedAt c + 60 * 60 * 1000) start)
      as [Hin | Hbefore].
    + exists 0%Z. split; [lia|]. apply Hdue. lia.
    + exists ((AbandonedCart.abandonedAt c + 60 * 60 * 1000 - start
               + (60 * 60 * 1000 - 1)) / (60 * 60 * 1000))%Z.
      pose proof (Z.div_mod (AbandonedCart.abandonedAt c + 60 * 60 * 1000 - start
                             + (60 * 60 * 1000 - 1)) (60 * 60 * 1000)
                            ltac:(lia)) as Hdm.
      pose proof (Z.mod_pos_bound (AbandonedCart.abandonedAt c + 60 * 60 * 1000
                                   - start + (60 * 60 * 1000 - 1))
                                  (60 * 60 * 1000) ltac:(lia)) as Hmod.
      split; [apply Z.div_pos; lia|]. apply Hdue. lia.
  - intros t Ht Hn Hr.
    assert (Hdue : forall now,
              second_reminder_due now c = true <->
              (t + 24 * 60 * 60 * 1000 <= now <= t + 48 * 60 * 60 * 1000)%Z).
    { intro now. rewrite second_reminder_due_true. split.
      - intros ((t' & Ht' & Hw) & _). rewrite Ht in Ht'. injection Ht' as <-. lia.
      - intro H. split; [exists t; split; [exact Ht | lia] | auto]. }
    split; [exact Hdue|]. intro Hstart.
    destruct (Z_le_gt_dec (t + 24 * 60 * 60 * 1000) start) as [Hin | Hbefore].
    + exists 0%Z. split; [lia|]. apply Hdue. lia.
    + exists ((t + 24 * 60 * 60 * 1000 - start + (6 * 60 * 60 * 1000 - 1))
              / (6 * 60 * 60 * 1000))%Z.
      pose proof (Z.div_mod (t + 24 * 60 * 60 * 1000 - start
                             + (6 * 60 * 60 * 1000 - 1)) (6 * 60 * 60 * 1000)
                            ltac:(lia)) as Hdm.
      pose proof (Z.mod_pos_bound (t + 24 * 60 * 60 * 1000 - start
                                   + (6 * 60 * 60 * 1000 - 1))
                                  (6 * 60 * 60 * 1000) ltac:(lia)) as Hmod.
      split; [apply Z.div_pos; lia|]. apply Hdue. lia.
Qed.

(** ** The chat widget *)

(** X7.  An input whose lower-case form starts with one of the greeting
    words is answered with a greeting, whatever follows and in whatever
    letter case: the greeting pattern is anchored at the start, tested
    first, and asks for no word boundary after the word, so "History of
    churros" or "HIGH discount code" greet as "hi" does. *)
Theorem input_starting_with_a_greeting_word_is_greeted
    (E : ChatEnv) (cs : ChatBotState.t) (input g rest : string) :
  In g ["hi"; "hello"; "hey"; "hola"; "buenos dias"; "good morning";
        "good afternoon"] ->
  toLowerCase input = (g ++ rest)%string ->
  processUserInput E cs input
  = text_response (getRandomResponse E RESPONSES.greeting).
Proof.
  intros Hg Hlow. unfold processUserInput. rewrite Hlow.
  replace (Regex.test INTENT_PATTERNS.greeting (g ++ rest)) with true;
    [reflexivity|].
  cbn in Hg.
  repeat (destruct Hg as [<- | Hg]; [reflexivity|]). contradiction.
Qed.

Lemma input_starting_with_a_greeting_word_witness :
  In "hi" ["hi"; "hello"; "hey"; "hola"; "buenos dias"; "good morning";
           "good afternoon"]
  /\ toLowerCase "HIGH discount code" = ("hi" ++ "gh discount code")%string
  /\ Regex.test INTENT_PATTERNS.discount (toLowerCase "HIGH discount code")
     = true
  /\ processUserInput (engines None) ChatBotState.new "HIGH discount code"
     = text_response (getRandomResponse (engines None) RESPONSES.greeting).
Proof.
  split; [now left|]. split; [reflexivity|]. split; [reflexivity|].
  apply (input_starting_with_a_greeting_word_is_greeted
           (engines None) ChatBotState.new "HIGH discount code" "hi"
           "gh discount code"); [now left | reflexivity].
Defined.

Lemma random_text_defined (E : ChatEnv) (responses : list string) :
  (forall n, 0 < n -> random_pick E n < n) ->
  responses <> [] ->
  exists t, getRandomResponse E responses = Some t.
Proof.
  intros Hpick Hne. unfold getRandomResponse.
  destruct (nth_error responses (random_pick E (List.length responses)))
    as [t|] eqn:Hn; [now exists t|].
  apply nth_error_None in Hn.
  assert (0 < List.length responses)
    by (destruct responses; [congruence | cbn; lia]).
  specialize (Hpick _ H). lia.
Qed.

Lemma product_reply_cases (outcome : Completion Recommendations) :
  (exists p ps,
      recommendation_reply outcome
      = mkResponse products_type (Some RESPONSES.products) (JArr (p :: ps)))
  \/ recommendation_reply outcome = text_response (Some RESPONSES.menu).
Proof.
  destruct outcome as [[[|] [|p ps]]|e]; cbn; auto.
  left. now exists p, ps.
Qed.

Lemma handleProductRecommendation_reply (E : ChatEnv) (cs : ChatBotState.t) :
  exists outcome, handleProductRecommendation E cs = recommendation_reply outcome.
Proof.
  exists (match known_customer (ChatBotState.customerId cs) with
          | Some id => getPersonalizedRecommendations E id 3
          | None => getTrendingProducts E 3
          end).
  unfold handleProductRecommendation. apply recommendation_reply_run.
Qed.

(** X8.  Every reply of the dispatcher is well formed. A text reply carries
    no attachment; a products reply carries at least one product; an offer
    reply carries the offer of a successful answer of the offer engine for
    the customer of the chat state; and as long as the random draw stays
    inside the list it draws from, every reply has a text. *)
Theorem replies_are_well_formed (E : ChatEnv) (cs : ChatBotState.t)
    (input : string) :
  (response_type (processUserInput E cs input) = text_type ->
     response_data (processUserInput E cs input) = JUndefined)
  /\ (response_type (processUserInput E cs input) = products_type ->
        exists p ps,
          response_data (processUserInput E cs input) = JArr (p :: ps))
  /\ (response_type (processUserInput E cs input) = offer_type ->
        exists o,
          getPersonalizedOffer E (ChatBotState.customerId cs) = Returned o
          /\ offer_success o = true
          /\ response_data (processUserInput E cs input) = offer o)
  /\ ((forall n, 0 < n -> random_pick E n < n) ->
      exists t, response_text (processUserInput E cs input) = Some t).
Proof.
  rewrite processUserInput_first_match.
  assert (Hproducts :
    (response_type (handleProductRecommendation E cs) = text_type ->
       response_data (handleProductRecommendation E cs) = JUndefined)
    /\ (response_type (handleProductRecommendation E cs) = products_type ->
          exists p ps,
            response_data (handleProductRecommendation E cs) = JArr (p :: ps))
    /\ (response_type (handleProductRecommendation E cs) = offer_type ->
          exists o,
            getPersonalizedOffer E (ChatBotState.customerId cs) = Returned o
            /\ offer_success o = true
            /\ response_data (handleProductRecommendation E cs) = offer o)
    /\ exists t, response_text (handleProductRecommendation E cs) = Some t).
  { destruct (handleProductRecommendation_reply E cs) as (outcome & ->).
    destruct (product_reply_cases outcome) as [(p & ps & ->) | ->]; cbn;
      (split; [try discriminate; reflexivity|]);
      (split; [try discriminate; intros _; now exists p, ps|]);
      (split; [discriminate | eexists; reflexivity]). }
  assert (Hoffer :
    (response_type (handleDiscountRequest E cs) = text_type ->
       response_data (handleDiscountRequest E cs) = JUndefined)
    /\ (response_type (handleDiscountRequest E cs) = products_type ->
          exists p ps,
            response_data (handleDiscountRequest E cs) = JArr (p :: ps))
    /\ (response_type (handleDiscountRequest E cs) = offer_type ->
          exists o,
            getPersonalizedOffer E (ChatBotState.customerId cs) = Returned o
            /\ offer_success o = true
            /\ response_data (handleDiscountRequest E cs) = offer o)
    /\ exists t, response_text (handleDiscountRequest E cs) = Some t).
  { unfold handleDiscountRequest.
    destruct (getPersonalizedOffer E (ChatBotState.customerId cs)) as [o|e].
    - destruct (offer_success o) eqn:Hs; cbn.
      + split; [discriminate|]. split; [discriminate|].
        split; [intros _; now exists o | eexists; reflexivity].
      + split; [reflexivity|]. split; [discriminate|].
        split; [discriminate | eexists; reflexivity].
    - cbn. split; [reflexivity|]. split; [discriminate|].
      split; [discriminate | eexists; reflexivity]. }
  destruct (classify input) as [[]|]; cbn [reply_for];
    try (destruct Hproducts as (H1 & H2 & H3 & H4);
         split; [exact H1|]; split; [exact H2|]; split; [exact H3|];
         intros _; exact H4);
    try (destruct Hoffer as (H1 & H2 & H3 & H4);
         split; [exact H1|]; split; [exact H2|]; split; [exact H3|];
         intros _; exact H4);
    cbn [text_response response_type response_data response_text];
    (split; [reflexivity|]); (split; [discriminate|]);
    (split; [discriminate|]); intro Hpick;
    first [ eexists; reflexivity
          | apply random_text_defined; [exact Hpick | discriminate] ].
Qed.

(** X9.  A message is answered once. Input that is empty after trimming
    changes nothing. Any other input is logged, trimmed, as one user
    message; when the interaction tracker rejects, no reply follows; when it
    accepts, the timer callback appends exactly one bot message, which
    carries the type and the text of the dispatcher's response to the
    trimmed input. *)
Theorem a_message_is_answered_once (E : ChatEnv) (now later : Z)
    (chatInput : string) (cs : ChatBotState.t) :
  (trim chatInput = "" -> sendMessage E now chatInput cs = (cs, None))
  /\ (trim chatInput <> "" ->
      ChatBotState.messages (fst (sendMessage E now chatInput cs))
      = ChatBotState.messages cs
        ++ [Message.mk now "user" (Some (trim chatInput)) text_type JNull now]
      /\ ChatBotState.customerId (fst (sendMessage E now chatInput cs))
         = ChatBotState.customerId cs
      /\ (forall e, trackCustomerInteraction E = Threw e ->
            snd (sendMessage E now chatInput cs) = None)
      /\ (forall u, trackCustomerInteraction E = Returned u ->
            snd (sendMessage E now chatInput cs) = Some (trim chatInput)
            /\ exists bot,
                 ChatBotState.messages
                   (deliver_response E later (trim chatInput)
                      (fst (sendMessage E now chatInput cs)))
                 = ChatBotState.messages cs
                   ++ [Message.mk now "user" (Some (trim chatInput))
                                  text_type JNull now; bot]
                 /\ Message.sender bot = "bot"
                 /\ Message.type bot
                    = response_type
                        (processUserInput E (fst (sendMessage E now chatInput cs))
                                          (trim chatInput))
                 /\ Message.text bot
                    = response_text
                        (processUserInput E (fst (sendMessage E now chatInput cs))
                                          (trim chatInput)))).
Proof.
  unfold sendMessage. split.
  - intros ->. reflexivity.
  - intro Hne. apply String.eqb_neq in Hne. rewrite Hne.
    destruct (trackCustomerInteraction E) as [u|e] eqn:Ht; cbn [fst snd].
    + split; [reflexivity|]. split; [reflexivity|]. split; [discriminate|].
      intros _ _. split; [reflexivity|].
      unfold deliver_response.
      set (cs1 := ChatBotState.addMessage now "user" (Some (trim chatInput))
                                          text_type JNull cs).
      destruct (response_type (processUserInput E cs1 (trim chatInput)));
        eexists; cbn [ChatBotState.addMessage ChatBotState.messages cs1];
        (split; [rewrite <- app_assoc; reflexivity|]); repeat split.
    + split; [reflexivity|]. split; [reflexivity|].
      split; [reflexivity | discriminate].
Qed.

(** ** The widget on the page *)

Lemma click_shows_what_isOpen_says (wd : Widget.t) (c : WidgetClick) :
  Widget.chatWidget_shown (click wd c)
  = ChatBotState.isOpen (Widget.chat (click wd c))
  /\ Widget.chatToggleBtn_shown (click wd c)
     = negb (ChatBotState.isOpen (Widget.chat (click wd c))).
Proof.
  destruct c; cbn; [|split; reflexivity].
  unfold toggleChat. cbn.
  destruct (ChatBotState.isOpen (Widget.chat wd)); cbn; split; reflexivity.
Qed.

Lemma click_frame (wd : Widget.t) (c : WidgetClick) :
  ChatBotState.messages (Widget.chat (click wd c))
  = ChatBotState.messages (Widget.chat wd)
  /\ ChatBotState.customerId (Widget.chat (click wd c))
     = ChatBotState.customerId (Widget.chat wd)
  /\ ChatBotState.sessionId (Widget.chat (click wd c))
     = ChatBotState.sessionId (Widget.chat wd)
  /\ ChatBotState.context (Widget.chat (click wd c))
     = ChatBotState.context (Widget.chat wd).
Proof.
  destruct c; cbn; [|repeat split].
  unfold toggleChat. cbn.
  destruct (ChatBotState.isOpen (Widget.chat wd)); cbn; repeat split.
Qed.

Lemma click_opened_for (wd : Widget.t) (c : WidgetClick) :
  exists more,
    Widget.opened_for (click wd c) = Widget.opened_for wd ++ more
    /\ Forall (eq (ChatBotState.customerId (Widget.chat wd))) more
    /\ List.length more
       <= (match c with click_toggle => 1 | click_close => 0 end).
Proof.
  destruct c; cbn.
  - unfold toggleChat. cbn.
    destruct (ChatBotState.isOpen (Widget.chat wd)); cbn.
    + exists []. rewrite app_nil_r. repeat split; [constructor | cbn; lia].
    + exists [ChatBotState.customerId (Widget.chat wd)].
      repeat split; [repeat constructor | cbn; lia].
  - exists []. rewrite app_nil_r. repeat split; [constructor | cbn; lia].
Qed.

Lemma clicks_frame (clicks : list WidgetClick) : forall wd : Widget.t,
  (ChatBotState.messages (Widget.chat (fold_left click clicks wd))
   = ChatBotState.messages (Widget.chat wd)
   /\ ChatBotState.customerId (Widget.chat (fold_left click clicks wd))
      = ChatBotState.customerId (Widget.chat wd)
   /\ ChatBotState.sessionId (Widget.chat (fold_left click clicks wd))
      = ChatBotState.sessionId (Widget.chat wd)
   /\ ChatBotState.context (Widget.chat (fold_left click clicks wd))
      = ChatBotState.context (Widget.chat wd))
  /\ exists more,
       Widget.opened_for (fold_left click clicks wd)
       = Widget.opened_for wd ++ more
       /\ Forall (eq (ChatBotState.customerId (Widget.chat wd))) more
       /\ List.length more
          <= List.length
               (filter (fun c => match c with
                                 | click_toggle => true
                                 | click_close => false
                                 end) clicks).
Proof.
  induction clicks as [|c clicks IH]; intro wd; cbn [fold_left].
  - split; [repeat split|]. exists []. rewrite app_nil_r.
    repeat split; [constructor | cbn; lia].
  - destruct (IH (click wd c)) as ((Hm & Hc & Hs & Hx) & more & Ho & Hall & Hlen).
    destruct (click_frame wd c) as (Hm1 & Hc1 & Hs1 & Hx1).
    destruct (click_opened_for wd c) as (first & Ho1 & Hall1 & Hlen1).
    split.
    + rewrite Hm, Hc, Hs, Hx. repeat split; assumption.
    + exists (first ++ more). rewrite Ho, Ho1, app_assoc.
      split; [reflexivity|]. split.
      * apply Forall_app. split; [assumption|]. now rewrite <- Hc1.
      * rewrite length_app. destruct c; cbn in *; lia.
Qed.

(** X10.  After any click on the toggle or the close button the chat window
    is on screen exactly when the state says the chat is open, and the
    toggle button exactly when it says closed, whatever the page looked like
    before. Clicks never touch the conversation, the customer or the
    session, and [chat_opened] is reported for the customer of the state, at
    most once per click on the toggle and never for a click on close. *)
Theorem chat_window_is_shown_exactly_when_open (wd : Widget.t)
    (clicks : list WidgetClick) :
  clicks <> [] ->
  Widget.chatWidget_shown (fold_left click clicks wd)
  = ChatBotState.isOpen (Widget.chat (fold_left click clicks wd))
  /\ Widget.chatToggleBtn_shown (fold_left click clicks wd)
     = negb (ChatBotState.isOpen (Widget.chat (fold_left click clicks wd)))
  /\ getChatState (Widget.chat (fold_left click clicks wd))
     = mkChatStateView
         (ChatBotState.isOpen (Widget.chat (fold_left click clicks wd)))
         (List.length (ChatBotState.messages (Widget.chat wd)))
         (ChatBotState.customerId (Widget.chat wd))
  /\ ChatBotState.messages (Widget.chat (fold_left click clicks wd))
     = ChatBotState.messages (Widget.chat wd)
  /\ ChatBotState.sessionId (Widget.chat (fold_left click clicks wd))
     = ChatBotState.sessionId (Widget.chat wd)
  /\ exists more,
       Widget.opened_for (fold_left click clicks wd)
       = Widget.opened_for wd ++ more
       /\ Forall (eq (ChatBotState.customerId (Widget.chat wd))) more
       /\ List.length more
          <= List.length
               (filter (fun c => match c with
                                 | click_toggle => true
                                 | click_close => false
                                 end) clicks).
Proof.
  intro Hne.
  destruct (clicks_frame clicks wd) as ((Hm & Hc & Hs & Hx) & Hopened).
  destruct (exists_last Hne) as (before & c & ->).
  rewrite fold_left_app in *. cbn [fold_left] in *.
  destruct (click_shows_what_isOpen_says (fold_left click before wd) c)
    as (Hshown & Hbtn).
  split; [exact Hshown|]. split; [exact Hbtn|].
  split; [unfold getChatState; now rewrite Hm, Hc|].
  split; [exact Hm|]. split; [exact Hs|]. exact Hopened.
Qed.

Lemma chat_window_witness :
  [click_toggle; click_close; click_toggle] <> []
  /\ Widget.chatWidget_shown
       (fold_left click [click_toggle; click_close; click_toggle]
          (Widget.mk ChatBotState.new true true []))
     = ChatBotState.isOpen
         (Widget.chat
            (fold_left click [click_toggle; click_close; click_toggle]
               (Widget.mk ChatBotState.new true true []))).
Proof.
  split; [discriminate|].
  apply (chat_window_is_shown_exactly_when_open
           (Widget.mk ChatBotState.new true true [])
           [click_toggle; click_close; click_toggle]).
  discriminate.
Defined.

(** ** Initialisation *)

Lemma startsWith_app (prefix s : string) :
  startsWith prefix (prefix ++ s) = true.
Proof.
  induction prefix as [|p prefix IH]; cbn; [reflexivity|].
  now rewrite Ascii.eqb_refl, IH.
Qed.

Lemma guests_are_not_known (s : string) :
  known_customer (Some ("guest_" ++ s)%string) = None.
Proof.
  unfold known_customer. now rewrite startsWith_app, andb_false_r.
Qed.

(** X11.  Once the member lookup has answered, initialisation succeeds,
    stores the session id it uses, and keeps a stored non-empty one. A
    visitor who is not logged in becomes the guest of that session, and
    every later recommendation request of that state is answered from the
    trending products; a member whose id is not empty and does not start
    with [guest_] is answered from the personal recommendations for that id. *)
Theorem initialised_guests_get_trending_and_members_personal_picks
    (E : ChatEnv) (now : Z) (page : Page) (member : option string) :
  getMember E = Returned member ->
  init_success (snd (initializeChatBot E now page)) = true
  /\ ChatBotState.sessionId (chatState (fst (initializeChatBot E now page)))
     = salesBotSessionId (fst (initializeChatBot E now page))
  /\ (forall s, salesBotSessionId page = Some s -> s <> ""%string ->
        salesBotSessionId (fst (initializeChatBot E now page)) = Some s)
  /\ (member = None ->
      exists s,
        salesBotSessionId (fst (initializeChatBot E now page)) = Some s
        /\ ChatBotState.customerId
             (chatState (fst (initializeChatBot E now page)))
           = Some ("guest_" ++ s)%string
        /\ forall E',
             handleProductRecommendation E'
               (chatState (fst (initializeChatBot E now page)))
             = recommendation_reply (getTrendingProducts E' 3))
  /\ (forall id, member = Some id -> id <> ""%string ->
        startsWith "guest_" id = false ->
        ChatBotState.customerId
          (chatState (fst (initializeChatBot E now page)))
        = Some id
        /\ forall E',
             handleProductRecommendation E'
               (chatState (fst (initializeChatBot E now page)))
             = recommendation_reply (getPersonalizedRecommendations E' id 3)).
Proof.
  intro Hmember. unfold initializeChatBot. rewrite Hmember.
  cbn [fst snd init_success chatState salesBotSessionId
       ChatBotState.addMessage ChatBotState.sessionId ChatBotState.customerId
       ChatBotState.isOpen ChatBotState.messages ChatBotState.context].
  split; [reflexivity|]. split; [reflexivity|]. split.
  { intros s -> Hs. apply String.eqb_neq in Hs. now rewrite Hs. }
  split.
  - intros ->. eexists. split; [reflexivity|]. split; [reflexivity|].
    intro E'. unfold handleProductRecommendation.
    cbn [ChatBotState.customerId ChatBotState.addMessage].
    rewrite guests_are_not_known. apply recommendation_reply_run.
  - intros id -> Hid Hguest. split; [reflexivity|].
    intro E'. unfold handleProductRecommendation, known_customer.
    cbn [ChatBotState.customerId ChatBotState.addMessage].
    apply String.eqb_neq in Hid. rewrite Hid, Hguest. cbn [negb andb].
    apply recommendation_reply_run.
Qed.

Lemma initialised_guests_witness :
  getMember (engines None) = Returned None
  /\ init_success (snd (initializeChatBot (engines None) 1000 blank_page))
     = true.
Proof.
  split; [reflexivity|].
  apply (initialised_guests_get_trending_and_members_personal_picks
           (engines None) 1000 blank_page None).
  reflexivity.
Defined.

Lemma fresh_session_id_not_empty (E : ChatEnv) (now : Z) (page : Page) :
  exists s,
    salesBotSessionId (fst (initializeChatBot E now page)) = Some s
    /\ ChatBotState.sessionId (chatState (fst (initializeChatBot E now page)))
       = Some s
    /\ s <> ""%string.
Proof.
  unfold initializeChatBot.
  destruct (getMember E) as [member|e]; cbn [fst chatState salesBotSessionId
    ChatBotState.addMessage ChatBotState.sessionId];
    (eexists; split; [reflexivity|]; split; [reflexivity|]);
    (destruct (salesBotSessionId page) as [s|];
     [destruct (s =? "")%string eqn:Hs;
      [discriminate | now apply String.eqb_neq] | discriminate]).
Qed.

(** X12.  The session id is created once. Whatever the clock reads and
    whether or not the member lookup fails, initialising again keeps the id
    the first initialisation stored, in the session storage and in the chat
    state. A failed lookup is reported with its message, adds no greeting
    and leaves the customer as it was, although the session id is already
    set. *)
Theorem session_id_is_created_once (E E' : ChatEnv) (now now' : Z)
    (page : Page) :
  salesBotSessionId
    (fst (initializeChatBot E' now' (fst (initializeChatBot E now page))))
  = salesBotSessionId (fst (initializeChatBot E now page))
  /\ ChatBotState.sessionId
       (chatState
          (fst (initializeChatBot E' now' (fst (initializeChatBot E now page)))))
     = ChatBotState.sessionId (chatState (fst (initializeChatBot E now page)))
  /\ (forall e, getMember E = Threw e ->
        snd (initializeChatBot E now page) = mkInitResult false (Some e)
        /\ ChatBotState.messages (chatState (fst (initializeChatBot E now page)))
           = ChatBotState.messages (chatState page)
        /\ ChatBotState.customerId
             (chatState (fst (initializeChatBot E now page)))
           = ChatBotState.customerId (chatState page)
        /\ ChatBotState.sessionId
             (chatState (fst (initializeChatBot E now page)))
           <> None).
Proof.
  destruct (fresh_session_id_not_empty E now page) as (s & Hpage & Hstate & Hs).
  assert (Hkeep : forall p,
            salesBotSessionId p = Some s ->
            salesBotSessionId (fst (initializeChatBot E' now' p)) = Some s
            /\ ChatBotState.sessionId
                 (chatState (fst (initializeChatBot E' now' p))) = Some s).
  { intros p Hp. unfold initializeChatBot. rewrite Hp.
    apply String.eqb_neq in Hs. rewrite Hs.
    destruct (getMember E'); split; reflexivity. }
  destruct (Hkeep _ Hpage) as (H1 & H2).
  split; [now rewrite H1, Hpage|]. split; [now rewrite H2, Hstate|].
  intros e He. split; [|split; [|split]].
  - unfold initializeChatBot. now rewrite He.
  - unfold initializeChatBot. now rewrite He.
  - unfold initializeChatBot. now rewrite He.
  - rewrite Hstate. discriminate.
Qed.

(** ** Quick actions *)

(** X13.  The products and the help button answer what typing their text
    would be answered; the deals button does not. It logs the question [Do
    you have any discounts?] and asks the offer engine, while the same
    question typed into the chat matches no intent and gets a fallback
    reply. In every case the button logs one user message and the timer
    appends one bot message of the type of the response. *)
Theorem quick_actions_and_typed_text (E : ChatEnv) (now later : Z)
    (cs : ChatBotState.t) (action : QuickAction) :
  (action <> deals_action ->
     quick_action_response E cs action
     = processUserInput E cs (quick_action_text action))
  /\ quick_action_response E cs deals_action = handleDiscountRequest E cs
  /\ processUserInput E cs (quick_action_text deals_action)
     = text_response (getRandomResponse E RESPONSES.fallback)
  /\ exists bot,
       ChatBotState.messages
         (deliver_quick_action E later action (handleQuickAction now action cs))
       = ChatBotState.messages cs
         ++ [Message.mk now "user" (Some (quick_action_text action))
                        text_type JNull now; bot]
       /\ Message.sender bot = "bot"
       /\ Message.type bot
          = response_type
              (quick_action_response E (handleQuickAction now action cs) action)
       /\ Message.text bot
          = response_text
              (quick_action_response E (handleQuickAction now action cs) action).
Proof.
  split; [|split; [reflexivity|split; [reflexivity|]]].
  - destruct action; intro Hne; [reflexivity | congruence | reflexivity].
  - unfold deliver_quick_action.
    destruct (response_type
                (quick_action_response E (handleQuickAction now action cs) action));
      eexists;
      cbn [ChatBotState.addMessage ChatBotState.messages handleQuickAction];
      (split; [rewrite <- app_assoc; reflexivity|]); repeat split.
Qed.

Lemma quick_actions_witness :
  products_action <> deals_action
  /\ quick_action_response (engines None) ChatBotState.new products_action
     = processUserInput (engines None) ChatBotState.new
                        (quick_action_text products_action).
Proof.
  split; [discriminate|].
  apply (quick_actions_and_typed_text (engines None) 0 1 ChatBotState.new
                                      products_action).
  discriminate.
Defined.

(** ** The recovery endpoint *)

Lemma truthy_field_member (v : JsValue) (key : string) :
  truthy (field v key) = true ->
  exists x, member v key = Returned x /\ truthy x = true.
Proof.
  unfold field. destruct (member v key) as [x|e]; [|discriminate].
  intro H. now exists x.
Qed.

(** X14.  [POST /_functions/sendRecoveryEmail]. A request whose body cannot
    be read, or whose [abandonedCartId] is missing or falsy, never reaches
    the mailer: the store stays as it was and the answer is not a 200. Any
    other request hands the id to the mailer exactly once and leaves the
    store as the mailer left it; the answer is 200 with the mailer's result
    when its [success] is truthy, 400 with that result when it is not, and
    500 with the message when the mailer throws or returns no object. *)
Theorem recovery_endpoint_answers (send : JsValue -> Job JsValue)
    (request : Completion JsValue) (w : World) :
  (requested_cart request = None ->
     fst (post_sendRecoveryEmail send request w) = w
     /\ is_ok (snd (post_sendRecoveryEmail send request w)) = false)
  /\ (forall id, requested_cart request = Some id ->
        fst (post_sendRecoveryEmail send request w) = fst (send id w)
        /\ snd (post_sendRecoveryEmail send request w)
           = match snd (send id w) with
             | Returned result =>
                 match member result "success" with
                 | Returned success =>
                     if truthy success then ok result else badRequest result
                 | Threw message =>
                     serverError (error_body "Internal server error" message)
                 end
             | Threw message =>
                 serverError (error_body "Internal server error" message)
             end).
Proof.
  unfold post_sendRecoveryEmail, sendRecoveryEmail_try, requested_cart,
    bind, lift, ret.
  destruct request as [body|e]; cbn.
  - destruct (member body "abandonedCartId") as [id|e]; cbn.
    + destruct (truthy id) eqn:Hid; cbn.
      * split; [discriminate|]. intros id' [= <-].
        destruct (send id w) as [w' [result|e]]; cbn; [|split; reflexivity].
        destruct (member result "success") as [success|e]; cbn;
          [|split; reflexivity].
        destruct (truthy success); split; reflexivity.
      * split; [split; reflexivity | discriminate].
    + split; [split; reflexivity | discriminate].
  - split; [split; reflexivity | discriminate].
Qed.

(** ** The client module *)

(** *** Urgency notification *)

(** X15.  The notification announces the end of a sale exactly when the sale
    ends between one hour and less than twenty-five hours from now, and then
    says so even when stock is low. Otherwise it announces low stock exactly
    when the product has an inventory of at most five, none left included.
    In every other case it is hidden. *)
Theorem urgency_notification_cases (now : Z) (product : Product) :
  (forall endDate,
     saleEndDate product = Some endDate ->
     (3600000 <= endDate - now < 90000000)%Z ->
     showUrgencyNotification now product
     = Some (sale_message ((endDate - now) / 3600000))
     /\ (1 <= (endDate - now) / 3600000 <= 24)%Z)
  /\ ((forall endDate,
         saleEndDate product = Some endDate ->
         ~ (3600000 <= endDate - now < 90000000)%Z) ->
      (forall quantity,
         inventory_quantity product = Some quantity -> (quantity <= 5)%Z ->
         showUrgencyNotification now product = Some (stock_message quantity))
      /\ ((forall quantity,
             inventory_quantity product = Some quantity -> (5 < quantity)%Z) ->
          showUrgencyNotification now product = None)).
Proof.
  unfold showUrgencyNotification.
  change (1000 * 60 * 60)%Z with 3600000%Z.
  assert (Hwindow : forall d,
            ((0 <? d / 3600000) && (d / 3600000 <=? 24) = true
             <-> 3600000 <= d < 90000000)%Z).
  { intro d. rewrite andb_true_iff, Z.ltb_lt, Z.leb_le.
    pose proof (Z.div_mod d 3600000 ltac:(lia)).
    pose proof (Z.mod_pos_bound d 3600000 ltac:(lia)). lia. }
  split.
  - intros endDate -> Hin. apply Hwindow in Hin as Hb. rewrite Hb.
    split; [reflexivity|].
    apply andb_true_iff in Hb. destruct Hb as (H1 & H2).
    apply Z.ltb_lt in H1. apply Z.leb_le in H2. lia.
  - intro Hout.
    assert (Hsale :
      forall m,
        match saleEndDate product with
        | Some endDate =>
            if ((0 <? (endDate - now) / 3600000)
                && ((endDate - now) / 3600000 <=? 24))%Z
            then Some (sale_message ((endDate - now) / 3600000))
            else m
        | None => m
        end = m).
    { intro m. destruct (saleEndDate product) as [endDate|]; [|reflexivity].
      destruct ((0 <? (endDate - now) / 3600000)
                && ((endDate - now) / 3600000 <=? 24))%Z eqn:Hb;
        [|reflexivity].
      apply Hwindow in Hb. now destruct (Hout endDate eq_refl). }
    rewrite Hsale. split.
    + intros quantity -> Hq. apply Z.leb_le in Hq. now rewrite Hq.
    + intro Hq. destruct (inventory_quantity product) as [quantity|];
        [|reflexivity].
      specialize (Hq quantity eq_refl).
      destruct (quantity <=? 5)%Z eqn:Hle; [|reflexivity].
      apply Z.leb_le in Hle. lia.
Qed.

(** *** Social proof *)

Lemma messageIndex_after (n : nat) :
  messageIndex (Nat.iter n showNextMessage (mkSocialProof None 0)) = n mod 4.
Proof.
  induction n as [|n IH]; [reflexivity|].
  rewrite Nat.iter_succ. unfold showNextMessage at 1. cbn [messageIndex].
  rewrite IH. change (List.length recentActivity) with 4.
  rewrite Nat.Div0.add_mod_idemp_l. f_equal. lia.
Qed.

(** X16.  The notification always shows one of the four messages, never an
    undefined text: after the call and [ticks] runs of the timer it shows
    message number [ticks mod 4], so the messages come round again every
    four runs. *)
Theorem social_proof_rotates (ticks : nat) :
  notification_text (showSocialProofNotification ticks)
  = nth_error recentActivity (ticks mod 4)
  /\ (exists message,
        notification_text (showSocialProofNotification ticks) = Some message
        /\ In message recentActivity)
  /\ notification_text (showSocialProofNotification (ticks + 4))
     = notification_text (showSocialProofNotification ticks).
Proof.
  assert (Htext : forall n,
            notification_text (showSocialProofNotification n)
            = nth_error recentActivity (n mod 4)).
  { intro n. unfold showSocialProofNotification. rewrite Nat.iter_succ.
    unfold showNextMessage at 1. cbn [notification_text].
    now rewrite messageIndex_after. }
  split; [apply Htext|]. split.
  - rewrite Htext.
    destruct (nth_error recentActivity (ticks mod 4)) as [message|] eqn:Hn.
    + exists message. split; [reflexivity|]. eapply nth_error_In, Hn.
    + apply nth_error_None in Hn. change (List.length recentActivity) with 4 in Hn.
      pose proof (Nat.mod_upper_bound ticks 4). lia.
  - rewrite !Htext. f_equal.
    replace (ticks + 4) with (ticks + 1 * 4) by lia.
    apply Nat.Div0.mod_add.
Qed.

(** *** Recommendations on the page and in the chat *)

Lemma display_follows_answer (answer : Completion Recommendations) :
  display_follows answer
    (match answer with
     | Returned r =>
         if recommendations_success r
            && (0 <? List.length (recommendations r))
         then (mkDisplayResult true (Some (List.length (recommendations r)))
                               None None,
               Some (recommendations r))
         else (mkDisplayResult false None
                               (Some "No recommendations available") None,
               None)
     | Threw e => (mkDisplayResult false None None (Some e), None)
     end).
Proof.
  unfold display_follows.
  destruct answer as [[[|] [|product more]]|e]; cbn;
    (split; [split; [intro H; try discriminate H; now exists product, more
                    | intros (p & m & H); try discriminate H; reflexivity]|]);
    (split; [intros p m H; try discriminate H; now injection H as <- <-|]);
    (split; [intros ps H; try discriminate H; reflexivity|]);
    (split; [intro H; try discriminate H; reflexivity|]);
    intros e' H; try discriminate H; now injection H as <-.
Qed.

(** X17.  The page asks the personal engine for six products when it is
    given a customer id that is not empty, and the trending products
    otherwise.  The repeater is filled exactly when the engine asked answers
    with success and at least one product, with those products, and the
    result then counts them; an answer without success or without products
    and a rejected call fill nothing.  Which engine is asked depends on the
    customer id being set, not on whose it is: for the guest of a session
    the page shows what the personal engine returns for the guest id,
    whatever is trending, while the chat answers the same guest from the
    trending products, whatever the personal engine would return. *)
Theorem guests_get_personal_picks_on_the_page_and_trending_in_the_chat
    (E : ChatEnv) (customerId : option string) :
  (display_success (fst (displayRecommendations E customerId)) = true
   <-> exists product more,
         snd (displayRecommendations E customerId) = Some (product :: more)
         /\ display_count (fst (displayRecommendations E customerId))
            = Some (S (List.length more)))
  /\ (display_success (fst (displayRecommendations E customerId)) = false ->
      snd (displayRecommendations E customerId) = None)
  /\ (forall s E',
        customerId = Some ("guest_" ++ s)%string ->
        getPersonalizedRecommendations E' ("guest_" ++ s)%string 6
        = getPersonalizedRecommendations E ("guest_" ++ s)%string 6 ->
        displayRecommendations E' customerId
        = displayRecommendations E customerId)
  /\ (forall s E' cs,
        ChatBotState.customerId cs = Some ("guest_" ++ s)%string ->
        getTrendingProducts E' 3 = getTrendingProducts E 3 ->
        handleProductRecommendation E' cs = handleProductRecommendation E cs)
  /\ (forall id,
        customerId = Some id -> id <> ""%string ->
        display_follows (getPersonalizedRecommendations E id 6)
                        (displayRecommendations E customerId))
  /\ (customerId = None \/ customerId = Some ""%string ->
      display_follows (getTrendingProducts E 6)
                      (displayRecommendations E customerId)).
Proof.
  split; [|split; [|split; [|split; [|split]]]].
  - unfold displayRecommendations.
    destruct (match customerId with
              | Some id => if (id =? "")%string then getTrendingProducts E 6
                           else getPersonalizedRecommendations E id 6
              | None => getTrendingProducts E 6
              end) as [[[|] [|product more]]|e]; cbn;
      (split; [intro H; try discriminate H; now exists product, more
              | intros (p & m & H & _); try discriminate H; reflexivity]).
  - unfold displayRecommendations.
    destruct (match customerId with
              | Some id => if (id =? "")%string then getTrendingProducts E 6
                           else getPersonalizedRecommendations E id 6
              | None => getTrendingProducts E 6
              end) as [[[|] [|product more]]|e]; cbn;
      intro H; try discriminate H; reflexivity.
  - intros s E' -> Hsame. unfold displayRecommendations. cbn.
    change (getPersonalizedRecommendations E' ("guest_" ++ s)%string 6
            = getPersonalizedRecommendations E ("guest_" ++ s)%string 6)
      in Hsame.
    cbn in Hsame. now rewrite Hsame.
  - intros s E' cs Hguest Hsame. unfold handleProductRecommendation.
    now rewrite Hguest, guests_are_not_known, Hsame.
  - intros id -> Hid. unfold displayRecommendations.
    apply String.eqb_neq in Hid. rewrite Hid.
    apply display_follows_answer.
  - intros [-> | ->]; unfold displayRecommendations;
      rewrite ?String.eqb_refl; apply display_follows_answer.
Qed.

(** *** One session, one customer *)

Lemma generateSessionId_not_empty (now : Z) (suffix : string) :
  (generateSessionId now suffix =? "")%string = false.
Proof. reflexivity. Qed.

Lemma setup_keeps_session (formFactor : FormFactor) (customerId sessionId : string)
    (b : Browser.t) :
  Browser.salesBotSessionId
    (setupScrollTracking customerId sessionId
       (setupExitIntentListener formFactor customerId b))
  = Browser.salesBotSessionId b.
Proof.
  unfold setupScrollTracking, setupExitIntentListener.
  destruct (item_set (Browser.exitIntentShown b)); [reflexivity|].
  destruct formFactor; reflexivity.
Qed.

Lemma initializeSalesBot_session (E : ChatEnv) (formFactor : FormFactor)
    (now : Z) (suffix : string) (b : Browser.t) :
  exists s,
    (s =? "")%string = false
    /\ Browser.salesBotSessionId
         (fst (initializeSalesBot E formFactor now suffix b)) = Some s
    /\ (item_set (Browser.salesBotSessionId b) = true ->
        Browser.salesBotSessionId b = Some s)
    /\ forall member u,
         getMember E = Returned member ->
         trackCustomerInteraction E = Returned u ->
         snd (initializeSalesBot E formFactor now suffix b)
         = mkSalesBotResult true (Some s)
                            (Some (customer_of member (Some s))) None.
Proof.
  unfold initializeSalesBot.
  destruct (Browser.salesBotSessionId b) as [s|] eqn:Hs; cbn [item_set].
  - destruct (s =? "")%string eqn:Hempty; cbn [negb].
    + exists (generateSessionId now suffix).
      split; [reflexivity|]. split.
      * destruct (getMember E); [destruct (trackCustomerInteraction E)|];
          cbn [fst]; rewrite ?setup_keeps_session; reflexivity.
      * split; [discriminate|]. intros member u -> ->. reflexivity.
    + exists s. split; [exact Hempty|]. split.
      * destruct (getMember E); [destruct (trackCustomerInteraction E)|];
          cbn [fst]; rewrite ?setup_keeps_session; cbn; exact Hs.
      * split; [reflexivity|]. intros member u -> ->. reflexivity.
  - exists (generateSessionId now suffix).
    split; [reflexivity|]. split.
    + destruct (getMember E); [destruct (trackCustomerInteraction E)|];
        cbn [fst]; rewrite ?setup_keeps_session; reflexivity.
    + split; [discriminate|]. intros member u -> ->. reflexivity.
Qed.

(** X18.  Both modules and every tracking call of a visit name the visitor
    alike. Once [initializeSalesBot] has succeeded, the session id it
    returns is the stored one; a product view or an add-to-cart tracked
    later is recorded for the customer and the session it returned; and the
    chat widget, initialised on any page of the same visit, takes over that
    session id and names the same customer. *)
Theorem one_session_and_one_customer_per_visit (E : ChatEnv)
    (formFactor : FormFactor) (now : Z) (suffix : string) (b : Browser.t)
    (member : option string) (u : unit) :
  getMember E = Returned member ->
  trackCustomerInteraction E = Returned u ->
  exists s customer,
    snd (initializeSalesBot E formFactor now suffix b)
    = mkSalesBotResult true (Some s) (Some customer) None
    /\ Browser.salesBotSessionId
         (fst (initializeSalesBot E formFactor now suffix b)) = Some s
    /\ (forall productId,
          Browser.interactions
            (fst (trackProductView E productId
                    (fst (initializeSalesBot E formFactor now suffix b))))
          = Browser.interactions
              (fst (initializeSalesBot E formFactor now suffix b))
            ++ [mkInteraction customer "product_view" (Some s)
                              (Some productId)])
    /\ (forall productId,
          Browser.interactions
            (fst (trackAddToCart E productId
                    (fst (initializeSalesBot E formFactor now suffix b))))
          = Browser.interactions
              (fst (initializeSalesBot E formFactor now suffix b))
            ++ [mkInteraction customer "add_to_cart" (Some s)
                              (Some productId)])
    /\ (forall later cs,
          ChatBotState.sessionId
            (chatState
               (fst (initializeChatBot E later
                       (chat_page cs
                          (fst (initializeSalesBot E formFactor now suffix b))))))
          = Some s
          /\ ChatBotState.customerId
               (chatState
                  (fst (initializeChatBot E later
                          (chat_page cs
                             (fst (initializeSalesBot E formFactor now suffix
                                                      b))))))
             = Some customer).
Proof.
  intros Hmember Htrack.
  destruct (initializeSalesBot_session E formFactor now suffix b)
    as (s & Hs & Hstored & _ & Hresult).
  exists s, (customer_of member (Some s)).
  split; [exact (Hresult member u Hmember Htrack)|].
  split; [exact Hstored|].
  set (b' := fst (initializeSalesBot E formFactor now suffix b)) in *.
  split; [|split].
  - intro productId. unfold trackProductView, track_event.
    rewrite Hmember, Htrack, Hstored. reflexivity.
  - intro productId. unfold trackAddToCart, track_event.
    rewrite Hmember, Htrack, Hstored. reflexivity.
  - intros later cs. unfold initializeChatBot, chat_page.
    cbn [salesBotSessionId chatState]. rewrite Hstored, Hs, Hmember.
    cbn [fst chatState ChatBotState.addMessage ChatBotState.sessionId
         ChatBotState.customerId].
    split; [reflexivity|]. destruct member; reflexivity.
Qed.

Lemma one_session_witness :
  getMember (engines None) = Returned None
  /\ trackCustomerInteraction (engines None) = Returned tt
  /\ exists s customer,
       snd (initializeSalesBot (engines None) Desktop 1000 "x" Browser.new)
       = mkSalesBotResult true (Some s) (Some customer) None.
Proof.
  split; [reflexivity|]. split; [reflexivity|].
  destruct (one_session_and_one_customer_per_visit
              (engines None) Desktop 1000 "x" Browser.new None tt
              eq_refl eq_refl) as (s & customer & H & _).
  now exists s, customer.
Defined.

(** X19.  Tracking never creates the session id. For a visitor who is not
    logged in, on pages that do not initialise the sales bot, every product
    view and every add-to-cart is recorded for the customer [guest_null]
    without a session, however many are tracked, and the session storage
    still holds no id afterwards. *)
Theorem tracking_before_initialisation_names_guest_null (E : ChatEnv)
    (calls : list TrackingCall) (b : Browser.t) :
  getMember E = Returned None ->
  Browser.salesBotSessionId b = None ->
  Browser.interactions (fold_left (tracking_call E) calls b)
  = Browser.interactions b ++ map guest_null_interaction calls
  /\ Browser.salesBotSessionId (fold_left (tracking_call E) calls b) = None.
Proof.
  intros Hmember. revert b.
  induction calls as [|call calls IH]; intros b Hnone; cbn [fold_left map].
  - now rewrite app_nil_r.
  - assert (Hstep :
      Browser.interactions (tracking_call E b call)
      = Browser.interactions b ++ [guest_null_interaction call]
      /\ Browser.salesBotSessionId (tracking_call E b call) = None).
    { destruct call as [productId | productId];
        unfold tracking_call, trackProductView, trackAddToCart, track_event;
        rewrite Hmember, Hnone;
        destruct (trackCustomerInteraction E); cbn; rewrite ?Hnone;
        split; reflexivity. }
    destruct Hstep as (H1 & H2). destruct (IH _ H2) as (I1 & I2).
    split; [|exact I2]. rewrite I1, H1, <- app_assoc. reflexivity.
Qed.

Lemma tracking_before_initialisation_witness :
  Browser.interactions
    (fold_left (tracking_call (engines None))
               [product_view "p1"; add_to_cart "p1"] Browser.new)
  = [mkInteraction "guest_null" "product_view" None (Some "p1");
     mkInteraction "guest_null" "add_to_cart" None (Some "p1")].
Proof.
  apply (tracking_before_initialisation_names_guest_null
           (engines None) [product_view "p1"; add_to_cart "p1"] Browser.new
           eq_refl eq_refl).
Defined.

(** *** Exit intent *)

Lemma exit_listeners_installed (E : ChatEnv) (formFactor : FormFactor)
    (now : Z) (suffix : string) (b : Browser.t) :
  Browser.exitIntentShown (fst (initializeSalesBot E formFactor now suffix b))
  = Browser.exitIntentShown b
  /\ Browser.popups (fst (initializeSalesBot E formFactor now suffix b))
     = Browser.popups b
  /\ ((formFactor = Mobile \/ item_set (Browser.exitIntentShown b) = true) ->
      Browser.exitListeners
        (fst (initializeSalesBot E formFactor now suffix b))
      = Browser.exitListeners b)
  /\ (formFactor <> Mobile -> item_set (Browser.exitIntentShown b) = false ->
      forall customer,
        bot_customerId (snd (initializeSalesBot E formFactor now suffix b))
        = Some customer ->
        Browser.exitListeners
          (fst (initializeSalesBot E formFactor now suffix b))
        = Browser.exitListeners b
          ++ [mkExitListener (Browser.exitIntentShown b) customer]).
Proof.
  unfold initializeSalesBot.
  destruct (getMember E) as [member|e];
    [destruct (trackCustomerInteraction E) as [u|e]|];
    cbn [fst snd bot_customerId];
    unfold setupScrollTracking, setupExitIntentListener, log_interaction;
    destruct (item_set (Browser.salesBotSessionId b));
    cbn [Browser.exitIntentShown Browser.popups Browser.exitListeners];
    destruct (item_set (Browser.exitIntentShown b)) eqn:Hshown;
    destruct formFactor;
    cbn [Browser.exitIntentShown Browser.popups Browser.exitListeners];
    (split; [reflexivity|]); (split; [reflexivity|]);
    (split; [intros [H|H]; first [reflexivity | discriminate H]|]);
    intros Hf Hs; try discriminate Hs; try (now destruct Hf);
    intros customer [= <-]; reflexivity.
Qed.

Lemma mouseout_one_listener (l : ExitListener) (ys : list Q) :
  item_set (listener_exitIntentShown l) = false ->
  forall b,
    Browser.exitListeners b = [l] ->
    Browser.exitListeners (fold_left mouseout ys b) = [l]
    /\ Browser.popups (fold_left mouseout ys b)
       = Browser.popups b
         ++ repeat (listener_customerId l)
                   (List.length (filter (fun y => Qle_bool y 0) ys))
    /\ Browser.exitIntentShown (fold_left mouseout ys b)
       = (if existsb (fun y => Qle_bool y 0) ys
          then Some "true" else Browser.exitIntentShown b).
Proof.
  intro Hl. induction ys as [|y ys IH]; intros b Hb; cbn [fold_left].
  - cbn. rewrite app_nil_r. repeat split. exact Hb.
  - assert (Hstep :
      Browser.exitListeners (mouseout b y) = [l]
      /\ Browser.popups (mouseout b y)
         = Browser.popups b
           ++ (if Qle_bool y 0 then [listener_customerId l] else [])
      /\ Browser.exitIntentShown (mouseout b y)
         = (if Qle_bool y 0 then Some "true" else Browser.exitIntentShown b)).
    { unfold mouseout. rewrite Hb. cbn [fold_left]. unfold exit_listener.
      rewrite Hl. cbn [negb]. rewrite andb_true_r.
      destruct (Qle_bool y 0); cbn; rewrite ?app_nil_r; repeat split;
        exact Hb. }
    destruct Hstep as (H1 & H2 & H3).
    destruct (IH _ H1) as (I1 & I2 & I3).
    split; [exact I1|]. split.
    + rewrite I2, H2. cbn [filter existsb].
      destruct (Qle_bool y 0); cbn [List.length repeat];
        rewrite <- app_assoc; reflexivity.
    + rewrite I3, H3. cbn [existsb].
      destruct (Qle_bool y 0); cbn [orb]; [|reflexivity].
      now destruct (existsb (fun y0 => Qle_bool y0 0) ys).
Qed.

Lemma mouseout_no_listener (ys : list Q) : forall b,
  Browser.exitListeners b = [] -> fold_left mouseout ys b = b.
Proof.
  induction ys as [|y ys IH]; intros b Hb; cbn [fold_left]; [reflexivity|].
  assert (mouseout b y = b) as -> by (unfold mouseout; now rewrite Hb).
  now apply IH.
Qed.

(** X20.  The exit offer is held back between pages of a visit, not within a
    page. On a phone, or once the visit has shown the offer, a freshly
    loaded page installs no listener and no pointer movement opens the
    offer. Otherwise the page opens the offer for the initialised customer
    every time the pointer leaves through the top of the window, as often as
    that happens; the first time marks the visit, so that the next page
    loaded installs no listener. *)
Theorem exit_offer_is_shown_on_every_exit_of_a_page (E E' : ChatEnv)
    (formFactor formFactor' : FormFactor) (now now' : Z)
    (suffix suffix' : string) (b : Browser.t) (ys : list Q)
    (customer : string) :
  Browser.exitListeners b = [] ->
  bot_customerId (snd (initializeSalesBot E formFactor now suffix b))
  = Some customer ->
  ((formFactor = Mobile \/ item_set (Browser.exitIntentShown b) = true) ->
     Browser.popups
       (fold_left mouseout ys
          (fst (initializeSalesBot E formFactor now suffix b)))
     = Browser.popups b
     /\ Browser.exitIntentShown
          (fold_left mouseout ys
             (fst (initializeSalesBot E formFactor now suffix b)))
        = Browser.exitIntentShown b)
  /\ (formFactor <> Mobile -> item_set (Browser.exitIntentShown b) = false ->
      Browser.popups
        (fold_left mouseout ys
           (fst (initializeSalesBot E formFactor now suffix b)))
      = Browser.popups b
        ++ repeat customer (List.length (filter (fun y => Qle_bool y 0) ys))
      /\ (existsb (fun y => Qle_bool y 0) ys = true ->
          Browser.exitListeners
            (fst (initializeSalesBot E' formFactor' now' suffix'
                    (next_page
                       (fold_left mouseout ys
                          (fst (initializeSalesBot E formFactor now suffix
                                                   b))))))
          = [])).
Proof.
  intros Hfresh Hcustomer.
  destruct (exit_listeners_installed E formFactor now suffix b)
    as (Hshown & Hpopups & Hnone & Hone).
  split.
  - intro Hoff. specialize (Hnone Hoff). rewrite Hfresh in Hnone.
    rewrite (mouseout_no_listener ys _ Hnone). split; assumption.
  - intros Hf Hs. specialize (Hone Hf Hs customer Hcustomer).
    rewrite Hfresh in Hone. cbn [app] in Hone.
    destruct (mouseout_one_listener
                (mkExitListener (Browser.exitIntentShown b) customer) ys Hs
                _ Hone) as (_ & Hp & Hflag).
    cbn [listener_customerId] in Hp. rewrite Hpopups in Hp.
    split; [exact Hp|].
    intro Hexit. rewrite Hexit in Hflag.
    destruct (exit_listeners_installed E' formFactor' now' suffix'
                (next_page
                   (fold_left mouseout ys
                      (fst (initializeSalesBot E formFactor now suffix b)))))
      as (_ & _ & Hnone' & _).
    rewrite Hnone'; [reflexivity|].
    right. cbn [next_page Browser.exitIntentShown]. now rewrite Hflag.
Qed.

Lemma exit_offer_witness :
  Browser.exitListeners Browser.new = []
  /\ bot_customerId
       (snd (initializeSalesBot (engines None) Desktop 1000 "x" Browser.new))
     = Some "guest_session_rsx"
  /\ Browser.popups
       (fold_left mouseout [0; 12; -1]%Q
          (fst (initializeSalesBot (engines None) Desktop 1000 "x"
                                   Browser.new)))
     = ["guest_session_rsx"; "guest_session_rsx"].
Proof.
  split; [reflexivity|]. split; [reflexivity|].
  apply (exit_offer_is_shown_on_every_exit_of_a_page
           (engines None) (engines None) Desktop Desktop 1000 1000 "x" "x"
           Browser.new [0; 12; -1]%Q "guest_session_rsx" eq_refl eq_refl);
    [discriminate | reflexivity].
Defined.

(** *** Scroll depth *)

Lemma depth_gt_reaches (p m : Depth) (t : Z) :
  depth_gt p m = true -> depth_reaches m t = true -> depth_reaches p t = true.
Proof.
  destruct p as [x| | |], m as [y| | |]; cbn; try discriminate; try reflexivity.
  intros Hlt Hle. apply Z.ltb_lt in Hlt. apply Z.leb_le in Hle.
  apply Z.leb_le. lia.
Qed.

(** What the loop does between two waits: it passes over thresholds that
    are not reached or already tracked, and stops at the first that is
    reached and new. *)
Lemma next_milestone_some (m : Depth) (tracked rest : list Z) (t : Z)
    (rest' : list Z) :
  next_milestone m tracked rest = Some (t, rest') ->
  exists skipped,
    rest = skipped ++ t :: rest'
    /\ depth_reaches m t = true
    /\ ~ In t tracked
    /\ forall s, In s skipped -> depth_reaches m s = true -> In s tracked.
Proof.
  revert t rest'. induction rest as [|x rest IH]; intros t rest' H;
    cbn in H; [discriminate|].
  destruct (depth_reaches m x) eqn:Hx; cbn [andb] in H.
  - destruct (existsb (Z.eqb x) tracked) eqn:Hin; cbn [negb] in H.
    + destruct (IH _ _ H) as (skipped & -> & Ht & Hnew & Hskip).
      exists (x :: skipped). split; [reflexivity|].
      split; [exact Ht|]. split; [exact Hnew|].
      intros s [<- | Hs] Hr; [|now apply Hskip].
      apply existsb_exists in Hin. destruct Hin as (z & Hz & Heq).
      apply Z.eqb_eq in Heq. now subst.
    + injection H as <- <-. exists []. split; [reflexivity|].
      split; [exact Hx|]. split; [|intros s []].
      intro Hin'. apply Bool.not_true_iff_false in Hin. apply Hin.
      apply existsb_exists. exists x. split; [exact Hin' | apply Z.eqb_refl].
  - destruct (IH _ _ H) as (skipped & -> & Ht & Hnew & Hskip).
    exists (x :: skipped). split; [reflexivity|].
    split; [exact Ht|]. split; [exact Hnew|].
    intros s [<- | Hs] Hr; [congruence | now apply Hskip].
Qed.

Lemma next_milestone_none (m : Depth) (tracked rest : list Z) :
  next_milestone m tracked rest = None ->
  forall s, In s rest -> depth_reaches m s = true -> In s tracked.
Proof.
  induction rest as [|x rest IH]; intros H s Hs Hr; [destruct Hs|].
  cbn in H.
  destruct (depth_reaches m x) eqn:Hx; cbn [andb] in H.
  - destruct (existsb (Z.eqb x) tracked) eqn:Hin; cbn [negb] in H;
      [|discriminate].
    destruct Hs as [<- | Hs]; [|now apply IH].
    apply existsb_exists in Hin. destruct Hin as (z & Hz & Heq).
    apply Z.eqb_eq in Heq. now subst.
  - destruct Hs as [<- | Hs]; [congruence | now apply IH].
Qed.

Lemma In_remove_nth {A} (i : nat) (l : list A) (x : A) :
  In x (remove_nth i l) -> In x l.
Proof.
  revert i. induction l as [|a l IH]; intros [|i] H; cbn in *; auto.
  destruct H as [H|H]; auto. right. eapply IH, H.
Qed.

Lemma In_nth_or_remove {A} (i : nat) (l : list A) (x y : A) :
  nth_error l i = Some y -> In x l -> x = y \/ In x (remove_nth i l).
Proof.
  revert i. induction l as [|a l IH]; intros [|i] Hn Hx; cbn in *;
    try discriminate.
  - injection Hn as <-. destruct Hx; auto.
  - destruct Hx as [<- | Hx]; [right; now left|].
    destruct (IH _ Hn Hx); auto.
Qed.

Lemma run_loop_ok (rest : list Z) (st : ScrollTracker.t) :
  incl rest scrollThresholds -> milestones_ok st -> milestones_ok (run_loop rest st).
Proof.
  intros Hrest (Heq & Hnd & Hincl & Hreach & Hsusp). unfold run_loop.
  destruct (next_milestone (ScrollTracker.maxScrollDepth st)
                           (ScrollTracker.trackedThresholds st) rest)
    as [[t rest']|] eqn:Hnext; [|repeat split; assumption].
  destruct (next_milestone_some _ _ _ _ _ Hnext)
    as (skipped & -> & Ht & Hnew & _).
  unfold milestones_ok. cbn.
  split; [now rewrite Heq|]. split.
  { apply NoDup_app; [exact Hnd | constructor; [intros [] | constructor] |].
    intros a Ha [<- | []]. apply Hnew. now rewrite Heq. }
  split.
  { apply incl_app; [exact Hincl|]. intros a [<- | []].
    apply Hrest, in_elt. }
  split.
  { apply Forall_app. split; [exact Hreach|].
    constructor; [exact Ht | constructor]. }
  apply Forall_app. split; [exact Hsusp|]. constructor; [|constructor].
  intros a Ha. apply Hrest. apply in_or_app. right. now right.
Qed.

Lemma scroll_step_ok (st : ScrollTracker.t) (ev : ScrollEvent) :
  milestones_ok st -> milestones_ok (scroll_step st ev).
Proof.
  intros Hok. destruct ev as [p | i resolved]; cbn [scroll_step].
  - unfold on_scroll.
    destruct (depth_gt p (ScrollTracker.maxScrollDepth st)) eqn:Hgt;
      [|exact Hok].
    apply run_loop_ok; [apply incl_refl|].
    destruct Hok as (Heq & Hnd & Hincl & Hreach & Hsusp).
    unfold milestones_ok. cbn.
    split; [exact Heq|]. split; [exact Hnd|]. split; [exact Hincl|].
    split; [|exact Hsusp].
    eapply Forall_impl; [|exact Hreach]. intros t Ht. cbn in Ht.
    eapply depth_gt_reaches; eassumption.
  - unfold on_settled.
    destruct (nth_error (ScrollTracker.suspended st) i) as [rest|] eqn:Hn;
      [|exact Hok].
    destruct Hok as (Heq & Hnd & Hincl & Hreach & Hsusp).
    assert (Hrest : incl rest scrollThresholds).
    { rewrite Forall_forall in Hsusp. eapply Hsusp, nth_error_In, Hn. }
    assert (Hok' : milestones_ok
              (ScrollTracker.mk (ScrollTracker.customerId st)
                 (ScrollTracker.sessionId st)
                 (ScrollTracker.maxScrollDepth st)
                 (ScrollTracker.trackedThresholds st)
                 (remove_nth i (ScrollTracker.suspended st))
                 (ScrollTracker.calls st))).
    { unfold milestones_ok. cbn. repeat (split; [assumption|]).
      rewrite Forall_forall in *. intros r Hr.
      eapply Hsusp, In_remove_nth, Hr. }
    destruct resolved; [now apply run_loop_ok | exact Hok'].
Qed.

Lemma scroll_steps_ok (events : list ScrollEvent) : forall st,
  milestones_ok st -> milestones_ok (fold_left scroll_step events st).
Proof.
  induction events as [|ev events IH]; intros st Hok; cbn [fold_left];
    [exact Hok|].
  apply IH, scroll_step_ok, Hok.
Qed.

Lemma new_tracker_ok (customerId sessionId : string) :
  milestones_ok (ScrollTracker.new customerId sessionId).
Proof.
  unfold milestones_ok. cbn.
  split; [reflexivity|]. split; [constructor|].
  split; [intros a []|]. split; constructor.
Qed.

Lemma NoDup_incl_length_le {A} (l l' : list A) :
  NoDup l -> incl l l' -> List.length l <= List.length l'.
Proof. apply NoDup_incl_length. Qed.

(** X21.  Every scroll milestone is reported at most once per page. However
    the scroll events and the answers of the tracker interleave, and whether
    the tracker accepts or rejects, the depths handed to it are distinct,
    are among 25, 50, 75 and 100, have all been reached by the deepest
    scroll position so far, and are exactly the thresholds marked as
    tracked, so a page reports at most four. *)
Theorem scroll_milestones_are_reported_at_most_once
    (customerId sessionId : string) (events : list ScrollEvent) :
  NoDup (ScrollTracker.calls
           (fold_left scroll_step events
                      (ScrollTracker.new customerId sessionId)))
  /\ incl (ScrollTracker.calls
             (fold_left scroll_step events
                        (ScrollTracker.new customerId sessionId)))
          scrollThresholds
  /\ List.length
       (ScrollTracker.calls
          (fold_left scroll_step events
                     (ScrollTracker.new customerId sessionId))) <= 4
  /\ Forall (fun t =>
               depth_reaches
                 (ScrollTracker.maxScrollDepth
                    (fold_left scroll_step events
                               (ScrollTracker.new customerId sessionId))) t
               = true)
            (ScrollTracker.calls
               (fold_left scroll_step events
                          (ScrollTracker.new customerId sessionId)))
  /\ ScrollTracker.trackedThresholds
       (fold_left scroll_step events (ScrollTracker.new customerId sessionId))
     = ScrollTracker.calls
         (fold_left scroll_step events (ScrollTracker.new customerId sessionId)).
Proof.
  destruct (scroll_steps_ok events _ (new_tracker_ok customerId sessionId))
    as (Heq & Hnd & Hincl & Hreach & _).
  split; [exact Hnd|]. split; [exact Hincl|].
  split; [exact (NoDup_incl_length_le _ _ Hnd Hincl)|].
  split; [exact Hreach | exact Heq].
Qed.

Lemma run_loop_misses_nothing (rest : list Z) (st : ScrollTracker.t) :
  (forall t, In t scrollThresholds ->
     depth_reaches (ScrollTracker.maxScrollDepth st) t = true ->
     In t (ScrollTracker.trackedThresholds st)
     \/ In t rest
     \/ exists r, In r (ScrollTracker.suspended st) /\ In t r) ->
  nothing_missed (run_loop rest st).
Proof.
  intros H t Ht Hr. unfold run_loop in *.
  destruct (next_milestone (ScrollTracker.maxScrollDepth st)
                           (ScrollTracker.trackedThresholds st) rest)
    as [[t0 rest']|] eqn:Hnext; cbn in *.
  - destruct (next_milestone_some _ _ _ _ _ Hnext)
      as (skipped & -> & _ & _ & Hskip).
    destruct (H t Ht Hr) as [Hin | [Hin | (r & Hin & Htr)]].
    + left. apply in_or_app. now left.
    + apply in_app_or in Hin. destruct Hin as [Hin | [<- | Hin]].
      * left. apply in_or_app. left. now apply Hskip.
      * left. apply in_or_app. right. now left.
      * right. exists rest'. split; [|exact Hin].
        apply in_or_app. right. now left.
    + right. exists r. split; [|exact Htr]. apply in_or_app. now left.
  - destruct (H t Ht Hr) as [Hin | [Hin | (r & Hin & Htr)]].
    + now left.
    + left. eapply next_milestone_none; eassumption.
    + right. now exists r.
Qed.

Lemma scroll_step_misses_nothing (st : ScrollTracker.t) (ev : ScrollEvent) :
  no_rejection ev = true ->
  nothing_missed st -> nothing_missed (scroll_step st ev).
Proof.
  intros Hres Hinv. destruct ev as [p | i resolved]; cbn [scroll_step].
  - unfold on_scroll.
    destruct (depth_gt p (ScrollTracker.maxScrollDepth st)); [|exact Hinv].
    apply run_loop_misses_nothing. cbn. intros t Ht _. right. now left.
  - cbn in Hres. subst resolved. unfold on_settled.
    destruct (nth_error (ScrollTracker.suspended st) i) as [rest|] eqn:Hn;
      [|exact Hinv].
    apply run_loop_misses_nothing. cbn. intros t Ht Hr.
    destruct (Hinv t Ht Hr) as [Hin | (r & Hin & Htr)]; [now left|].
    right. destruct (In_nth_or_remove i _ r rest Hn Hin) as [-> | Hrem].
    + now left.
    + right. now exists r.
Qed.

Lemma scroll_steps_miss_nothing (events : list ScrollEvent) : forall st,
  forallb no_rejection events = true ->
  nothing_missed st -> nothing_missed (fold_left scroll_step events st).
Proof.
  induction events as [|ev events IH]; intros st Hres Hinv; cbn [fold_left];
    [exact Hinv|].
  cbn in Hres. apply andb_true_iff in Hres. destruct Hres as (H1 & H2).
  apply IH; [exact H2|]. now apply scroll_step_misses_nothing.
Qed.

(** X22.  As long as the tracker rejects no call, no milestone is lost: once
    every run of the listener has finished, each of the thresholds 25, 50,
    75 and 100 that the deepest scroll position has reached has been handed
    to the tracker, however the runs interleaved. *)
Theorem every_reached_milestone_is_reported
    (customerId sessionId : string) (events : list ScrollEvent) (t : Z) :
  forallb no_rejection events = true ->
  ScrollTracker.suspended
    (fold_left scroll_step events (ScrollTracker.new customerId sessionId))
  = [] ->
  In t scrollThresholds ->
  depth_reaches
    (ScrollTracker.maxScrollDepth
       (fold_left scroll_step events (ScrollTracker.new customerId sessionId)))
    t = true ->
  In t (ScrollTracker.calls
          (fold_left scroll_step events
                     (ScrollTracker.new customerId sessionId))).
Proof.
  intros Hres Hdone Ht Hr.
  assert (Hnew : nothing_missed (ScrollTracker.new customerId sessionId)).
  { intros x Hx Hx0. cbn in Hx, Hx0.
    destruct Hx as [<- | [<- | [<- | [<- | []]]]]; discriminate. }
  destruct (scroll_steps_ok events _ (new_tracker_ok customerId sessionId))
    as (Heq & _).
  destruct (scroll_steps_miss_nothing events _ Hres Hnew t Ht Hr)
    as [Hin | (r & Hin & _)].
  - now rewrite <- Heq.
  - rewrite Hdone in Hin. destruct Hin.
Qed.

Lemma every_reached_milestone_witness :
  In 50%Z
     (ScrollTracker.calls
        (fold_left scroll_step
           [scrolled (finite 30); scrolled (finite 80); settled 0 true;
            settled 0 true; settled 0 true]
           (ScrollTracker.new "c" "s"))).
Proof.
  apply (every_reached_milestone_is_reported "c" "s"
           [scrolled (finite 30); scrolled (finite 80); settled 0 true;
            settled 0 true; settled 0 true] 50%Z);
    [reflexivity | reflexivity | cbn; auto | reflexivity].
Defined.

(** ** The analytics endpoint *)

(** X23.  The analytics endpoint reads and never writes. When both queries
    go through it answers 200 with the store untouched; it reports the
    number of all orders and of all abandoned carts of the last thirty days,
    but sums revenue over, and looks for recovered carts among, the first
    fifty of them only. So it never reports more than fifty recovered carts,
    counts them all when the thirty days hold at most fifty carts, and
    otherwise misses every recovered cart beyond the fiftieth. A rejected
    query gives a 500 with its message. *)
Theorem analytics_counts_recovered_carts_on_the_first_page
    (render_analytics :
       Z -> list Order.t * nat -> nat -> list AbandonedCart.t -> JsValue)
    (E : Env) (now : Z) (w : World) :
  fst (get_salesAnalytics render_analytics E now w) = w
  /\ (find_error E 0 = None -> find_error E 1 = None ->
      snd (get_salesAnalytics render_analytics E now w)
      = ok (render_analytics now
              (firstn 50 (months_orders now w),
               List.length (months_orders now w))
              (List.length (months_carts now w))
              (filter AbandonedCart.recovered
                      (firstn 50 (months_carts now w))))
      /\ List.length (filter AbandonedCart.recovered
                             (firstn 50 (months_carts now w))) <= 50
      /\ (List.length (months_carts now w) <= 50 ->
          filter AbandonedCart.recovered (firstn 50 (months_carts now w))
          = filter AbandonedCart.recovered (months_carts now w))
      /\ (forall c, In c (filter AbandonedCart.recovered
                                 (firstn 50 (months_carts now w))) ->
                    In c (AbandonedCarts w)
                    /\ AbandonedCart.recovered c = true
                    /\ (now - 30 * 24 * 60 * 60 * 1000
                        <= AbandonedCart.abandonedAt c)%Z))
  /\ (forall e, find_error E 0 = Some e ->
        snd (get_salesAnalytics render_analytics E now w)
        = serverError (error_body "Failed to generate analytics" e))
  /\ (forall e, find_error E 0 = None -> find_error E 1 = Some e ->
        snd (get_salesAnalytics render_analytics E now w)
        = serverError (error_body "Failed to generate analytics" e)).
Proof.
  unfold get_salesAnalytics, salesAnalytics_try, find, bind, ret, throw.
  destruct (find_error E 0) as [e0|]; [|destruct (find_error E 1) as [e1|]];
    cbn [fst snd].
  - split; [reflexivity|]. split; [discriminate|].
    split; [now intros e [= <-] | discriminate].
  - split; [reflexivity|]. split; [discriminate|].
    split; [discriminate | now intros e _ [= <-]].
  - split; [reflexivity|]. split; [|split; discriminate].
    intros _ _. split; [reflexivity|]. split.
    { etransitivity; [apply filter_length_le|].
      rewrite length_firstn. apply Nat.le_min_l. }
    split.
    { intro Hfit. now rewrite firstn_all2. }
    intros c Hc. apply filter_In in Hc. destruct Hc as (Hc & Hrec).
    apply In_firstn in Hc. unfold months_carts in Hc.
    apply filter_In in Hc. destruct Hc as (Hc & Hage).
    apply Z.leb_le in Hage. now repeat split.
Qed.
